(** * AgriSure: the rule-based fraud scorer

    A shallow embedding of the scoring path of
    [ai-models/fraud_detection.py] (class [FraudDetectionEngine]) and of its
    simplified sibling [ai-models/demo_fraud_detection.py]
    (class [SimpleFraudDetector]), followed by the properties of the
    scorer that the specification states.

    Conventions of the embedding.
    - A number on which the code computes is a binary64 [float], and the
      arithmetic on it is the IEEE 754 arithmetic of Python: the fraud
      score (the weighted sum, its comparisons with 0.3, 0.6, 0.8 and 0.85
      and its rounding to two decimals), the estimated and the reported
      area, the NDVI readings, and the claim and policy amounts of the
      history.  A sum that is 0.6 on paper can be 0.6000000000000001
      there.  An [int] in such a place is the float of the same value; an
      [int] too large for a float is outside the model.
    - A number the code only compares with a literal (a coordinate, a
      rainfall, a temperature), a count, and the quotient of two counts
      are exact rationals ([Q]): these comparisons do not round.
    - The sub-score of an analyzer is a sum of at most three of the
      literals 0.2 ... 0.8, capped at 1.  Every such sum is, in binary64,
      the float nearest to the decimal it spells (lemma
      [sub_scores_are_doubles]); a sub-score is modelled by that decimal,
      and [to_float] takes it to the float that enters the weighted sum.
    - A dict with a fixed set of keys is a record of [option] fields:
      [None] is an absent key.  [d['k']] is [getitem], which raises
      [KeyError]; [d.get('k')] is the field itself; [d.get('k', v)] is
      [default v].
    - Exceptions are values of [result]; statements are sequenced with the
      bind of that monad, in the order in which Python evaluates them.
    - An ISO string denotes a naive datetime or, with a UTC offset, an
      aware one; subtracting one kind from the other raises [TypeError].
    - The stubbed helper methods of the engine (weather, NDVI, area
      estimate, duplicate lookup, damage pattern, damage signs) are the
      fields of a record [providers]; the engine is a section over it.
    - Logging is not modelled; [datetime.now()] is an argument. *)

From Stdlib Require Import QArith Qminmax Qabs Qround ZArith Lia Lqa Floats.
From stdpp Require Import gmap strings list.

#[local] Set Warnings "-inexact-float".

Local Open Scope Q_scope.

(** ** Python values *)

(** [x < y] on exact numbers, as a boolean. *)
Definition Qltb (x y : Q) : bool := negb (Qle_bool y x).

Infix "<?" := Qltb (at level 70, no associativity) : Q_scope.
Notation "x >? y" := (Qltb y x) (at level 70, no associativity, only parsing) : Q_scope.

(** The exceptions the scoring path can raise. *)
Inductive exn : Type :=
| KeyError (key : string)
| ValueError
| TypeError
| ZeroDivisionError.

Inductive result (A : Type) : Type :=
| Ok (a : A)
| Raise (e : exn).

Arguments Ok {A} a.
Arguments Raise {A} e.

#[global] Instance result_ret : MRet result := @Ok.

#[global] Instance result_bind : MBind result :=
  fun A B (f : A -> result B) (m : result A) =>
    match m with
    | Ok a => f a
    | Raise e => Raise e
    end.

(** [d[key]] *)
Definition getitem {A : Type} (key : string) (field : option A) : result A :=
  match field with
  | Some v => Ok v
  | None => Raise (KeyError key)
  end.

(** [bool(x)] for a number that may be [None]: [None] and zero are falsy. *)
Definition truthy (x : option Q) : bool :=
  match x with
  | Some v => negb (Qeq_bool v 0)
  | None => false
  end.

(** The same for a float: [0.0] and [-0.0] are falsy, a NaN is not. *)
Definition truthy_float (x : option float) : bool :=
  match x with
  | Some v => negb (v =? 0)%float
  | None => false
  end.

(** [x < y] and [x <= y] on floats, as propositions. *)
Definition Flt (x y : float) : Prop := (x <? y)%float = true.
Definition Fle (x y : float) : Prop := (x <=? y)%float = true.

Notation "x < y" := (Flt x y) : float_scope.
Notation "x <= y" := (Fle x y) : float_scope.
Notation "x >? y" := (PrimFloat.ltb y x) (at level 70, no associativity, only parsing)
  : float_scope.

(** [float(z)] for an [int]: the nearest float. *)
Definition float_of_Z (z : Z) : float := SF2Prim (binary_normalize prec emax z 0 false).

(** The float nearest to a rational whose numerator and denominator are
    below 2^53, as every score is: both are floats, and the quotient of two
    floats is rounded correctly. *)
Definition to_float (q : Q) : float :=
  (float_of_Z (Qnum q) / float_of_Z (Zpos (Qden q)))%float.

(** The rational a finite float is; 0 for an infinity and for a NaN. *)
Definition value (x : float) : Q :=
  match Prim2SF x with
  | S754_finite s m e =>
      (if s then - inject_Z (Zpos m) else inject_Z (Zpos m)) * 2 ^ e
  | _ => 0
  end.

(** The instants of the time line, in microseconds. *)
Definition datetime : Type := Z.

(** A [datetime] object: naive, or aware of its UTC offset (and then [t]
    is the instant in UTC). *)
Inductive pydatetime : Type :=
| Naive (t : datetime)
| Aware (t : datetime).

(** A [str] handed to [datetime.fromisoformat]: an ISO string without or
    with a UTC offset, or a string that is not in ISO format. *)
Inductive isostr : Type :=
| Iso (t : datetime)
| IsoOffset (t : datetime)
| NotIso.

Definition fromisoformat (s : isostr) : result pydatetime :=
  match s with
  | Iso t => Ok (Naive t)
  | IsoOffset t => Ok (Aware t)
  | NotIso => Raise ValueError
  end.

(** [a - b] on datetimes, in microseconds: a naive and an aware datetime
    cannot be subtracted. *)
Definition sub_datetime (a b : pydatetime) : result Z :=
  match a, b with
  | Naive x, Naive y => Ok (x - y)%Z
  | Aware x, Aware y => Ok (x - y)%Z
  | _, _ => Raise TypeError
  end.

Definition day_us : Z := 86400000000.

(** [delta.days] of a [timedelta] of [delta] microseconds: timedeltas are
    normalised with a floor, so a negative difference has negative days. *)
Definition days (delta : Z) : Z := (delta / day_us)%Z.

(** The nearest integer, ties to the even one. *)
Definition round_half_even (y : Q) : Z :=
  let f := Qfloor y in
  match Qcompare (y - inject_Z f) (1 # 2) with
  | Lt => f
  | Gt => (f + 1)%Z
  | Eq => if Z.even f then f else (f + 1)%Z
  end.

(** [round(x, 2)] of a float: the float nearest to the hundredth nearest
    to the number [x] is, ties to the even hundredth; the sign is kept.
    From 2^46 on the floats are more than 0.01 apart and [x] rounds to
    itself, as do zeros, infinities and NaN. *)
Definition round2 (x : float) : float :=
  match Prim2SF x with
  | S754_finite s m e =>
      let a := inject_Z (Zpos m) * 2 ^ e in
      if Qle_bool (2 ^ 46) a then x
      else
        let y := (float_of_Z (round_half_even (a * 100)) / 100)%float in
        if s then (- y)%float else y
  | _ => x
  end.

(** [if c: score += p] *)
Definition add_if (c : bool) (p : Q) (score : Q) : Q :=
  if c then score + p else score.

(** ** Data model *)

(** [claim_data] of the engine. *)
Module Claim.
Record t : Type := mk {
  claim_date : option isostr;
  sowing_date : option isostr;
  crop_type : option string;
  latitude : option Q;
  longitude : option Q;
  area_hectares : option float;
  damage_type : option string;
  claim_amount : option Q
}.
End Claim.

(** [farmer_data]. *)
Module Farmer.
Record t : Type := mk {
  farmer_id : option string;
  trust_score : option Q
}.
End Farmer.

(** One entry of [historical_data]. *)
Module Hist.
Record t : Type := mk {
  date : option isostr;
  claimed : option bool;
  damage_type : option string;
  claim_amount : option float;
  policy_amount : option float
}.

(** [d.get('claimed')] in a condition *)
Definition is_claimed (d : t) : bool := default false (claimed d).
End Hist.

(** The dict a weather lookup answers with. *)
Module Weather.
Record t : Type := mk {
  rainfall_7days : option Q;
  min_temp : option Q;
  hail_detected : option bool
}.

(** [not weather_data] holds of [None] and of the empty dict. *)
Definition is_empty (w : t) : bool :=
  match rainfall_7days w, min_temp w, hail_detected w with
  | None, None, None => true
  | _, _, _ => false
  end.
End Weather.

Inductive risk_level : Type := LOW | MEDIUM | HIGH | CRITICAL.

(** The dict [detect_claim_fraud] returns. *)
Module Assessment.
Record t : Type := mk {
  fraud_score : float;
  risk : risk_level;
  fraud_indicators : list string;
  requires_field_verification : bool;
  auto_reject : bool;
  timestamp : option Z
}.
End Assessment.

(** The helper methods the engine leaves to external services. *)
Record providers : Type := {
  _estimate_field_area_from_satellite : option Q -> option Q -> option float;
  _check_duplicate_coordinates : option Q -> option Q -> bool;
  _get_weather_data : option Q -> option Q -> option isostr -> option Weather.t;
  _get_ndvi_data : option Q -> option Q -> option isostr -> Z -> option float;
  _analyze_damage_pattern : option Q -> option Q -> option isostr -> string;
  _detect_artificial_damage_signs : option Q -> option Q -> option isostr -> bool
}.

(** The five sub-scores, in the order the engine computes them. *)
Record sub_scores : Type := {
  temporal_score : Q;
  geo_score : Q;
  weather_score : Q;
  satellite_score : Q;
  behavioral_score : Q
}.

(** ** FraudDetectionEngine *)

(** The list comprehension of [_analyze_temporal_patterns]: the entries
    whose date is less than 90 days before the claim date. *)
Fixpoint recent_claims (claim_date : pydatetime) (historical_data : list Hist.t)
  : result (list Hist.t) :=
  match historical_data with
  | [] => Ok []
  | claim :: rest =>
      s ← getitem "date" (Hist.date claim);
      d ← fromisoformat s;
      delta ← sub_datetime claim_date d;
      tl ← recent_claims claim_date rest;
      Ok (if (days delta <? 90)%Z then claim :: tl else tl)
  end.

Definition expected_ranges : gmap string (Z * Z) :=
  <["wheat" := (60, 180)%Z]>
    (<["rice" := (90, 150)%Z]>
       (<["cotton" := (90, 200)%Z]>
          (<["sugarcane" := (180, 365)%Z]> ∅))).

(** [crop_type in expected_ranges] and the claim is too early or too late. *)
Definition outside_expected_range (crop_type : string) (days_since_sowing : Z) : bool :=
  match expected_ranges !! crop_type with
  | Some (min_days, max_days) =>
      (days_since_sowing <? min_days)%Z || (days_since_sowing >? max_days)%Z
  | None => false
  end.

(** [crop_type in ['wheat', 'rice'] and days_since_sowing > 120] *)
Definition just_before_harvest (crop_type : string) (days_since_sowing : Z) : bool :=
  bool_decide (crop_type ∈ ["wheat"; "rice"]) && (days_since_sowing >? 120)%Z.

Definition _analyze_temporal_patterns
  (farmer_data : Farmer.t) (claim_data : Claim.t) (historical_data : list Hist.t)
  : result Q :=
  let score := 0 in
  s ← getitem "claim_date" (Claim.claim_date claim_data);
  claim_date ← fromisoformat s;
  recent ← recent_claims claim_date historical_data;
  let score := add_if (2 <? length recent)%nat 0.3 score in
  crop_type ← getitem "crop_type" (Claim.crop_type claim_data);
  s ← getitem "sowing_date" (Claim.sowing_date claim_data);
  sowing_date ← fromisoformat s;
  delta ← sub_datetime claim_date sowing_date;
  let days_since_sowing := days delta in
  let score := add_if (outside_expected_range crop_type days_since_sowing) 0.2 score in
  let score := add_if (just_before_harvest crop_type days_since_sowing) 0.3 score in
  Ok (Qmin score 1).

(** [_calculate_risk_level] *)
Definition _calculate_risk_level (fraud_score : float) : risk_level :=
  if (fraud_score <? 0.3)%float then LOW
  else if (fraud_score <? 0.6)%float then MEDIUM
  else if (fraud_score <? 0.8)%float then HIGH
  else CRITICAL.

(** [indicators.append(msg)] under [if c] *)
Definition append_if (c : bool) (msg : string) (indicators : list string) : list string :=
  if c then indicators ++ [msg] else indicators.

Definition _generate_fraud_indicators (temporal geo weather satellite behavioral : Q)
  : list string :=
  let indicators := [] in
  let indicators := append_if (temporal >? 0.5) "Suspicious timing pattern detected" indicators in
  let indicators := append_if (geo >? 0.5) "Geospatial data inconsistency" indicators in
  let indicators :=
    append_if (weather >? 0.5) "Weather data mismatch with claimed damage" indicators in
  let indicators :=
    append_if (satellite >? 0.5) "Satellite imagery suggests artificial damage" indicators in
  let indicators :=
    append_if (behavioral >? 0.5) "Unusual behavioral pattern in claim history" indicators in
  indicators.

(** [not lat or not lon or abs(lat) > 90 or abs(lon) > 180] *)
Definition invalid_coordinates (lat lon : option Q) : bool :=
  negb (truthy lat) || negb (truthy lon)
  || match lat, lon with
     | Some la, Some lo => (Qabs la >? 90) || (Qabs lo >? 180)
     | _, _ => false
     end.

(** [estimated_area and abs(estimated_area - reported_area) / reported_area > 0.3]:
    the right operand is evaluated only for a truthy estimate; the
    subtraction raises on [None] and the division on zero. *)
Definition area_mismatch (estimated_area reported_area : option float) : result bool :=
  match estimated_area with
  | None => Ok false
  | Some e =>
      if (e =? 0)%float then Ok false
      else
        match reported_area with
        | None => Raise TypeError
        | Some r =>
            if (r =? 0)%float then Raise ZeroDivisionError
            else Ok (abs (e - r) / r >? 0.3)%float
        end
  end.

(** The dict [inconsistencies] of [_verify_weather_consistency]. *)
Definition inconsistencies (weather_data : Weather.t) : gmap string bool :=
  <["drought" := default 0 (Weather.rainfall_7days weather_data) >? 20]>
    (<["flood" := default 0 (Weather.rainfall_7days weather_data) <? 50]>
       (<["hail" := negb (default false (Weather.hail_detected weather_data))]>
          (<["frost" := default 20 (Weather.min_temp weather_data) >? 5]> ∅))).

(** [damage_type in inconsistencies and inconsistencies[damage_type]] *)
Definition inconsistent (damage_type : option string) (weather_data : Weather.t) : bool :=
  match damage_type with
  | Some d => default false (inconsistencies weather_data !! d)
  | None => false
  end.

(** [ndvi_current and ndvi_historical], then the drop and the pattern. *)
Definition artificial_ndvi_drop (ndvi_current ndvi_historical : option float)
  (damage_pattern : string) : bool :=
  truthy_float ndvi_current && truthy_float ndvi_historical
  && match ndvi_current, ndvi_historical with
     | Some cur, Some old =>
         let ndvi_drop := (old - cur)%float in
         (ndvi_drop >? 0.3)%float && String.eqb damage_pattern "artificial"
     | _, _ => false
     end.

(** The set of the damage types of the claimed entries has one element. *)
Definition one_damage_type (damage_types : list (option string)) : bool :=
  (size (list_to_set damage_types : gset (option string)) =? 1)%nat.

(** [d.get('claim_amount', 0) > d.get('policy_amount', 0) * 0.8] *)
Definition is_large_claim (d : Hist.t) : bool :=
  (default 0 (Hist.claim_amount d) >? default 0 (Hist.policy_amount d) * 0.8)%float.

Definition _analyze_farmer_behavior (farmer_data : Farmer.t) (historical_data : list Hist.t)
  : Q :=
  let score := 0 in
  let farmer_id := Farmer.farmer_id farmer_data in
  let total_policies := length historical_data in
  let total_claims := length (List.filter Hist.is_claimed historical_data) in
  let score :=
    if (0 <? total_policies)%nat then
      let claim_ratio := inject_Z (Z.of_nat total_claims) / inject_Z (Z.of_nat total_policies) in
      add_if (claim_ratio >? 0.7) 0.5 score
    else score in
  let damage_types := map Hist.damage_type (List.filter Hist.is_claimed historical_data) in
  let score := add_if (one_damage_type damage_types && (2 <? length damage_types)%nat) 0.3 score in
  let large_claims := length (List.filter is_large_claim historical_data) in
  let score :=
    add_if (inject_Z (Z.of_nat large_claims) >? inject_Z (Z.of_nat total_claims) * 0.5) 0.4 score in
  Qmin score 1.

(** The accumulation of [fraud_score] in [detect_claim_fraud] and in
    [detect_fraud]: five float products, added in this order to [0.0]. *)
Definition weighted_sum (s : sub_scores) : float :=
  let fraud_score := 0%float in
  let fraud_score := (fraud_score + to_float (temporal_score s) * 0.25)%float in
  let fraud_score := (fraud_score + to_float (geo_score s) * 0.25)%float in
  let fraud_score := (fraud_score + to_float (weather_score s) * 0.20)%float in
  let fraud_score := (fraud_score + to_float (satellite_score s) * 0.20)%float in
  let fraud_score := (fraud_score + to_float (behavioral_score s) * 0.10)%float in
  fraud_score.

Section Engine.

Variable self : providers.

Definition _verify_geospatial_data (claim_data : Claim.t) : result Q :=
  let score := 0 in
  let lat := Claim.latitude claim_data in
  let lon := Claim.longitude claim_data in
  let reported_area := Claim.area_hectares claim_data in
  let score := add_if (invalid_coordinates lat lon) 0.5 score in
  let estimated_area := _estimate_field_area_from_satellite self lat lon in
  mismatch ← area_mismatch estimated_area reported_area;
  let score := add_if mismatch 0.4 score in
  let score := add_if (_check_duplicate_coordinates self lat lon) 0.6 score in
  Ok (Qmin score 1).

Definition _verify_weather_consistency (claim_data : Claim.t) : Q :=
  let score := 0 in
  let lat := Claim.latitude claim_data in
  let lon := Claim.longitude claim_data in
  let damage_type := Claim.damage_type claim_data in
  let claim_date := Claim.claim_date claim_data in
  match _get_weather_data self lat lon claim_date with
  | None => 0.2
  | Some weather_data =>
      if Weather.is_empty weather_data then 0.2
      else
        let score := add_if (inconsistent damage_type weather_data) 0.7 score in
        Qmin score 1
  end.

Definition _analyze_satellite_images (claim_data : Claim.t) : Q :=
  let score := 0 in
  let lat := Claim.latitude claim_data in
  let lon := Claim.longitude claim_data in
  let claim_date := Claim.claim_date claim_data in
  let ndvi_current := _get_ndvi_data self lat lon claim_date 0 in
  let ndvi_historical := _get_ndvi_data self lat lon claim_date 30 in
  let score :=
    add_if (artificial_ndvi_drop ndvi_current ndvi_historical
              (_analyze_damage_pattern self lat lon claim_date)) 0.6 score in
  let score := add_if (_detect_artificial_damage_signs self lat lon claim_date) 0.8 score in
  Qmin score 1.

(** Lines 53-71 of [detect_claim_fraud]: the five analyzers, in order. *)
Definition analyze (farmer_data : Farmer.t) (claim_data : Claim.t)
  (historical_data : list Hist.t) : result sub_scores :=
  temporal ← _analyze_temporal_patterns farmer_data claim_data historical_data;
  geo ← _verify_geospatial_data claim_data;
  let weather := _verify_weather_consistency claim_data in
  let satellite := _analyze_satellite_images claim_data in
  let behavioral := _analyze_farmer_behavior farmer_data historical_data in
  Ok {| temporal_score := temporal; geo_score := geo; weather_score := weather;
        satellite_score := satellite; behavioral_score := behavioral |}.

Definition detect_claim_fraud (now : Z) (farmer_data : Farmer.t) (claim_data : Claim.t)
  (historical_data : list Hist.t) : result Assessment.t :=
  s ← analyze farmer_data claim_data historical_data;
  let fraud_score := weighted_sum s in
  let risk_level := _calculate_risk_level fraud_score in
  let fraud_indicators :=
    _generate_fraud_indicators (temporal_score s) (geo_score s) (weather_score s)
      (satellite_score s) (behavioral_score s) in
  Ok {| Assessment.fraud_score := round2 fraud_score;
        Assessment.risk := risk_level;
        Assessment.fraud_indicators := fraud_indicators;
        Assessment.requires_field_verification := (fraud_score >? 0.6)%float;
        Assessment.auto_reject := (fraud_score >? 0.85)%float;
        Assessment.timestamp := Some now |}.

End Engine.

(** ** SimpleFraudDetector *)

Module Demo.

(** [claim_data] of the demonstration: the provider answers are fields
    of the claim itself. *)
Module Claim.
Record t : Type := mk {
  crop_type : option string;
  days_since_sowing : option Z;
  damage_type : option string;
  claim_amount : option Q;
  has_duplicate_coords : option bool;
  area_mismatch : option Q;
  rainfall : option Q;
  temperature : option Q;
  artificial_patterns : option bool;
  sudden_ndvi_drop : option bool
}.
End Claim.

(** [self.fraud_patterns] *)
Definition fraud_patterns : gmap string (gmap string Q) :=
  <["timing" := <["suspicious_harvest_timing" := 0.3]>
                  (<["multiple_claims_short_period" := 0.4]>
                     (<["claim_just_before_expiry" := 0.2]> ∅))]>
    (<["geospatial" := <["duplicate_coordinates" := 0.6]>
                         (<["area_mismatch" := 0.4]>
                            (<["invalid_coordinates" := 0.5]> ∅))]>
       (<["weather" := <["drought_with_rainfall" := 0.7]>
                         (<["flood_without_rain" := 0.7]>
                            (<["frost_high_temp" := 0.6]> ∅))]>
          (<["behavioral" := <["high_claim_frequency" := 0.5]>
                               (<["consistent_damage_type" := 0.3]>
                                  (<["large_claim_amounts" := 0.4]> ∅))]>
             (<["satellite" := <["artificial_damage_pattern" := 0.8]>
                                 (<["sudden_ndvi_drop" := 0.6]>
                                    (<["geometric_patterns" := 0.7]> ∅))]> ∅)))).

(** [self.fraud_patterns[family][name]] *)
Definition pattern (family name : string) : result Q :=
  m ← getitem family (fraud_patterns !! family);
  getitem name (m !! name).

(** [if c: score += self.fraud_patterns[family][name]] *)
Definition add_pattern_if (c : bool) (family name : string) (score : Q) : result Q :=
  if c then p ← pattern family name; Ok (score + p) else Ok score.

Definition analyze_timing (claim_data : Claim.t) (historical_data : list Hist.t)
  : result Q :=
  let score := 0 in
  crop_type ← getitem "crop_type" (Claim.crop_type claim_data);
  near_harvest ←
    (if bool_decide (crop_type ∈ ["wheat"; "rice"]) then
       d ← getitem "days_since_sowing" (Claim.days_since_sowing claim_data);
       Ok (d >? 120)%Z
     else Ok false);
  score ← add_pattern_if near_harvest "timing" "suspicious_harvest_timing" score;
  score ← add_pattern_if (1 <? length historical_data)%nat
            "timing" "multiple_claims_short_period" score;
  Ok (Qmin score 1).

Definition analyze_geospatial (claim_data : Claim.t) : result Q :=
  let score := 0 in
  score ← add_pattern_if (default false (Claim.has_duplicate_coords claim_data))
            "geospatial" "duplicate_coordinates" score;
  score ← add_pattern_if (default 0 (Claim.area_mismatch claim_data) >? 0.3)
            "geospatial" "area_mismatch" score;
  Ok (Qmin score 1).

Definition weather_inconsistencies (claim_data : Claim.t) : gmap string bool :=
  <["drought" := default 0 (Claim.rainfall claim_data) >? 20]>
    (<["flood" := default 0 (Claim.rainfall claim_data) <? 50]>
       (<["frost" := default 20 (Claim.temperature claim_data) >? 5]> ∅)).

Definition analyze_weather (claim_data : Claim.t) : result Q :=
  let score := 0 in
  damage_type ← getitem "damage_type" (Claim.damage_type claim_data);
  score ←
    (if default false (weather_inconsistencies claim_data !! damage_type) then
       if String.eqb damage_type "drought" then
         add_pattern_if true "weather" "drought_with_rainfall" score
       else if String.eqb damage_type "flood" then
         add_pattern_if true "weather" "flood_without_rain" score
       else if String.eqb damage_type "frost" then
         add_pattern_if true "weather" "frost_high_temp" score
       else Ok score
     else Ok score);
  Ok (Qmin score 1).

Definition analyze_satellite (claim_data : Claim.t) : result Q :=
  let score := 0 in
  score ← add_pattern_if (default false (Claim.artificial_patterns claim_data))
            "satellite" "artificial_damage_pattern" score;
  score ← add_pattern_if (default false (Claim.sudden_ndvi_drop claim_data))
            "satellite" "sudden_ndvi_drop" score;
  Ok (Qmin score 1).

Definition analyze_behavior (farmer_data : Farmer.t) (historical_data : list Hist.t)
  : result Q :=
  let score := 0 in
  score ←
    (if (0 <? length historical_data)%nat then
       let claim_ratio :=
         inject_Z (Z.of_nat (length (List.filter Hist.is_claimed historical_data)))
         / inject_Z (Z.of_nat (length historical_data)) in
       add_pattern_if (claim_ratio >? 0.7) "behavioral" "high_claim_frequency" score
     else Ok score);
  Ok (Qmin score 1).

(** The five scores [detect_fraud] computes, in its order. *)
Definition analyze (farmer_data : Farmer.t) (claim_data : Claim.t)
  (historical_data : list Hist.t) : result sub_scores :=
  timing ← analyze_timing claim_data historical_data;
  geo ← analyze_geospatial claim_data;
  weather ← analyze_weather claim_data;
  satellite ← analyze_satellite claim_data;
  behavioral ← analyze_behavior farmer_data historical_data;
  Ok {| temporal_score := timing; geo_score := geo; weather_score := weather;
        satellite_score := satellite; behavioral_score := behavioral |}.

(** The indicator list, with the thresholds of this class. *)
Definition indicators (s : sub_scores) : list string :=
  let fraud_indicators := [] in
  let fraud_indicators :=
    append_if (temporal_score s >? 0.3) "Suspicious timing pattern detected"
      fraud_indicators in
  let fraud_indicators :=
    append_if (geo_score s >? 0.4) "Geospatial data inconsistency" fraud_indicators in
  let fraud_indicators :=
    append_if (weather_score s >? 0.5) "Weather data mismatch with claimed damage"
      fraud_indicators in
  let fraud_indicators :=
    append_if (satellite_score s >? 0.5) "Satellite imagery suggests artificial damage"
      fraud_indicators in
  let fraud_indicators :=
    append_if (behavioral_score s >? 0.4) "Unusual behavioral pattern in claim history"
      fraud_indicators in
  fraud_indicators.

(** The risk-level chain written out in [detect_fraud]. *)
Definition risk_of (fraud_score : float) : risk_level :=
  if (fraud_score <? 0.3)%float then LOW
  else if (fraud_score <? 0.6)%float then MEDIUM
  else if (fraud_score <? 0.8)%float then HIGH
  else CRITICAL.

Definition detect_fraud (farmer_data : Farmer.t) (claim_data : Claim.t)
  (historical_data : list Hist.t) : result Assessment.t :=
  s ← analyze farmer_data claim_data historical_data;
  let fraud_score := weighted_sum s in
  Ok {| Assessment.fraud_score := round2 fraud_score;
        Assessment.risk := risk_of fraud_score;
        Assessment.fraud_indicators := indicators s;
        Assessment.requires_field_verification := (fraud_score >? 0.6)%float;
        Assessment.auto_reject := (fraud_score >? 0.85)%float;
        Assessment.timestamp := None |}.

End Demo.

(** ** The fraud report *)

(** The dict [save_fraud_report] builds. *)
Module Report.
Record t : Type := mk {
  farmer_id : option string;
  analysis_timestamp : Z;
  fraud_score : float;
  risk : risk_level;
  fraud_indicators : list string;
  blockchain_hash : string;
  requires_investigation : bool
}.
End Report.

(** [save_fraud_report]: the report is built from the keys of the analysis
    it reads; nothing is stored and the log line is not modelled. *)
Definition save_fraud_report (now : Z) (farmer_id : option string)
  (fraud_analysis : Assessment.t) (blockchain_hash : string) : Report.t :=
  {| Report.farmer_id := farmer_id;
     Report.analysis_timestamp := now;
     Report.fraud_score := Assessment.fraud_score fraud_analysis;
     Report.risk := Assessment.risk fraud_analysis;
     Report.fraud_indicators := Assessment.fraud_indicators fraud_analysis;
     Report.blockchain_hash := blockchain_hash;
     Report.requires_investigation :=
       Assessment.requires_field_verification fraud_analysis |}.

(** ** Vocabulary of the statements *)

Definition unit_interval (x : Q) : Prop := 0 <= x <= 1.

(** The same for a float. *)
Definition unit_interval_float (x : float) : Prop := (0 <= x)%float /\ (x <= 1)%float.

(** Every entry of the history carries a date in ISO format, without
    offset. *)
Definition dated (historical_data : list Hist.t) : Prop :=
  Forall (fun h => exists t, Hist.date h = Some (Iso t)) historical_data.

(** The two kinds of datetime an ISO string can denote. *)
Inductive kind : Type := naive | aware.

(** The kind of datetime a date field denotes, if it is present and in ISO
    format. *)
Definition kind_of (field : option isostr) : option kind :=
  match field with
  | Some (Iso _) => Some naive
  | Some (IsoOffset _) => Some aware
  | _ => None
  end.

(** The instant a date field denotes, if it is present and in ISO format. *)
Definition instant_of (field : option isostr) : option datetime :=
  match field with
  | Some (Iso t) => Some t
  | Some (IsoOffset t) => Some t
  | _ => None
  end.

(** The claim date, the sowing date and the dates of the history are all
    readable and all of kind [k]. *)
Definition dates_of_kind (k : kind) (claim_data : Claim.t)
  (historical_data : list Hist.t) : Prop :=
  kind_of (Claim.claim_date claim_data) = Some k /\
  kind_of (Claim.sowing_date claim_data) = Some k /\
  Forall (fun h => kind_of (Hist.date h) = Some k) historical_data.

(** The days since sowing lie outside the expected range of the crop, both
    ends of the range belonging to it. *)
Definition outside_window (crop_type : string) (d : Z) : Prop :=
  (crop_type = "wheat" /\ (d < 60 \/ 180 < d)%Z) \/
  (crop_type = "rice" /\ (d < 90 \/ 150 < d)%Z) \/
  (crop_type = "cotton" /\ (d < 90 \/ 200 < d)%Z) \/
  (crop_type = "sugarcane" /\ (d < 180 \/ 365 < d)%Z).

(** The same with the upper end excluded from the range. *)
Definition outside_half_open_window (crop_type : string) (d : Z) : Prop :=
  (crop_type = "wheat" /\ (d < 60 \/ 180 <= d)%Z) \/
  (crop_type = "rice" /\ (d < 90 \/ 150 <= d)%Z) \/
  (crop_type = "cotton" /\ (d < 90 \/ 200 <= d)%Z) \/
  (crop_type = "sugarcane" /\ (d < 180 \/ 365 <= d)%Z).

(** Wheat or rice, more than 120 days after sowing. *)
Definition near_harvest (crop_type : string) (d : Z) : Prop :=
  (crop_type = "wheat" \/ crop_type = "rice") /\ (120 < d)%Z.

(** The dates later than 90 days before the claim date. *)
Definition recent_dates (claim_date : datetime) (dates : list datetime) : list datetime :=
  filter (fun t => (claim_date - t < 90 * day_us)%Z) dates.

(** The readings of a weather answer contradict the claimed damage. *)
Definition contradicts (damage_type : option string) (w : Weather.t) : Prop :=
  (damage_type = Some "drought" /\ 20 < default 0 (Weather.rainfall_7days w)) \/
  (damage_type = Some "flood" /\ default 0 (Weather.rainfall_7days w) < 50) \/
  (damage_type = Some "hail" /\ default false (Weather.hail_detected w) = false) \/
  (damage_type = Some "frost" /\ 5 < default 20 (Weather.min_temp w)).

(** What the scoring path needs of its input to run to the end: dates that
    are readable and of one kind, a crop type, and a reported area to
    divide by when there is an estimate. *)
Definition scorable (self : providers) (claim_data : Claim.t)
  (historical_data : list Hist.t) : Prop :=
  (exists k, dates_of_kind k claim_data historical_data) /\
  (exists c, Claim.crop_type claim_data = Some c) /\
  (truthy_float (_estimate_field_area_from_satellite self (Claim.latitude claim_data)
                   (Claim.longitude claim_data)) = true ->
   exists a, Claim.area_hectares claim_data = Some a /\ (a =? 0)%float = false).

(** Well-formed input in the sense of the data model: the fields are
    present, the dates are timestamps, the coordinates are in range, the
    area is positive, the amount is not negative and the claim is not
    dated before sowing. *)
Definition well_formed (farmer_data : Farmer.t) (claim_data : Claim.t)
  (historical_data : list Hist.t) : Prop :=
  is_Some (Farmer.farmer_id farmer_data) /\
  (exists cd sd, instant_of (Claim.claim_date claim_data) = Some cd /\
                 instant_of (Claim.sowing_date claim_data) = Some sd /\
                 (0 <= days (cd - sd))%Z) /\
  is_Some (Claim.crop_type claim_data) /\
  (exists la lo, Claim.latitude claim_data = Some la /\
                 Claim.longitude claim_data = Some lo /\
                 Qabs la <= 90 /\ Qabs lo <= 180) /\
  (exists a, Claim.area_hectares claim_data = Some a /\ (0 < a)%float) /\
  is_Some (Claim.damage_type claim_data) /\
  (exists m, Claim.claim_amount claim_data = Some m /\ 0 <= m) /\
  Forall (fun h => is_Some (instant_of (Hist.date h))) historical_data.

(** Malformed input: a required field is missing, the area is negative, or
    the claim is dated before sowing. *)
Definition malformed (farmer_data : Farmer.t) (claim_data : Claim.t) : Prop :=
  Farmer.farmer_id farmer_data = None \/
  Claim.claim_date claim_data = None \/ Claim.sowing_date claim_data = None \/
  Claim.crop_type claim_data = None \/
  (exists a, Claim.area_hectares claim_data = Some a /\ (a < 0)%float) \/
  (exists cd sd, Claim.claim_date claim_data = Some (Iso cd) /\
                 Claim.sowing_date claim_data = Some (Iso sd) /\
                 (days (cd - sd) < 0)%Z).

(** ** Scenarios *)

(** Midnight of day [n]. *)
Definition on_day (n : Z) : isostr := Iso (n * day_us)%Z.

(** Providers that give the same answers everywhere. *)
Definition service (area : option float) (duplicate : bool) (weather : option Weather.t)
  (ndvi_now ndvi_before : option float) (pattern : string) (signs : bool) : providers :=
  {| _estimate_field_area_from_satellite := fun _ _ => area;
     _check_duplicate_coordinates := fun _ _ => duplicate;
     _get_weather_data := fun _ _ _ => weather;
     _get_ndvi_data := fun _ _ _ days_back => if (days_back =? 0)%Z then ndvi_now else ndvi_before;
     _analyze_damage_pattern := fun _ _ _ => pattern;
     _detect_artificial_damage_signs := fun _ _ _ => signs |}.

(** No provider has anything to report. *)
Definition quiet : providers := service None false None None None "natural" false.

(** Only the area estimate is available: 1.5 hectares. *)
Definition surveyed : providers :=
  service (Some 1.5%float) false None None None "natural" false.

(** A week with 45 mm of rain, 22 degrees at least and no hail. *)
Definition rainy_week : Weather.t :=
  {| Weather.rainfall_7days := Some 45; Weather.min_temp := Some 22;
     Weather.hail_detected := Some false |}.

Definition rainy : providers := service None false (Some rainy_week) None None "natural" false.

(** The vegetation index fell from 0.5 to 0 and the pattern looks artificial. *)
Definition bare_field : providers :=
  service None false None (Some 0%float) (Some 0.5%float) "artificial" false.

Definition kumar : Farmer.t :=
  {| Farmer.farmer_id := Some "0x742d35Cc6C8A4935E225b6f8CB0bEf8";
     Farmer.trust_score := Some 650 |}.

Definition anonymous : Farmer.t :=
  {| Farmer.farmer_id := None; Farmer.trust_score := None |}.

(** A claim for [crop] sown on day 0 and filed on day [claim_day]. *)
Definition claim_of (crop : string) (claim_day : Z) (lat lon : option Q)
  (area : option float) (damage : string) : Claim.t :=
  {| Claim.claim_date := Some (on_day claim_day);
     Claim.sowing_date := Some (on_day 0);
     Claim.crop_type := Some crop;
     Claim.latitude := lat;
     Claim.longitude := lon;
     Claim.area_hectares := area;
     Claim.damage_type := Some damage;
     Claim.claim_amount := Some 140000 |}.

Definition wheat_claim (claim_day : Z) : Claim.t :=
  claim_of "wheat" claim_day (Some 28.6139) (Some 77.2090) (Some 5%float) "pest".

Definition maize_claim (claim_day : Z) : Claim.t :=
  claim_of "maize" claim_day (Some 28.6139) (Some 77.2090) (Some 5%float) "pest".

Definition drought_claim : Claim.t :=
  claim_of "cotton" 100 (Some 21.1458) (Some 79.0882) (Some 3%float) "drought".

(** A field on the equator. *)
Definition equator_claim : Claim.t :=
  claim_of "cotton" 100 (Some 0) (Some 77.2090) (Some 5%float) "pest".

Definition zero_area_claim : Claim.t :=
  claim_of "cotton" 100 (Some 28.6139) (Some 77.2090) (Some 0%float) "pest".

(** Negative area, and filed 10 days before sowing. *)
Definition backdated_claim : Claim.t :=
  claim_of "cotton" (-10) (Some 28.6139) (Some 77.2090) (Some (-5)%float) "pest".

(** The wheat claim of day 100 with its claim date written with a UTC
    offset, the sowing date without. *)
Definition offset_claim : Claim.t :=
  {| Claim.claim_date := Some (IsoOffset (100 * day_us)%Z);
     Claim.sowing_date := Some (on_day 0);
     Claim.crop_type := Some "wheat";
     Claim.latitude := Some 28.6139;
     Claim.longitude := Some 77.2090;
     Claim.area_hectares := Some 5%float;
     Claim.damage_type := Some "pest";
     Claim.claim_amount := Some 140000 |}.

(** A policy without a claim, dated on day [n]. *)
Definition policy_on (n : Z) : Hist.t :=
  {| Hist.date := Some (on_day n); Hist.claimed := Some false; Hist.damage_type := None;
     Hist.claim_amount := Some 0%float; Hist.policy_amount := Some 150000%float |}.

(** Three entries dated after a claim of day 100. *)
Definition later_history : list Hist.t := [policy_on 130; policy_on 131; policy_on 140].

(** A claim recorded on day [n]: drought, 140000 claimed on a policy of 150000. *)
Definition drought_claim_on (n : Z) : Hist.t :=
  {| Hist.date := Some (on_day n); Hist.claimed := Some true;
     Hist.damage_type := Some "drought";
     Hist.claim_amount := Some 140000%float; Hist.policy_amount := Some 150000%float |}.

(** A claim of 3960.32 on a policy of 4950.4, of which it is 80% on paper. *)
Definition eighty_percent_claim_on (n : Z) : Hist.t :=
  {| Hist.date := Some (on_day n); Hist.claimed := Some true;
     Hist.damage_type := Some "flood";
     Hist.claim_amount := Some 3960.32%float; Hist.policy_amount := Some 4950.4%float |}.

(** Every provider reports against the claim. *)
Definition staged : providers :=
  service (Some 1.5%float) true (Some rainy_week) (Some 0.2%float) (Some 0.8%float)
    "artificial" true.

Definition staged_claim : Claim.t :=
  claim_of "wheat" 181 (Some 28.6139) (Some 77.2090) (Some 5%float) "drought".

Definition staged_history : list Hist.t :=
  [drought_claim_on 100; drought_claim_on 130; drought_claim_on 160].

(** Three policies without a claim in the 90 days before day 140. *)
Definition recent_policies : list Hist.t := [policy_on 110; policy_on 80; policy_on 55].

(** The first scenario of the demonstration. *)
Definition demo_claim : Demo.Claim.t :=
  {| Demo.Claim.crop_type := Some "wheat";
     Demo.Claim.days_since_sowing := Some 125%Z;
     Demo.Claim.damage_type := Some "pest";
     Demo.Claim.claim_amount := Some 140000;
     Demo.Claim.has_duplicate_coords := Some false;
     Demo.Claim.area_mismatch := Some 0.1;
     Demo.Claim.rainfall := Some 45;
     Demo.Claim.temperature := None;
     Demo.Claim.artificial_patterns := Some true;
     Demo.Claim.sudden_ndvi_drop := Some true |}.

(** ** Vocabulary of the further properties *)

(** The tiers in increasing order. *)
Definition risk_rank (r : risk_level) : nat :=
  match r with
  | LOW => 0
  | MEDIUM => 1
  | HIGH => 2
  | CRITICAL => 3
  end.

(** The number of analyzers whose score is not zero. *)
Definition fired (s : sub_scores) : nat :=
  (Nat.b2n (0 <? temporal_score s)%Q + Nat.b2n (0 <? geo_score s)%Q
   + Nat.b2n (0 <? weather_score s)%Q + Nat.b2n (0 <? satellite_score s)%Q
   + Nat.b2n (0 <? behavioral_score s)%Q)%nat.

(** The value of [x] is one of the values listed. *)
Definition one_of (x : Q) (values : list Q) : Prop := Exists (Qeq x) values.

(** The messages [_generate_fraud_indicators] can emit, in its order. *)
Definition timing_indicator : string := "Suspicious timing pattern detected".
Definition geo_indicator : string := "Geospatial data inconsistency".
Definition weather_indicator : string := "Weather data mismatch with claimed damage".
Definition satellite_indicator : string := "Satellite imagery suggests artificial damage".
Definition behavior_indicator : string := "Unusual behavioral pattern in claim history".

Definition all_indicators : list string :=
  [timing_indicator; geo_indicator; weather_indicator; satellite_indicator;
   behavior_indicator].

(** The coordinate check of the geospatial verifier rejects the pair: a
    coordinate is missing, is zero, or is out of range. *)
Definition coordinates_rejected (lat lon : option Q) : Prop :=
  lat = None \/ lon = None \/
  exists la lo, lat = Some la /\ lon = Some lo /\
                (la == 0 \/ lo == 0 \/ 90 < Qabs la \/ 180 < Qabs lo).

(** The estimate and the reported area are present and not zero, and the
    float quotient of their distance by the reported area exceeds 0.3. *)
Definition areas_differ (estimated_area reported_area : option float) : Prop :=
  exists e r, estimated_area = Some e /\ reported_area = Some r /\
              (e =? 0)%float = false /\ (r =? 0)%float = false /\
              (0.3 < abs (e - r) / r)%float.

(** Both readings are present and not zero, the float difference of the
    older and the current one exceeds 0.3, and the damage pattern is
    classified as artificial. *)
Definition ndvi_dropped (ndvi_current ndvi_historical : option float)
  (damage_pattern : string) : Prop :=
  exists cur old, ndvi_current = Some cur /\ ndvi_historical = Some old /\
                  (cur =? 0)%float = false /\ (old =? 0)%float = false /\
                  (0.3 < old - cur)%float /\
                  damage_pattern = "artificial".

(** The counts [_analyze_farmer_behavior] computes from the history. *)
Definition total_policies (historical_data : list Hist.t) : nat :=
  length historical_data.

Definition total_claims (historical_data : list Hist.t) : nat :=
  length (List.filter Hist.is_claimed historical_data).

Definition large_claims (historical_data : list Hist.t) : nat :=
  length (List.filter is_large_claim historical_data).

Definition damage_types (historical_data : list Hist.t) : list (option string) :=
  map Hist.damage_type (List.filter Hist.is_claimed historical_data).

(** At least three claimed entries, all with the same damage type. *)
Definition always_same_damage (historical_data : list Hist.t) : Prop :=
  (3 <= total_claims historical_data)%nat /\
  exists d, Forall (fun x => x = d) (damage_types historical_data).

(** The condition of the list comprehension of the temporal analyzer, for
    an entry whose date is readable and of the kind of the claim date. *)
Definition is_recent (claim_date : pydatetime) (entry : Hist.t) : bool :=
  match claim_date, Hist.date entry with
  | Naive c, Some (Iso t) => (days (c - t) <? 90)%Z
  | Aware c, Some (IsoOffset t) => (days (c - t) <? 90)%Z
  | _, _ => false
  end.

(** The kind of a datetime object. *)
Definition kind_of_datetime (d : pydatetime) : kind :=
  match d with
  | Naive _ => naive
  | Aware _ => aware
  end.

(** A policy on which nothing was claimed although the recorded claim
    amount equals the policy amount. *)
Definition unclaimed_full_amount : Hist.t :=
  {| Hist.date := Some (on_day 10); Hist.claimed := Some false; Hist.damage_type := None;
     Hist.claim_amount := Some 100000%float; Hist.policy_amount := Some 100000%float |}.

(** A demonstration claim on which every rule of every analyzer fires. *)
Definition demo_worst_claim : Demo.Claim.t :=
  {| Demo.Claim.crop_type := Some "wheat";
     Demo.Claim.days_since_sowing := Some 125%Z;
     Demo.Claim.damage_type := Some "drought";
     Demo.Claim.claim_amount := Some 140000;
     Demo.Claim.has_duplicate_coords := Some true;
     Demo.Claim.area_mismatch := Some 0.5;
     Demo.Claim.rainfall := Some 45;
     Demo.Claim.temperature := None;
     Demo.Claim.artificial_patterns := Some true;
     Demo.Claim.sudden_ndvi_drop := Some true |}.

(** ** The reachable sub-scores *)

(** The values of a sum of one, two or three optional penalties, capped
    at 1. *)
Definition penalties1 (p : Q) : list Q :=
  a ← [false; true]; [Qmin (add_if a p 0) 1].

Definition penalties2 (p q : Q) : list Q :=
  a ← [false; true]; b ← [false; true]; [Qmin (add_if b q (add_if a p 0)) 1].

Definition penalties3 (p q r : Q) : list Q :=
  a ← [false; true]; b ← [false; true]; c ← [false; true];
  [Qmin (add_if c r (add_if b q (add_if a p 0))) 1].

(** Every combination of the values of the five analyzers. *)
Definition combinations (ts gs ws ss bs : list Q) : list sub_scores :=
  t ← ts; g ← gs; w ← ws; s ← ss; b ← bs;
  [{| temporal_score := t; geo_score := g; weather_score := w; satellite_score := s;
      behavioral_score := b |}].

(** The sub-scores the engine can compute. *)
Definition engine_scores : list sub_scores :=
  combinations (penalties3 0.3 0.2 0.3) (penalties3 0.5 0.4 0.6) (0.2 :: penalties1 0.7)
    (penalties2 0.6 0.8) (penalties3 0.5 0.3 0.4).

(** The sub-scores the demonstration detector can compute. *)
Definition demo_scores : list sub_scores :=
  combinations (penalties2 0.3 0.4) (penalties2 0.6 0.4)
    [Qmin (0 + 0.7) 1; Qmin (0 + 0.6) 1; Qmin (0 + 0) 1]
    (penalties2 0.8 0.6) (penalties1 0.5).

(** [if c: score += p] and [min(score, 1.0)] as Python performs them on
    the floats of an analyzer. *)
Definition fadd_if (c : bool) (p : float) (score : float) : float :=
  if c then (score + p)%float else score.

Definition fmin (x y : float) : float := if (y <? x)%float then y else x.

(** The exact weighted sum of the sub-scores. *)
Definition exact_weighted_sum (s : sub_scores) : Q :=
  0.25 * temporal_score s + 0.25 * geo_score s + 0.20 * weather_score s
  + 0.20 * satellite_score s + 0.10 * behavioral_score s.

(** The reported score is the float nearest to a whole number of
    hundredths that lies within 0.005 of the number the fraud score is. *)
Definition rounds_to_hundredths (s : sub_scores) : bool :=
  let n := round_half_even (value (weighted_sum s) * 100) in
  PrimFloat.Leibniz.eqb (round2 (weighted_sum s)) (float_of_Z n / 100)%float
  && Qle_bool (Qabs (inject_Z n / 100 - value (weighted_sum s))) (1 # 200)
  && (0 <=? n)%Z && (n <=? 89)%Z.

(** ** Keys for the order of the floats *)

(** A key of a float that is not a NaN: the floats are ordered as their
    keys are ordered lexicographically. *)
Definition SFkey (x : spec_float) : Z * Z * Z :=
  match x with
  | S754_nan => (0, 0, 0)%Z
  | S754_zero _ => (0, 0, 0)%Z
  | S754_infinity s => (if s then -2 else 2, 0, 0)%Z
  | S754_finite s m e => if s then (-1, - e, Zneg m)%Z else (1, e, Zpos m)%Z
  end.

(** The lexicographic comparison of two keys. *)
Definition lex3 (a b : Z * Z * Z) : comparison :=
  match (a.1.1 ?= b.1.1)%Z with
  | Eq => match (a.1.2 ?= b.1.2)%Z with
          | Eq => (a.2 ?= b.2)%Z
          | c => c
          end
  | c => c
  end.

(** The strict lexicographic order of the keys. *)
Definition lt3 (a b : Z * Z * Z) : Prop :=
  (a.1.1 < b.1.1 \/ a.1.1 = b.1.1 /\ (a.1.2 < b.1.2 \/ a.1.2 = b.1.2 /\ a.2 < b.2))%Z.

(** * Properties *)

(** ** Numbers and the result monad *)

Lemma Qltb_lt (x y : Q) : (x <? y) = true <-> x < y.
Proof.
  unfold Qltb. rewrite negb_true_iff. split.
  - intros H. apply Qnot_le_lt. intros Hle.
    apply Qle_bool_iff in Hle. congruence.
  - intros H. destruct (Qle_bool y x) eqn:E; [|reflexivity].
    apply Qle_bool_iff in E. exfalso. apply (Qlt_not_le _ _ H E).
Qed.

Lemma Qltb_ge (x y : Q) : (x <? y) = false <-> y <= x.
Proof.
  unfold Qltb. rewrite negb_false_iff. apply Qle_bool_iff.
Qed.

Lemma bind_Ok {A B : Type} (m : result A) (f : A -> result B) (b : B) :
  m ≫= f = Ok b <-> exists a, m = Ok a /\ f a = Ok b.
Proof.
  unfold mbind, result_bind. destruct m as [a|e]; split.
  - intros H. exists a. split; [reflexivity | exact H].
  - intros (a' & Ha & H). inversion Ha. subst. exact H.
  - discriminate.
  - intros (a' & Ha & _). discriminate.
Qed.

(** Peels the binds of a hypothesis [m ≫= f = Ok b]. *)
Ltac bind_inv H :=
  repeat
    (let a := fresh "v" in
     let E := fresh "E" in
     apply bind_Ok in H; destruct H as (a & E & H)).

(** Reduces the binds of the goal whose left operand is known. *)
Ltac step := cbn [getitem fromisoformat sub_datetime mbind result_bind].

Lemma add_if_sum (c : bool) (p score : Q) :
  add_if c p score == score + (if c then p else 0).
Proof. destruct c; simpl; ring. Qed.

Lemma add_if_nonneg (c : bool) (p score : Q) :
  0 <= p -> 0 <= score -> 0 <= add_if c p score.
Proof. intros Hp Hs. destruct c; simpl; lra. Qed.

Lemma Qmin_1_unit (score : Q) : 0 <= score -> 0 <= Qmin score 1 <= 1.
Proof.
  intros H. split.
  - apply Q.min_glb; lra.
  - apply Q.le_min_r.
Qed.

(** Decides a comparison between two closed numbers. *)
Ltac qdecide :=
  vm_compute; first [ reflexivity | discriminate | intros H; discriminate H ].

(** ** The order of the floats *)

Lemma SFcompare_key (a b : spec_float) :
  a <> S754_nan -> b <> S754_nan -> SFcompare a b = Some (lex3 (SFkey a) (SFkey b)).
Proof.
  intros Ha Hb. destruct a as [sa|sa| |sa ma ea], b as [sb|sb| |sb mb eb]; try congruence;
    try (destruct sa); try (destruct sb); try reflexivity.
  unfold SFcompare, SFkey, lex3. simpl.
  rewrite Z.compare_opp. rewrite (Z.compare_antisym ea eb).
  destruct (ea ?= eb)%Z; simpl; reflexivity.
Qed.

Lemma SFcompare_nan (a b : spec_float) :
  SFcompare a b = None <-> a = S754_nan \/ b = S754_nan.
Proof.
  destruct a as [sa|sa| |sa ma ea], b as [sb|sb| |sb mb eb]; simpl;
    intuition (try discriminate; try congruence).
  all: try (destruct sa; discriminate).
Qed.

Lemma lex3_Lt (a b : Z * Z * Z) : lex3 a b = Lt <-> lt3 a b.
Proof.
  unfold lex3, lt3. destruct a as [[a1 a2] a3], b as [[b1 b2] b3]. simpl.
  destruct (Z.compare_spec a1 b1); [|split; [lia|reflexivity]|split; [discriminate|lia]].
  destruct (Z.compare_spec a2 b2); [|split; [lia|reflexivity]|split; [discriminate|lia]].
  destruct (Z.compare_spec a3 b3); split; try discriminate; try reflexivity; lia.
Qed.

Lemma lex3_Eq (a b : Z * Z * Z) : lex3 a b = Eq <-> a = b.
Proof.
  unfold lex3. destruct a as [[a1 a2] a3], b as [[b1 b2] b3]. simpl.
  destruct (Z.compare_spec a1 b1); [subst|split; [discriminate|intros [=]; lia]..].
  destruct (Z.compare_spec a2 b2); [subst|split; [discriminate|intros [=]; lia]..].
  destruct (Z.compare_spec a3 b3); [subst|split; [discriminate|intros [=]; lia]..].
  split; reflexivity.
Qed.

(** [x < y] and [x <= y] on floats through the keys. *)
Lemma Flt_key (x y : float) :
  (x < y)%float <->
  Prim2SF x <> S754_nan /\ Prim2SF y <> S754_nan /\
  lt3 (SFkey (Prim2SF x)) (SFkey (Prim2SF y)).
Proof.
  unfold Flt. rewrite FloatAxioms.ltb_spec. unfold SFltb.
  destruct (SFcompare (Prim2SF x) (Prim2SF y)) as [c|] eqn:E.
  - assert (Hx : Prim2SF x <> S754_nan) by (intros H; rewrite H in E; discriminate).
    assert (Hy : Prim2SF y <> S754_nan).
    { intros H. rewrite H in E. destruct (Prim2SF x); discriminate. }
    rewrite (SFcompare_key _ _ Hx Hy) in E. injection E as <-.
    rewrite <- lex3_Lt. destruct (lex3 _ _); intuition discriminate.
  - apply SFcompare_nan in E. split; [discriminate|]. tauto.
Qed.

Lemma Fle_key (x y : float) :
  (x <= y)%float <->
  Prim2SF x <> S754_nan /\ Prim2SF y <> S754_nan /\
  (lt3 (SFkey (Prim2SF x)) (SFkey (Prim2SF y)) \/ SFkey (Prim2SF x) = SFkey (Prim2SF y)).
Proof.
  unfold Fle. rewrite FloatAxioms.leb_spec. unfold SFleb.
  destruct (SFcompare (Prim2SF x) (Prim2SF y)) as [c|] eqn:E.
  - assert (Hx : Prim2SF x <> S754_nan) by (intros H; rewrite H in E; discriminate).
    assert (Hy : Prim2SF y <> S754_nan).
    { intros H. rewrite H in E. destruct (Prim2SF x); discriminate. }
    rewrite (SFcompare_key _ _ Hx Hy) in E. injection E as <-.
    pose proof (lex3_Lt (SFkey (Prim2SF x)) (SFkey (Prim2SF y))) as H1.
    pose proof (lex3_Eq (SFkey (Prim2SF x)) (SFkey (Prim2SF y))) as H2.
    destruct (lex3 _ _); intuition discriminate.
  - apply SFcompare_nan in E. split; [discriminate|]. tauto.
Qed.

Lemma is_nan_spec (x : float) : is_nan x = true <-> Prim2SF x = S754_nan.
Proof.
  unfold is_nan. rewrite negb_true_iff, FloatAxioms.eqb_spec. unfold SFeqb.
  destruct (SFcompare (Prim2SF x) (Prim2SF x)) as [c|] eqn:E.
  - assert (Hx : Prim2SF x <> S754_nan) by (intros H; rewrite H in E; discriminate).
    rewrite (SFcompare_key _ _ Hx Hx) in E. injection E as <-.
    rewrite (proj2 (lex3_Eq _ _) eq_refl). split; [discriminate | contradiction].
  - apply SFcompare_nan in E. split; [tauto | reflexivity].
Qed.

Lemma not_nan_spec (x : float) : is_nan x = false <-> Prim2SF x <> S754_nan.
Proof.
  rewrite <- is_nan_spec. destruct (is_nan x); split; congruence.
Qed.

Lemma Flt_not_nan (x y : float) : (x < y)%float -> is_nan x = false /\ is_nan y = false.
Proof. rewrite Flt_key, !not_nan_spec. tauto. Qed.

Lemma Fle_not_nan (x y : float) : (x <= y)%float -> is_nan x = false /\ is_nan y = false.
Proof. rewrite Fle_key, !not_nan_spec. tauto. Qed.

Lemma Fle_Flt_trans (x y z : float) : (x <= y)%float -> (y < z)%float -> (x < z)%float.
Proof.
  rewrite !Flt_key, Fle_key. unfold lt3. intros (Hx & Hy & [H|H]) (_ & Hz & H');
    (split; [exact Hx|]; split; [exact Hz|]); [|rewrite H; exact H'].
  destruct (SFkey (Prim2SF x)) as [[a1 a2] a3], (SFkey (Prim2SF y)) as [[b1 b2] b3],
    (SFkey (Prim2SF z)) as [[c1 c2] c3]. simpl in *. lia.
Qed.

Lemma Flt_Fle_trans (x y z : float) : (x < y)%float -> (y <= z)%float -> (x < z)%float.
Proof.
  rewrite !Flt_key, Fle_key. unfold lt3. intros (Hx & Hy & H) (_ & Hz & [H'|H']);
    (split; [exact Hx|]; split; [exact Hz|]); [|rewrite <- H'; exact H].
  destruct (SFkey (Prim2SF x)) as [[a1 a2] a3], (SFkey (Prim2SF y)) as [[b1 b2] b3],
    (SFkey (Prim2SF z)) as [[c1 c2] c3]. simpl in *. lia.
Qed.

Lemma Flt_Fle (x y : float) : (x < y)%float -> (x <= y)%float.
Proof. rewrite Flt_key, Fle_key. tauto. Qed.

Lemma Flt_trans (x y z : float) : (x < y)%float -> (y < z)%float -> (x < z)%float.
Proof. intros H1 H2. apply (Fle_Flt_trans x y z); [apply Flt_Fle|]; assumption. Qed.

Lemma Flt_not_Fle (x y : float) : (x < y)%float -> ~ (y <= x)%float.
Proof.
  rewrite Flt_key, Fle_key. unfold lt3. intros (_ & _ & H) (_ & _ & [H'|H']).
  - destruct (SFkey (Prim2SF x)) as [[a1 a2] a3], (SFkey (Prim2SF y)) as [[b1 b2] b3].
    simpl in *. lia.
  - rewrite H' in H. destruct (SFkey (Prim2SF x)) as [[a1 a2] a3]. simpl in *. lia.
Qed.

Lemma Flt_or_Fle (x y : float) :
  is_nan x = false -> is_nan y = false -> (x < y)%float \/ (y <= x)%float.
Proof.
  rewrite !not_nan_spec. intros Hx Hy.
  rewrite Flt_key, Fle_key. unfold lt3.
  destruct (SFkey (Prim2SF x)) as [[a1 a2] a3] eqn:Ex, (SFkey (Prim2SF y)) as [[b1 b2] b3] eqn:Ey.
  simpl.
  destruct (Z.compare_spec a1 b1); [|left; tauto|right; repeat split; auto; left; lia].
  destruct (Z.compare_spec a2 b2); [|left; tauto|right; repeat split; auto; left; lia].
  destruct (Z.compare_spec a3 b3); [|left; tauto|right; repeat split; auto; left; lia].
  right. repeat split; auto. right. congruence.
Qed.

(** For a float that is not a NaN, [x < c] fails exactly when [c <= x]. *)
Lemma Fltb_false (x c : float) :
  is_nan x = false -> is_nan c = false -> ((x <? c)%float = false <-> (c <= x)%float).
Proof.
  intros Hx Hc. split.
  - intros H. destruct (Flt_or_Fle x c Hx Hc) as [Hlt|Hle]; [|exact Hle].
    unfold Flt in Hlt. congruence.
  - intros H. destruct (x <? c)%float eqn:E; [|reflexivity].
    exfalso. apply (Flt_not_Fle x c E H).
Qed.

(** ** The scores the analyzers can return *)

Lemma elem_of_penalties1 (a : bool) (p : Q) : Qmin (add_if a p 0) 1 ∈ penalties1 p.
Proof. destruct a; unfold penalties1; simpl; set_solver. Qed.

Lemma elem_of_penalties2 (a b : bool) (p q : Q) :
  Qmin (add_if b q (add_if a p 0)) 1 ∈ penalties2 p q.
Proof. destruct a, b; unfold penalties2; simpl; set_solver. Qed.

Lemma elem_of_penalties3 (a b c : bool) (p q r : Q) :
  Qmin (add_if c r (add_if b q (add_if a p 0))) 1 ∈ penalties3 p q r.
Proof. destruct a, b, c; unfold penalties3; simpl; set_solver. Qed.

Lemma elem_of_combinations (ts gs ws ss bs : list Q) (t g w s b : Q) :
  t ∈ ts -> g ∈ gs -> w ∈ ws -> s ∈ ss -> b ∈ bs ->
  {| temporal_score := t; geo_score := g; weather_score := w; satellite_score := s;
     behavioral_score := b |} ∈ combinations ts gs ws ss bs.
Proof.
  intros Ht Hg Hw Hs Hb. unfold combinations.
  apply list_elem_of_bind. exists t. split; [|exact Ht].
  apply list_elem_of_bind. exists g. split; [|exact Hg].
  apply list_elem_of_bind. exists w. split; [|exact Hw].
  apply list_elem_of_bind. exists s. split; [|exact Hs].
  apply list_elem_of_bind. exists b. split; [|exact Hb].
  apply list_elem_of_singleton. reflexivity.
Qed.

Lemma forallb_elem_of {A : Type} (f : A -> bool) (l : list A) (x : A) :
  forallb f l = true -> x ∈ l -> f x = true.
Proof.
  intros H Hx. rewrite forallb_forall in H. apply H. apply list_elem_of_In. exact Hx.
Qed.

(** ** Every score is in the unit interval *)

Lemma temporal_shape (farmer_data : Farmer.t) (claim_data : Claim.t)
  (historical_data : list Hist.t) (t : Q) :
  _analyze_temporal_patterns farmer_data claim_data historical_data = Ok t ->
  exists a b c : bool, t = Qmin (add_if c 0.3 (add_if b 0.2 (add_if a 0.3 0))) 1.
Proof.
  unfold _analyze_temporal_patterns. intros H. bind_inv H.
  inversion H. eauto.
Qed.

Lemma geospatial_shape (self : providers) (claim_data : Claim.t) (g : Q) :
  _verify_geospatial_data self claim_data = Ok g ->
  exists a b c : bool, g = Qmin (add_if c 0.6 (add_if b 0.4 (add_if a 0.5 0))) 1.
Proof.
  unfold _verify_geospatial_data. intros H. bind_inv H.
  inversion H. eauto.
Qed.

Lemma weather_shape (self : providers) (claim_data : Claim.t) :
  _verify_weather_consistency self claim_data = 0.2 \/
  exists a : bool, _verify_weather_consistency self claim_data = Qmin (add_if a 0.7 0) 1.
Proof.
  unfold _verify_weather_consistency.
  destruct (_get_weather_data _ _ _ _) as [w|]; [|left; reflexivity].
  destruct (Weather.is_empty w); [left; reflexivity|]. right. eauto.
Qed.

Lemma satellite_shape (self : providers) (claim_data : Claim.t) :
  exists a b : bool,
    _analyze_satellite_images self claim_data = Qmin (add_if b 0.8 (add_if a 0.6 0)) 1.
Proof. unfold _analyze_satellite_images. eauto. Qed.

Lemma behavior_shape (farmer_data : Farmer.t) (historical_data : list Hist.t) :
  exists a b c : bool,
    _analyze_farmer_behavior farmer_data historical_data
    = Qmin (add_if c 0.4 (add_if b 0.3 (add_if a 0.5 0))) 1.
Proof.
  unfold _analyze_farmer_behavior.
  destruct (0 <? length historical_data)%nat.
  - eauto.
  - exists false. eauto.
Qed.

Lemma temporal_unit (farmer_data : Farmer.t) (claim_data : Claim.t)
  (historical_data : list Hist.t) (t : Q) :
  _analyze_temporal_patterns farmer_data claim_data historical_data = Ok t ->
  unit_interval t.
Proof.
  intros H. apply temporal_shape in H. destruct H as (a & b & c & ->).
  apply Qmin_1_unit. repeat apply add_if_nonneg; lra.
Qed.

Lemma geospatial_unit (self : providers) (claim_data : Claim.t) (g : Q) :
  _verify_geospatial_data self claim_data = Ok g -> unit_interval g.
Proof.
  intros H. apply geospatial_shape in H. destruct H as (a & b & c & ->).
  apply Qmin_1_unit. repeat apply add_if_nonneg; lra.
Qed.

Lemma weather_unit (self : providers) (claim_data : Claim.t) :
  unit_interval (_verify_weather_consistency self claim_data).
Proof.
  unfold _verify_weather_consistency.
  destruct (_get_weather_data _ _ _ _) as [w|]; [|split; lra].
  destruct (Weather.is_empty w); [split; lra|].
  apply Qmin_1_unit. apply add_if_nonneg; lra.
Qed.

Lemma satellite_unit (self : providers) (claim_data : Claim.t) :
  unit_interval (_analyze_satellite_images self claim_data).
Proof.
  unfold _analyze_satellite_images. apply Qmin_1_unit.
  repeat apply add_if_nonneg; lra.
Qed.

Lemma behavior_unit (farmer_data : Farmer.t) (historical_data : list Hist.t) :
  unit_interval (_analyze_farmer_behavior farmer_data historical_data).
Proof.
  unfold _analyze_farmer_behavior. apply Qmin_1_unit.
  repeat apply add_if_nonneg; try lra.
  destruct (0 <? length historical_data)%nat; [apply add_if_nonneg|]; lra.
Qed.

Lemma analyze_Ok (self : providers) (farmer_data : Farmer.t) (claim_data : Claim.t)
  (historical_data : list Hist.t) (s : sub_scores) :
  analyze self farmer_data claim_data historical_data = Ok s <->
  exists t g,
    _analyze_temporal_patterns farmer_data claim_data historical_data = Ok t /\
    _verify_geospatial_data self claim_data = Ok g /\
    s = {| temporal_score := t; geo_score := g;
           weather_score := _verify_weather_consistency self claim_data;
           satellite_score := _analyze_satellite_images self claim_data;
           behavioral_score := _analyze_farmer_behavior farmer_data historical_data |}.
Proof.
  unfold analyze. split.
  - intros H. bind_inv H. inversion H. eauto.
  - intros (t & g & Ht & Hg & ->). rewrite Ht, Hg. reflexivity.
Qed.

Lemma detect_claim_fraud_Ok (self : providers) (now : Z) (farmer_data : Farmer.t)
  (claim_data : Claim.t) (historical_data : list Hist.t) (r : Assessment.t) :
  detect_claim_fraud self now farmer_data claim_data historical_data = Ok r <->
  exists s,
    analyze self farmer_data claim_data historical_data = Ok s /\
    r = {| Assessment.fraud_score := round2 (weighted_sum s);
           Assessment.risk := _calculate_risk_level (weighted_sum s);
           Assessment.fraud_indicators :=
             _generate_fraud_indicators (temporal_score s) (geo_score s) (weather_score s)
               (satellite_score s) (behavioral_score s);
           Assessment.requires_field_verification := (weighted_sum s >? 0.6)%float;
           Assessment.auto_reject := (weighted_sum s >? 0.85)%float;
           Assessment.timestamp := Some now |}.
Proof.
  unfold detect_claim_fraud. split.
  - intros H. bind_inv H. inversion H. eauto.
  - intros (s & Hs & ->). rewrite Hs. reflexivity.
Qed.

Lemma analyze_unit (self : providers) (farmer_data : Farmer.t) (claim_data : Claim.t)
  (historical_data : list Hist.t) (s : sub_scores) :
  analyze self farmer_data claim_data historical_data = Ok s ->
  unit_interval (temporal_score s) /\ unit_interval (geo_score s) /\
  unit_interval (weather_score s) /\ unit_interval (satellite_score s) /\
  unit_interval (behavioral_score s).
Proof.
  intros H. apply analyze_Ok in H. destruct H as (t & g & Ht & Hg & ->). simpl.
  repeat split;
    first [ apply (temporal_unit _ _ _ _ Ht) | apply (geospatial_unit _ _ _ Hg)
          | apply weather_unit | apply satellite_unit | apply behavior_unit ].
Qed.

(** The sub-scores of the engine are among [engine_scores]. *)
Lemma analyze_engine_scores (self : providers) (farmer_data : Farmer.t)
  (claim_data : Claim.t) (historical_data : list Hist.t) (s : sub_scores) :
  analyze self farmer_data claim_data historical_data = Ok s -> s ∈ engine_scores.
Proof.
  intros H. apply analyze_Ok in H. destruct H as (t & g & Ht & Hg & ->).
  apply temporal_shape in Ht. destruct Ht as (a1 & b1 & c1 & ->).
  apply geospatial_shape in Hg. destruct Hg as (a2 & b2 & c2 & ->).
  destruct (satellite_shape self claim_data) as (a4 & b4 & ->).
  destruct (behavior_shape farmer_data historical_data) as (a5 & b5 & c5 & ->).
  apply elem_of_combinations;
    try apply elem_of_penalties3; try apply elem_of_penalties2.
  destruct (weather_shape self claim_data) as [->|(a3 & ->)].
  - apply list_elem_of_here.
  - apply list_elem_of_further. apply elem_of_penalties1.
Qed.

(** A check that holds of all of [engine_scores] holds of the sub-scores
    of every run of the engine. *)
Lemma engine_forall (f : sub_scores -> bool) :
  forallb f engine_scores = true ->
  forall self farmer_data claim_data historical_data s,
    analyze self farmer_data claim_data historical_data = Ok s -> f s = true.
Proof.
  intros H self farmer_data claim_data historical_data s Hs.
  apply (forallb_elem_of f engine_scores s H).
  apply (analyze_engine_scores _ _ _ _ _ Hs).
Qed.

(** The float sum is within 10^-15 of the exact weighted sum, and the float
    sum and its rounding lie in the unit interval. *)
Lemma engine_sum_bounds (self : providers) (farmer_data : Farmer.t) (claim_data : Claim.t)
  (historical_data : list Hist.t) (s : sub_scores) :
  analyze self farmer_data claim_data historical_data = Ok s ->
  Qabs (value (weighted_sum s) - exact_weighted_sum s) <= 1 # 1000000000000000 /\
  unit_interval_float (weighted_sum s) /\
  unit_interval_float (round2 (weighted_sum s)).
Proof.
  intros Hs.
  pose proof (engine_forall
                (fun s => Qle_bool (Qabs (value (weighted_sum s) - exact_weighted_sum s))
                            (1 # 1000000000000000)
                          && ((0 <=? weighted_sum s)%float && (weighted_sum s <=? 1)%float)
                          && ((0 <=? round2 (weighted_sum s))%float
                              && (round2 (weighted_sum s) <=? 1)%float))
                ltac:(vm_compute; reflexivity) _ _ _ _ _ Hs) as H.
  cbv beta in H. rewrite !andb_true_iff, Qle_bool_iff in H.
  unfold unit_interval_float, Flt, Fle. tauto.
Qed.

(** C1. Whatever the claim, the farmer, the history and the answers of the
    providers, each of the five sub-scores an analyzer returns lies in
    [0,1]; the fraud score is the float sum of the sub-scores weighted by
    0.25, 0.25, 0.20, 0.20 and 0.10, it is within 10^-15 of the exact
    weighted sum and lies in [0,1], and so does the rounded score of the
    assessment. *)
Theorem scores_in_unit_interval (self : providers) (farmer_data : Farmer.t)
  (claim_data : Claim.t) (historical_data : list Hist.t) :
  (forall t, _analyze_temporal_patterns farmer_data claim_data historical_data = Ok t ->
             unit_interval t) /\
  (forall g, _verify_geospatial_data self claim_data = Ok g -> unit_interval g) /\
  unit_interval (_verify_weather_consistency self claim_data) /\
  unit_interval (_analyze_satellite_images self claim_data) /\
  unit_interval (_analyze_farmer_behavior farmer_data historical_data) /\
  (forall s, analyze self farmer_data claim_data historical_data = Ok s ->
             weighted_sum s =
               (0 + to_float (temporal_score s) * 0.25 + to_float (geo_score s) * 0.25
                + to_float (weather_score s) * 0.20 + to_float (satellite_score s) * 0.20
                + to_float (behavioral_score s) * 0.10)%float /\
             Qabs (value (weighted_sum s)
                   - (0.25 * temporal_score s + 0.25 * geo_score s + 0.20 * weather_score s
                      + 0.20 * satellite_score s + 0.10 * behavioral_score s))
             <= 1 # 1000000000000000 /\
             unit_interval_float (weighted_sum s)) /\
  (forall now r,
      detect_claim_fraud self now farmer_data claim_data historical_data = Ok r ->
      unit_interval_float (Assessment.fraud_score r)).
Proof.
  split; [intros t; apply temporal_unit|].
  split; [intros g; apply geospatial_unit|].
  split; [apply weather_unit|].
  split; [apply satellite_unit|].
  split; [apply behavior_unit|].
  split.
  - intros s Hs. split; [reflexivity|].
    destruct (engine_sum_bounds _ _ _ _ _ Hs) as (H1 & H2 & _).
    split; [exact H1 | exact H2].
  - intros now r Hr. apply detect_claim_fraud_Ok in Hr.
    destruct Hr as (s & Hs & ->). simpl.
    apply (engine_sum_bounds _ _ _ _ _ Hs).
Qed.

(** ** The sub-scores as floats *)

(** The additions of every analyzer, performed on floats as Python
    performs them, give the float nearest to the exact sub-score: the
    three-rule analyzers, the two satellite rules, the weather rule and its
    fallback, and the analyzers of the demonstration detector. *)
Lemma sub_scores_are_doubles (a b c : bool) :
  to_float (Qmin (add_if c 0.3 (add_if b 0.2 (add_if a 0.3 0))) 1)
  = fmin (fadd_if c 0.3 (fadd_if b 0.2 (fadd_if a 0.3 0))) 1 /\
  to_float (Qmin (add_if c 0.6 (add_if b 0.4 (add_if a 0.5 0))) 1)
  = fmin (fadd_if c 0.6 (fadd_if b 0.4 (fadd_if a 0.5 0))) 1 /\
  to_float (Qmin (add_if a 0.7 0) 1) = fmin (fadd_if a 0.7 0) 1 /\
  to_float 0.2 = 0.2%float /\
  to_float (Qmin (add_if b 0.8 (add_if a 0.6 0)) 1)
  = fmin (fadd_if b 0.8 (fadd_if a 0.6 0)) 1 /\
  to_float (Qmin (add_if c 0.4 (add_if b 0.3 (add_if a 0.5 0))) 1)
  = fmin (fadd_if c 0.4 (fadd_if b 0.3 (fadd_if a 0.5 0))) 1 /\
  to_float (Qmin (add_if b 0.4 (add_if a 0.3 0)) 1)
  = fmin (fadd_if b 0.4 (fadd_if a 0.3 0)) 1 /\
  to_float (Qmin (add_if b 0.4 (add_if a 0.6 0)) 1)
  = fmin (fadd_if b 0.4 (fadd_if a 0.6 0)) 1 /\
  to_float (Qmin (0 + 0.6) 1) = fmin (0 + 0.6) 1 /\
  to_float (Qmin (add_if b 0.6 (add_if a 0.8 0)) 1)
  = fmin (fadd_if b 0.6 (fadd_if a 0.8 0)) 1 /\
  to_float (Qmin (add_if a 0.5 0) 1) = fmin (fadd_if a 0.5 0) 1.
Proof.
  destruct a, b, c; repeat split; vm_compute; reflexivity.
Qed.

(** The sub-scores 0.8, 1, 0.7, 0.6 and 0.9 weigh exactly 0.8; their float
    sum is 0.7999999999999999, which is HIGH, not CRITICAL. *)
Example sum_below_threshold :
  let s := {| temporal_score := 0.8; geo_score := 1; weather_score := 0.7;
              satellite_score := 0.6; behavioral_score := 0.9 |} in
  0.25 * temporal_score s + 0.25 * geo_score s + 0.20 * weather_score s
  + 0.20 * satellite_score s + 0.10 * behavioral_score s == 0.8 /\
  weighted_sum s = 0.7999999999999999%float /\
  _calculate_risk_level (weighted_sum s) = HIGH /\
  round2 (weighted_sum s) = 0.8%float.
Proof. repeat split. Qed.

(** ** The scores of the demonstration detector *)

Lemma Qlt_div_iff (c a r : Q) : 0 < r -> (c < a / r <-> c * r < a).
Proof.
  intros Hr.
  assert (Hmul : a / r * r == a) by (field; lra).
  split.
  - intros H. rewrite <- Hmul. apply Qmult_lt_compat_r; assumption.
  - intros H. apply Qlt_shift_div_l; assumption.
Qed.

Lemma claim_ratio_exceeds (k n : nat) :
  (0 < n)%nat ->
  (inject_Z (Z.of_nat k) / inject_Z (Z.of_nat n) >? 0.7) = true <-> (7 * n < 10 * k)%nat.
Proof.
  intros Hn. rewrite Qltb_lt.
  assert (Hpos : 0 < inject_Z (Z.of_nat n)).
  { change 0 with (inject_Z 0). rewrite <- Zlt_Qlt. lia. }
  rewrite (Qlt_div_iff _ _ _ Hpos).
  unfold Qlt, Qmult, inject_Z. simpl. lia.
Qed.

(** Every pattern the analyzers of the demonstration read is in the table. *)
Lemma demo_pattern_values :
  Demo.pattern "timing" "suspicious_harvest_timing" = Ok 0.3 /\
  Demo.pattern "timing" "multiple_claims_short_period" = Ok 0.4 /\
  Demo.pattern "geospatial" "duplicate_coordinates" = Ok 0.6 /\
  Demo.pattern "geospatial" "area_mismatch" = Ok 0.4 /\
  Demo.pattern "weather" "drought_with_rainfall" = Ok 0.7 /\
  Demo.pattern "weather" "flood_without_rain" = Ok 0.7 /\
  Demo.pattern "weather" "frost_high_temp" = Ok 0.6 /\
  Demo.pattern "satellite" "artificial_damage_pattern" = Ok 0.8 /\
  Demo.pattern "satellite" "sudden_ndvi_drop" = Ok 0.6 /\
  Demo.pattern "behavioral" "high_claim_frequency" = Ok 0.5.
Proof. repeat split; vm_compute; reflexivity. Qed.

Lemma add_pattern_if_Ok (c : bool) (family name : string) (p score : Q) :
  Demo.pattern family name = Ok p ->
  Demo.add_pattern_if c family name score = Ok (add_if c p score).
Proof.
  intros H. unfold Demo.add_pattern_if. destruct c; [|reflexivity].
  rewrite H. reflexivity.
Qed.

Lemma demo_timing_eq (claim_data : Demo.Claim.t) (historical_data : list Hist.t) :
  Demo.analyze_timing claim_data historical_data =
  crop_type ← getitem "crop_type" (Demo.Claim.crop_type claim_data);
  near_harvest ←
    (if bool_decide (crop_type ∈ ["wheat"; "rice"]) then
       d ← getitem "days_since_sowing" (Demo.Claim.days_since_sowing claim_data);
       Ok (d >? 120)%Z
     else Ok false);
  Ok (Qmin (add_if (1 <? length historical_data)%nat 0.4 (add_if near_harvest 0.3 0)) 1).
Proof.
  destruct demo_pattern_values as (P1 & P2 & _).
  unfold Demo.analyze_timing.
  destruct (Demo.Claim.crop_type claim_data) as [crop|]; [|reflexivity]. step.
  destruct (bool_decide (crop ∈ ["wheat"; "rice"])).
  - destruct (Demo.Claim.days_since_sowing claim_data) as [d|]; [|reflexivity]. step.
    rewrite (add_pattern_if_Ok _ _ _ _ _ P1). step.
    rewrite (add_pattern_if_Ok _ _ _ _ _ P2). reflexivity.
  - step. rewrite (add_pattern_if_Ok _ _ _ _ _ P1). step.
    rewrite (add_pattern_if_Ok _ _ _ _ _ P2). reflexivity.
Qed.

Lemma demo_geospatial_eq (claim_data : Demo.Claim.t) :
  Demo.analyze_geospatial claim_data =
  Ok (Qmin (add_if (default 0 (Demo.Claim.area_mismatch claim_data) >? 0.3) 0.4
              (add_if (default false (Demo.Claim.has_duplicate_coords claim_data)) 0.6 0))
        1).
Proof.
  destruct demo_pattern_values as (_ & _ & P3 & P4 & _).
  unfold Demo.analyze_geospatial.
  rewrite (add_pattern_if_Ok _ _ _ _ _ P3). step.
  rewrite (add_pattern_if_Ok _ _ _ _ _ P4). reflexivity.
Qed.

Lemma demo_satellite_eq (claim_data : Demo.Claim.t) :
  Demo.analyze_satellite claim_data =
  Ok (Qmin (add_if (default false (Demo.Claim.sudden_ndvi_drop claim_data)) 0.6
              (add_if (default false (Demo.Claim.artificial_patterns claim_data)) 0.8 0))
        1).
Proof.
  destruct demo_pattern_values as (_ & _ & _ & _ & _ & _ & _ & P8 & P9 & _).
  unfold Demo.analyze_satellite.
  rewrite (add_pattern_if_Ok _ _ _ _ _ P8). step.
  rewrite (add_pattern_if_Ok _ _ _ _ _ P9). reflexivity.
Qed.

Lemma demo_behavior_eq (farmer_data : Farmer.t) (historical_data : list Hist.t) :
  exists a : bool,
    (a = true <-> (7 * total_policies historical_data
                   < 10 * total_claims historical_data)%nat) /\
    Demo.analyze_behavior farmer_data historical_data = Ok (Qmin (add_if a 0.5 0) 1).
Proof.
  destruct demo_pattern_values as (_ & _ & _ & _ & _ & _ & _ & _ & _ & P10).
  unfold Demo.analyze_behavior, total_policies, total_claims.
  destruct (0 <? length historical_data)%nat eqn:En.
  - apply Nat.ltb_lt in En. rewrite (add_pattern_if_Ok _ _ _ _ _ P10). step.
    eexists. split; [|reflexivity]. apply claim_ratio_exceeds. exact En.
  - apply Nat.ltb_ge in En. step. exists false. split; [|reflexivity].
    split; [discriminate|]. intros H. exfalso.
    assert (Hk : (length (List.filter Hist.is_claimed historical_data)
                  <= length historical_data)%nat) by apply List.filter_length_le.
    lia.
Qed.

(** The penalty the weather check of the demonstration adds. *)
Lemma demo_weather_eq (claim_data : Demo.Claim.t) (damage : string) :
  Demo.Claim.damage_type claim_data = Some damage ->
  exists p,
    Demo.analyze_weather claim_data = Ok (Qmin (0 + p) 1) /\
    (damage = "drought" /\ 20 < default 0 (Demo.Claim.rainfall claim_data) /\ p = 0.7 \/
     damage = "flood" /\ default 0 (Demo.Claim.rainfall claim_data) < 50 /\ p = 0.7 \/
     damage = "frost" /\ 5 < default 20 (Demo.Claim.temperature claim_data) /\ p = 0.6 \/
     ~ (damage = "drought" /\ 20 < default 0 (Demo.Claim.rainfall claim_data)) /\
     ~ (damage = "flood" /\ default 0 (Demo.Claim.rainfall claim_data) < 50) /\
     ~ (damage = "frost" /\ 5 < default 20 (Demo.Claim.temperature claim_data)) /\
     p = 0).
Proof.
  intros Hd.
  destruct demo_pattern_values as (_ & _ & _ & _ & P5 & P6 & P7 & _).
  unfold Demo.analyze_weather, Demo.weather_inconsistencies. rewrite Hd. step.
  assert (Hzero : Qmin 0 1 = Qmin (0 + 0) 1) by reflexivity.
  destruct (decide (damage = "drought")) as [->|Hdrought].
  { rewrite lookup_insert_eq. cbn [default].
    destruct (default 0 (Demo.Claim.rainfall claim_data) >? 20) eqn:E.
    - apply Qltb_lt in E. cbn [String.eqb Ascii.eqb Bool.eqb].
      rewrite (add_pattern_if_Ok _ _ _ _ _ P5). step.
      exists 0.7. split; [reflexivity|]. left. tauto.
    - apply Qltb_ge in E. step. exists 0. split; [exact (f_equal Ok Hzero)|].
      right. right. right. repeat split; try (intros [H _]; discriminate H).
      intros [_ H]. lra. }
  rewrite lookup_insert_ne by congruence.
  destruct (decide (damage = "flood")) as [->|Hflood].
  { rewrite lookup_insert_eq. cbn [default].
    destruct (default 0 (Demo.Claim.rainfall claim_data) <? 50) eqn:E.
    - apply Qltb_lt in E. cbn [String.eqb Ascii.eqb Bool.eqb].
      rewrite (add_pattern_if_Ok _ _ _ _ _ P6). step.
      exists 0.7. split; [reflexivity|]. right. left. tauto.
    - apply Qltb_ge in E. step. exists 0. split; [exact (f_equal Ok Hzero)|].
      right. right. right. repeat split; try (intros [H _]; discriminate H).
      intros [_ H]. lra. }
  rewrite lookup_insert_ne by congruence.
  destruct (decide (damage = "frost")) as [->|Hfrost].
  { rewrite lookup_insert_eq. cbn [default].
    destruct (default 20 (Demo.Claim.temperature claim_data) >? 5) eqn:E.
    - apply Qltb_lt in E. cbn [String.eqb Ascii.eqb Bool.eqb].
      rewrite (add_pattern_if_Ok _ _ _ _ _ P7). step.
      exists 0.6. split; [reflexivity|]. right. right. left. tauto.
    - apply Qltb_ge in E. step. exists 0. split; [exact (f_equal Ok Hzero)|].
      right. right. right. repeat split; try (intros [H _]; discriminate H).
      intros [_ H]. lra. }
  rewrite lookup_insert_ne by congruence.
  rewrite lookup_empty. cbn [default]. step.
  exists 0. split; [exact (f_equal Ok Hzero)|].
  right. right. right. repeat split; try (intros [H _]; congruence). 
Qed.

Lemma demo_timing_total (claim_data : Demo.Claim.t) (historical_data : list Hist.t)
  (crop : string) :
  Demo.Claim.crop_type claim_data = Some crop ->
  (crop ∈ ["wheat"; "rice"] -> is_Some (Demo.Claim.days_since_sowing claim_data)) ->
  exists near : bool,
    Demo.analyze_timing claim_data historical_data
    = Ok (Qmin (add_if (1 <? length historical_data)%nat 0.4 (add_if near 0.3 0)) 1).
Proof.
  intros Hcrop Hdays. rewrite demo_timing_eq, Hcrop. step.
  destruct (bool_decide (crop ∈ ["wheat"; "rice"])) eqn:E.
  - apply bool_decide_eq_true in E. destruct (Hdays E) as [d ->]. step. eauto.
  - step. eauto.
Qed.

Lemma demo_analyze_Ok (farmer_data : Farmer.t) (claim_data : Demo.Claim.t)
  (historical_data : list Hist.t) (s : sub_scores) :
  Demo.analyze farmer_data claim_data historical_data = Ok s ->
  exists (near a : bool) (p : Q) (damage : string),
    Demo.Claim.damage_type claim_data = Some damage /\
    (a = true <-> (7 * total_policies historical_data
                   < 10 * total_claims historical_data)%nat) /\
    (damage = "drought" /\ 20 < default 0 (Demo.Claim.rainfall claim_data) /\ p = 0.7 \/
     damage = "flood" /\ default 0 (Demo.Claim.rainfall claim_data) < 50 /\ p = 0.7 \/
     damage = "frost" /\ 5 < default 20 (Demo.Claim.temperature claim_data) /\ p = 0.6 \/
     ~ (damage = "drought" /\ 20 < default 0 (Demo.Claim.rainfall claim_data)) /\
     ~ (damage = "flood" /\ default 0 (Demo.Claim.rainfall claim_data) < 50) /\
     ~ (damage = "frost" /\ 5 < default 20 (Demo.Claim.temperature claim_data)) /\
     p = 0) /\
    s = {| temporal_score :=
             Qmin (add_if (1 <? length historical_data)%nat 0.4 (add_if near 0.3 0)) 1;
           geo_score :=
             Qmin (add_if (default 0 (Demo.Claim.area_mismatch claim_data) >? 0.3) 0.4
                     (add_if (default false (Demo.Claim.has_duplicate_coords claim_data))
                        0.6 0)) 1;
           weather_score := Qmin (0 + p) 1;
           satellite_score :=
             Qmin (add_if (default false (Demo.Claim.sudden_ndvi_drop claim_data)) 0.6
                     (add_if (default false (Demo.Claim.artificial_patterns claim_data))
                        0.8 0)) 1;
           behavioral_score := Qmin (add_if a 0.5 0) 1 |}.
Proof.
  unfold Demo.analyze. intros H. bind_inv H.
  match goal with
  | G : Demo.analyze_timing _ _ = Ok _ |- _ =>
      rewrite demo_timing_eq in G; bind_inv G; injection G as <-
  end.
  match goal with
  | G : Demo.analyze_geospatial _ = Ok _ |- _ =>
      rewrite demo_geospatial_eq in G; injection G as <-
  end.
  match goal with
  | G : Demo.analyze_satellite _ = Ok _ |- _ =>
      rewrite demo_satellite_eq in G; injection G as <-
  end.
  destruct (demo_behavior_eq farmer_data historical_data) as (a & Ha & Hb).
  match goal with
  | G : Demo.analyze_behavior _ _ = Ok _ |- _ => rewrite Hb in G; injection G as <-
  end.
  destruct (Demo.Claim.damage_type claim_data) as [damage|] eqn:Hd.
  2:{ match goal with
      | G : Demo.analyze_weather _ = Ok _ |- _ =>
          unfold Demo.analyze_weather in G; rewrite Hd in G; discriminate G
      end. }
  destruct (demo_weather_eq claim_data damage Hd) as (p & Hw & Hp).
  match goal with
  | G : Demo.analyze_weather _ = Ok _ |- _ => rewrite Hw in G; injection G as <-
  end.
  injection H as <-. eauto 10.
Qed.
(** The sub-scores of the demonstration detector are among [demo_scores]. *)
Lemma demo_analyze_scores (farmer_data : Farmer.t) (claim_data : Demo.Claim.t)
  (historical_data : list Hist.t) (s : sub_scores) :
  Demo.analyze farmer_data claim_data historical_data = Ok s -> s ∈ demo_scores.
Proof.
  intros H.
  destruct (demo_analyze_Ok _ _ _ _ H) as (near & a & p & damage & _ & _ & Hp & ->).
  apply elem_of_combinations; try apply elem_of_penalties2; try apply elem_of_penalties1.
  destruct Hp as [(_ & _ & ->)|[(_ & _ & ->)|[(_ & _ & ->)|(_ & _ & _ & ->)]]];
    set_solver.
Qed.

Lemma demo_forall (f : sub_scores -> bool) :
  forallb f demo_scores = true ->
  forall farmer_data claim_data historical_data s,
    Demo.analyze farmer_data claim_data historical_data = Ok s -> f s = true.
Proof.
  intros H farmer_data claim_data historical_data s Hs.
  apply (forallb_elem_of f demo_scores s H).
  apply (demo_analyze_scores _ _ _ _ Hs).
Qed.

Lemma demo_detect_fraud_Ok (farmer_data : Farmer.t) (claim_data : Demo.Claim.t)
  (historical_data : list Hist.t) (r : Assessment.t) :
  Demo.detect_fraud farmer_data claim_data historical_data = Ok r <->
  exists s,
    Demo.analyze farmer_data claim_data historical_data = Ok s /\
    r = {| Assessment.fraud_score := round2 (weighted_sum s);
           Assessment.risk := Demo.risk_of (weighted_sum s);
           Assessment.fraud_indicators := Demo.indicators s;
           Assessment.requires_field_verification := (weighted_sum s >? 0.6)%float;
           Assessment.auto_reject := (weighted_sum s >? 0.85)%float;
           Assessment.timestamp := None |}.
Proof.
  unfold Demo.detect_fraud. split.
  - intros H. bind_inv H. inversion H. eauto.
  - intros (s & Hs & ->). rewrite Hs. reflexivity.
Qed.

(** ** Risk level and flags *)

Lemma risk_level_cases (x : float) :
  ((x < 0.3)%float /\ _calculate_risk_level x = LOW) \/
  ((x <? 0.3)%float = false /\ (x < 0.6)%float /\ _calculate_risk_level x = MEDIUM) \/
  ((x <? 0.6)%float = false /\ (x < 0.8)%float /\ _calculate_risk_level x = HIGH) \/
  ((x <? 0.8)%float = false /\ _calculate_risk_level x = CRITICAL).
Proof.
  unfold _calculate_risk_level, Flt.
  destruct (x <? 0.3)%float; [tauto|].
  destruct (x <? 0.6)%float; [tauto|].
  destruct (x <? 0.8)%float; tauto.
Qed.

Lemma risk_of_eq (x : float) : Demo.risk_of x = _calculate_risk_level x.
Proof. reflexivity. Qed.

(** Floats that compare equal compare alike with every float. *)
Lemma Feqb_ltb (x y c : float) : (x =? y)%float = true -> (x <? c)%float = (y <? c)%float.
Proof.
  rewrite FloatAxioms.eqb_spec, !FloatAxioms.ltb_spec. unfold SFeqb, SFltb.
  destruct (SFcompare (Prim2SF x) (Prim2SF y)) as [cmp|] eqn:E; [|discriminate].
  assert (Hx : Prim2SF x <> S754_nan) by (intros H; rewrite H in E; discriminate).
  assert (Hy : Prim2SF y <> S754_nan).
  { intros H. rewrite H in E. destruct (Prim2SF x); discriminate. }
  rewrite (SFcompare_key _ _ Hx Hy) in E. injection E as <-.
  destruct (lex3 (SFkey (Prim2SF x)) (SFkey (Prim2SF y))) eqn:Ek; try discriminate.
  intros _. apply lex3_Eq in Ek.
  destruct (SFcompare (Prim2SF x) (Prim2SF c)) as [c1|] eqn:E1.
  - assert (Hc : Prim2SF c <> S754_nan).
    { intros H. rewrite H in E1. destruct (Prim2SF x); discriminate. }
    rewrite (SFcompare_key _ _ Hx Hc) in E1. rewrite (SFcompare_key _ _ Hy Hc).
    injection E1 as <-. rewrite Ek. reflexivity.
  - apply SFcompare_nan in E1. destruct E1 as [E1|E1]; [contradiction|].
    rewrite E1. destruct (Prim2SF y); reflexivity.
Qed.

Lemma risk_level_comp (x y : float) :
  (x =? y)%float = true -> _calculate_risk_level x = _calculate_risk_level y.
Proof.
  intros H. unfold _calculate_risk_level.
  rewrite (Feqb_ltb x y 0.3 H), (Feqb_ltb x y 0.6 H), (Feqb_ltb x y 0.8 H).
  reflexivity.
Qed.

(** The tier as a function of the interval the score lies in. *)
Lemma risk_level_intervals (x : float) :
  (_calculate_risk_level x = LOW <-> (x < 0.3)%float) /\
  (_calculate_risk_level x = MEDIUM <-> (0.3 <= x)%float /\ (x < 0.6)%float) /\
  (_calculate_risk_level x = HIGH <-> (0.6 <= x)%float /\ (x < 0.8)%float) /\
  (_calculate_risk_level x = CRITICAL <-> (0.8 <= x)%float \/ is_nan x = true).
Proof.
  assert (H36 : (0.3 < 0.6)%float) by reflexivity.
  assert (H68 : (0.6 < 0.8)%float) by reflexivity.
  assert (N3 : is_nan 0.3 = false) by reflexivity.
  assert (N6 : is_nan 0.6 = false) by reflexivity.
  assert (N8 : is_nan 0.8 = false) by reflexivity.
  destruct (is_nan x) eqn:Nx.
  { assert (Hno : forall c, ~ (x < c)%float).
    { intros c H. apply Flt_not_nan in H. destruct H as [H _]. congruence. }
    assert (Hno' : forall c, ~ (c <= x)%float).
    { intros c H. apply Fle_not_nan in H. destruct H as [_ H]. congruence. }
    destruct (risk_level_cases x) as [[H E]|[(_ & H & E)|[(_ & H & E)|[_ E]]]];
      try (exfalso; apply (Hno _ H)).
    rewrite E. repeat split; try discriminate; try tauto.
    - intros H. exfalso. apply (Hno _ H).
    - intros [H _]. exfalso. apply (Hno' _ H).
    - intros [H _]. exfalso. apply (Hno' _ H). }
  pose proof (Fltb_false x 0.3 Nx N3) as F3.
  pose proof (Fltb_false x 0.6 Nx N6) as F6.
  pose proof (Fltb_false x 0.8 Nx N8) as F8.
  destruct (risk_level_cases x) as [[H E]|[(H1 & H & E)|[(H1 & H & E)|[H1 E]]]];
    rewrite E.
  - assert (H6 : (x < 0.6)%float) by (apply (Flt_trans x 0.3 0.6); assumption).
    assert (H8 : (x < 0.8)%float) by (apply (Flt_trans x 0.6 0.8); assumption).
    repeat split; try discriminate; try tauto.
    + intros [G _]. exfalso. apply (Flt_not_Fle _ _ H G).
    + intros [G _]. exfalso. apply (Flt_not_Fle _ _ H6 G).
    + intros [G|G]; [|discriminate G]. exfalso. apply (Flt_not_Fle _ _ H8 G).
  - apply F3 in H1.
    assert (H8 : (x < 0.8)%float) by (apply (Flt_trans x 0.6 0.8); assumption).
    repeat split; try discriminate; try tauto.
    + intros G. exfalso. apply (Flt_not_Fle _ _ G H1).
    + intros [G _]. exfalso. apply (Flt_not_Fle _ _ H G).
    + intros [G|G]; [|discriminate G]. exfalso. apply (Flt_not_Fle _ _ H8 G).
  - apply F6 in H1.
    assert (H3 : (0.3 <= x)%float).
    { apply Flt_Fle. apply (Flt_Fle_trans 0.3 0.6 x); assumption. }
    repeat split; try discriminate; try tauto.
    + intros G. exfalso. apply (Flt_not_Fle _ _ G H3).
    + intros [_ G]. exfalso. apply (Flt_not_Fle _ _ G H1).
    + intros [G|G]; [|discriminate G]. exfalso. apply (Flt_not_Fle _ _ H G).
  - apply F8 in H1.
    assert (H6 : (0.6 <= x)%float).
    { apply Flt_Fle. apply (Flt_Fle_trans 0.6 0.8 x); assumption. }
    assert (H3 : (0.3 <= x)%float).
    { apply Flt_Fle. apply (Flt_Fle_trans 0.3 0.6 x); assumption. }
    repeat split; try discriminate; try tauto.
    + intros G. exfalso. apply (Flt_not_Fle _ _ G H3).
    + intros [_ G]. exfalso. apply (Flt_not_Fle _ _ G H6).
    + intros [_ G]. exfalso. apply (Flt_not_Fle _ _ G H1).
Qed.

(** C2. The risk level is a function of the unrounded float fraud score,
    in both detectors: LOW below 0.3, MEDIUM on [0.3, 0.6), HIGH on
    [0.6, 0.8), CRITICAL from 0.8 on (and for a NaN, which no run
    produces); the floats 0.3, 0.6 and 0.8 themselves belong to the
    higher tier, and floats that compare equal get the same tier. *)
Theorem risk_level_step_function (x : float) :
  (_calculate_risk_level x = LOW <-> (x < 0.3)%float) /\
  (_calculate_risk_level x = MEDIUM <-> (0.3 <= x)%float /\ (x < 0.6)%float) /\
  (_calculate_risk_level x = HIGH <-> (0.6 <= x)%float /\ (x < 0.8)%float) /\
  (_calculate_risk_level x = CRITICAL <-> (0.8 <= x)%float \/ is_nan x = true) /\
  (forall y, (x =? y)%float = true -> _calculate_risk_level x = _calculate_risk_level y) /\
  Demo.risk_of x = _calculate_risk_level x /\
  (_calculate_risk_level 0.3 = MEDIUM /\ _calculate_risk_level 0.6 = HIGH /\
   _calculate_risk_level 0.8 = CRITICAL) /\
  (forall self now farmer_data claim_data historical_data r,
      detect_claim_fraud self now farmer_data claim_data historical_data = Ok r ->
      exists s, analyze self farmer_data claim_data historical_data = Ok s /\
                Assessment.risk r = _calculate_risk_level (weighted_sum s) /\
                is_nan (weighted_sum s) = false) /\
  (forall farmer_data claim_data historical_data r,
      Demo.detect_fraud farmer_data claim_data historical_data = Ok r ->
      exists s, Demo.analyze farmer_data claim_data historical_data = Ok s /\
                Assessment.risk r = _calculate_risk_level (weighted_sum s) /\
                is_nan (weighted_sum s) = false).
Proof.
  destruct (risk_level_intervals x) as (H1 & H2 & H3 & H4).
  split; [exact H1|]. split; [exact H2|]. split; [exact H3|]. split; [exact H4|].
  split; [intros y; apply risk_level_comp|].
  split; [reflexivity|].
  split; [repeat split; reflexivity|].
  split.
  - intros self now farmer_data claim_data historical_data r Hr.
    apply detect_claim_fraud_Ok in Hr. destruct Hr as (s & Hs & ->).
    exists s. split; [assumption|]. split; [reflexivity|].
    pose proof (engine_forall (fun s => negb (is_nan (weighted_sum s)))
                  ltac:(vm_compute; reflexivity) _ _ _ _ _ Hs) as H.
    apply negb_true_iff in H. exact H.
  - intros farmer_data claim_data historical_data r Hr.
    apply demo_detect_fraud_Ok in Hr. destruct Hr as (s & Hs & ->).
    exists s. split; [assumption|]. split; [reflexivity|].
    pose proof (demo_forall (fun s => negb (is_nan (weighted_sum s)))
                  ltac:(vm_compute; reflexivity) _ _ _ _ Hs) as H.
    apply negb_true_iff in H. exact H.
Qed.

Lemma rounds_to_hundredths_spec (s : sub_scores) :
  rounds_to_hundredths s = true ->
  exists n : Z,
    (0 <= n <= 89)%Z /\
    round2 (weighted_sum s) = (float_of_Z n / 100)%float /\
    Qabs (inject_Z n / 100 - value (weighted_sum s)) <= 1 # 200.
Proof.
  unfold rounds_to_hundredths. rewrite !andb_true_iff.
  intros (((H1 & H2) & H3) & H4).
  apply FloatAxioms.Leibniz.eqb_spec in H1. apply Qle_bool_iff in H2.
  eexists. split; [|split; [exact H1 | exact H2]]. lia.
Qed.

(** The staged providers, a wheat claim 140 days after sowing and three
    recent policies: the sub-scores 0.6, 1, 0, 1 and 0 weigh exactly 0.6,
    and their float sum is 0.6000000000000001. *)
Lemma sum_above_threshold :
  exists s, analyze staged kumar (wheat_claim 140) recent_policies = Ok s /\
            0.25 * temporal_score s + 0.25 * geo_score s + 0.20 * weather_score s
            + 0.20 * satellite_score s + 0.10 * behavioral_score s == 0.6 /\
            weighted_sum s = 0.6000000000000001%float.
Proof.
  eexists. split; [vm_compute; reflexivity|]. split; reflexivity.
Qed.

(** C3. In both detectors the two flags compare the unrounded float fraud
    score: field verification is required exactly when it exceeds 0.6, the
    claim is rejected automatically exactly when it exceeds 0.85, so
    automatic rejection implies field verification.  Only the reported
    score is rounded: it is the float nearest to the hundredth nearest to
    the fraud score, ties going to the even hundredth.  A fraud score of
    0.6000000000000001 requires field verification and is reported as
    0.6. *)
Theorem flags_compare_unrounded_score :
  (forall self now farmer_data claim_data historical_data r,
      detect_claim_fraud self now farmer_data claim_data historical_data = Ok r ->
      exists s, analyze self farmer_data claim_data historical_data = Ok s /\
        (Assessment.requires_field_verification r = true <-> (0.6 < weighted_sum s)%float) /\
        (Assessment.auto_reject r = true <-> (0.85 < weighted_sum s)%float) /\
        (Assessment.auto_reject r = true ->
         Assessment.requires_field_verification r = true) /\
        Assessment.fraud_score r = round2 (weighted_sum s) /\
        exists n : Z,
          Assessment.fraud_score r = (float_of_Z n / 100)%float /\
          Qabs (inject_Z n / 100 - value (weighted_sum s)) <= 1 # 200) /\
  (forall farmer_data claim_data historical_data r,
      Demo.detect_fraud farmer_data claim_data historical_data = Ok r ->
      exists s, Demo.analyze farmer_data claim_data historical_data = Ok s /\
        (Assessment.requires_field_verification r = true <-> (0.6 < weighted_sum s)%float) /\
        (Assessment.auto_reject r = true <-> (0.85 < weighted_sum s)%float) /\
        (Assessment.auto_reject r = true ->
         Assessment.requires_field_verification r = true) /\
        Assessment.fraud_score r = round2 (weighted_sum s) /\
        exists n : Z,
          Assessment.fraud_score r = (float_of_Z n / 100)%float /\
          Qabs (inject_Z n / 100 - value (weighted_sum s)) <= 1 # 200) /\
  (round2 0.125 = 0.12%float /\ round2 0.375 = 0.38%float /\
   round2 0.604 = 0.6%float /\ round2 0.606 = 0.61%float) /\
  (exists r, detect_claim_fraud staged 0 kumar (wheat_claim 140) recent_policies = Ok r /\
             Assessment.requires_field_verification r = true /\
             Assessment.fraud_score r = 0.6%float /\
             (Assessment.fraud_score r >? 0.6)%float = false).
Proof.
  assert (Himp : forall x, (0.85 < x)%float -> (0.6 < x)%float).
  { intros x H. apply (Flt_trans 0.6 0.85 x); [reflexivity | exact H]. }
  split; [|split; [|split]].
  - intros self now farmer_data claim_data historical_data r Hr.
    apply detect_claim_fraud_Ok in Hr. destruct Hr as (s & Hs & ->).
    exists s. simpl. split; [exact Hs|].
    split; [reflexivity|]. split; [reflexivity|]. split; [apply Himp|].
    split; [reflexivity|].
    pose proof (engine_forall rounds_to_hundredths ltac:(vm_compute; reflexivity)
                  _ _ _ _ _ Hs) as H.
    apply rounds_to_hundredths_spec in H. destruct H as (n & _ & H1 & H2). eauto.
  - intros farmer_data claim_data historical_data r Hr.
    apply demo_detect_fraud_Ok in Hr. destruct Hr as (s & Hs & ->).
    exists s. simpl. split; [exact Hs|].
    split; [reflexivity|]. split; [reflexivity|]. split; [apply Himp|].
    split; [reflexivity|].
    pose proof (demo_forall rounds_to_hundredths ltac:(vm_compute; reflexivity)
                  _ _ _ _ Hs) as H.
    apply rounds_to_hundredths_spec in H. destruct H as (n & _ & H1 & H2). eauto.
  - repeat split; vm_compute; reflexivity.
  - eexists. split; [vm_compute; reflexivity|]. repeat split.
Qed.

(** ** The temporal analyzer *)

Lemma outside_expected_range_spec (crop_type : string) (d : Z) :
  outside_expected_range crop_type d = true <-> outside_window crop_type d.
Proof.
  unfold outside_expected_range, expected_ranges, outside_window.
  destruct (decide (crop_type = "wheat")) as [->|Hwheat].
  { rewrite lookup_insert_eq, orb_true_iff, Z.ltb_lt, Z.gtb_lt.
    split; [intros H; left; split; [reflexivity | lia]|].
    intros [[_ H]|[[E _]|[[E _]|[E _]]]]; [lia | discriminate..]. }
  rewrite lookup_insert_ne by congruence.
  destruct (decide (crop_type = "rice")) as [->|Hrice].
  { rewrite lookup_insert_eq, orb_true_iff, Z.ltb_lt, Z.gtb_lt.
    split; [intros H; right; left; split; [reflexivity | lia]|].
    intros [[E _]|[[_ H]|[[E _]|[E _]]]]; [discriminate | lia | discriminate..]. }
  rewrite lookup_insert_ne by congruence.
  destruct (decide (crop_type = "cotton")) as [->|Hcotton].
  { rewrite lookup_insert_eq, orb_true_iff, Z.ltb_lt, Z.gtb_lt.
    split; [intros H; right; right; left; split; [reflexivity | lia]|].
    intros [[E _]|[[E _]|[[_ H]|[E _]]]]; [discriminate.. | lia | discriminate]. }
  rewrite lookup_insert_ne by congruence.
  destruct (decide (crop_type = "sugarcane")) as [->|Hcane].
  { rewrite lookup_insert_eq, orb_true_iff, Z.ltb_lt, Z.gtb_lt.
    split; [intros H; right; right; right; split; [reflexivity | lia]|].
    intros [[E _]|[[E _]|[[E _]|[_ H]]]]; [discriminate.. | lia]. }
  rewrite lookup_insert_ne by congruence.
  rewrite lookup_empty.
  split; [discriminate|].
  intros [[E _]|[[E _]|[[E _]|[E _]]]]; congruence.
Qed.

Lemma just_before_harvest_spec (crop_type : string) (d : Z) :
  just_before_harvest crop_type d = true <-> near_harvest crop_type d.
Proof.
  unfold just_before_harvest, near_harvest.
  rewrite andb_true_iff, bool_decide_eq_true, Z.gtb_lt.
  rewrite !elem_of_cons, elem_of_nil. tauto.
Qed.

Lemma days_lt_90 (delta : Z) : (days delta <? 90)%Z = true <-> (delta < 90 * day_us)%Z.
Proof.
  unfold days. rewrite Z.ltb_lt.
  assert (Hpos : (0 < day_us)%Z) by reflexivity.
  split.
  - intros H. destruct (Z_lt_le_dec delta (90 * day_us)) as [Hlt|Hge]; [exact Hlt|].
    assert (90 <= delta / day_us)%Z; [|lia].
    apply Z.div_le_lower_bound; lia.
  - intros H. apply Z.div_lt_upper_bound; lia.
Qed.

(** The comprehension keeps as many entries as there are recent dates. *)
Lemma recent_claims_length (claim_date : datetime) (historical_data : list Hist.t)
  (dates : list datetime) :
  map Hist.date historical_data = map (fun t => Some (Iso t)) dates ->
  exists recent,
    recent_claims (Naive claim_date) historical_data = Ok recent /\
    length recent = length (recent_dates claim_date dates).
Proof.
  revert dates. induction historical_data as [|h rest IH]; intros dates Hd.
  - destruct dates; [|discriminate]. exists []. split; reflexivity.
  - destruct dates as [|t dates]; [discriminate|].
    simpl in Hd. injection Hd as Hh Hrest.
    destruct (IH dates Hrest) as (recent & Hrec & Hlen).
    simpl. rewrite Hh. simpl. unfold mbind, result_bind. rewrite Hrec.
    unfold recent_dates. rewrite filter_cons. fold (recent_dates claim_date dates).
    destruct (days (claim_date - t) <? 90)%Z eqn:E.
    + apply days_lt_90 in E. rewrite decide_True by exact E.
      eexists. split; [reflexivity|]. simpl. rewrite Hlen. reflexivity.
    + rewrite decide_False.
      * eexists. split; [reflexivity | exact Hlen].
      * intros Hlt. apply days_lt_90 in Hlt. congruence.
Qed.

Lemma dated_dates (historical_data : list Hist.t) :
  dated historical_data ->
  exists dates, map Hist.date historical_data = map (fun t => Some (Iso t)) dates.
Proof.
  induction 1 as [|h rest (t & Ht) _ (dates & IH)].
  - exists []. reflexivity.
  - exists (t :: dates). simpl. rewrite Ht, IH. reflexivity.
Qed.

(** The analyzer once its three fields and the history are readable. *)
Lemma temporal_eq (farmer_data : Farmer.t) (claim_data : Claim.t)
  (historical_data recent : list Hist.t) (cd sd : datetime) (crop : string) :
  Claim.claim_date claim_data = Some (Iso cd) ->
  Claim.sowing_date claim_data = Some (Iso sd) ->
  Claim.crop_type claim_data = Some crop ->
  recent_claims (Naive cd) historical_data = Ok recent ->
  _analyze_temporal_patterns farmer_data claim_data historical_data =
  Ok (Qmin (add_if (just_before_harvest crop (days (cd - sd))) 0.3
              (add_if (outside_expected_range crop (days (cd - sd))) 0.2
                 (add_if (2 <? length recent)%nat 0.3 0))) 1).
Proof.
  intros Hcd Hsd Hcrop Hrec. unfold _analyze_temporal_patterns.
  rewrite Hcd, Hsd, Hcrop. simpl. unfold mbind, result_bind. rewrite Hrec.
  reflexivity.
Qed.

(** The three additions of the analyzer as a sum of three penalties. *)
Lemma three_penalties (a b c : bool) (p q r : Q) :
  Qmin (add_if c r (add_if b q (add_if a p 0))) 1 ==
  Qmin ((if a then p else 0) + (if b then q else 0) + (if c then r else 0)) 1.
Proof.
  apply Q.min_compat; [|reflexivity].
  rewrite !add_if_sum. ring.
Qed.

(** C7, as stated, fails for wheat claimed exactly 180 days after sowing:
    day 180 is past a window whose upper end is excluded, yet the check
    does not fire and the score is the near-harvest 0.3 alone. *)
Lemma wheat_day_180_not_penalised :
  outside_half_open_window "wheat" (days (180 * day_us - 0)) /\
  outside_expected_range "wheat" (days (180 * day_us - 0)) = false /\
  exists s, _analyze_temporal_patterns kumar (wheat_claim 180) [] = Ok s /\ s == 0.3.
Proof.
  split; [|split].
  - left. split; [reflexivity|]. right. vm_compute. discriminate.
  - vm_compute. reflexivity.
  - eexists. split; [vm_compute; reflexivity | reflexivity].
Qed.

(** C7 (amended). For a claim whose dates and crop are readable, the
    temporal score is the sum, capped at 1, of the recent-claims penalty,
    of 0.2 exactly when the crop is wheat, rice, cotton or sugarcane and
    the days since sowing are below the lower or above the upper end of
    60-180, 90-150, 90-200, 180-365 (both ends inside the window), and of
    0.3 exactly when the crop is wheat or rice and more than 120 days have
    passed; other crops never get the 0.2, and the two penalties stack. *)
Theorem window_and_harvest_penalties (farmer_data : Farmer.t) (claim_data : Claim.t)
  (historical_data recent : list Hist.t) (cd sd : datetime) (crop : string) :
  Claim.claim_date claim_data = Some (Iso cd) ->
  Claim.sowing_date claim_data = Some (Iso sd) ->
  Claim.crop_type claim_data = Some crop ->
  recent_claims (Naive cd) historical_data = Ok recent ->
  exists s w h,
    _analyze_temporal_patterns farmer_data claim_data historical_data = Ok s /\
    s == Qmin ((if (2 <? length recent)%nat then 0.3 else 0) + w + h) 1 /\
    (outside_window crop (days (cd - sd)) /\ w = 0.2 \/
     ~ outside_window crop (days (cd - sd)) /\ w = 0) /\
    (near_harvest crop (days (cd - sd)) /\ h = 0.3 \/
     ~ near_harvest crop (days (cd - sd)) /\ h = 0) /\
    (crop <> "wheat" -> crop <> "rice" -> crop <> "cotton" -> crop <> "sugarcane" ->
     w = 0) /\
    (outside_window crop (days (cd - sd)) -> near_harvest crop (days (cd - sd)) ->
     w + h == 0.5).
Proof.
  intros Hcd Hsd Hcrop Hrec.
  pose proof (outside_expected_range_spec crop (days (cd - sd))) as Hout.
  pose proof (just_before_harvest_spec crop (days (cd - sd))) as Hnear.
  exists (Qmin (add_if (just_before_harvest crop (days (cd - sd))) 0.3
                  (add_if (outside_expected_range crop (days (cd - sd))) 0.2
                     (add_if (2 <? length recent)%nat 0.3 0))) 1).
  exists (if outside_expected_range crop (days (cd - sd)) then 0.2 else 0).
  exists (if just_before_harvest crop (days (cd - sd)) then 0.3 else 0).
  split; [apply temporal_eq; assumption|].
  split; [apply three_penalties|].
  assert (Hw : outside_expected_range crop (days (cd - sd)) = false ->
               ~ outside_window crop (days (cd - sd))).
  { intros E H. apply Hout in H. congruence. }
  assert (Hh : just_before_harvest crop (days (cd - sd)) = false ->
               ~ near_harvest crop (days (cd - sd))).
  { intros E H. apply Hnear in H. congruence. }
  split; [|split; [|split]].
  - destruct (outside_expected_range crop (days (cd - sd))).
    + left. split; [apply Hout|]; reflexivity.
    + right. split; [apply Hw|]; reflexivity.
  - destruct (just_before_harvest crop (days (cd - sd))).
    + left. split; [apply Hnear|]; reflexivity.
    + right. split; [apply Hh|]; reflexivity.
  - intros H1 H2 H3 H4.
    destruct (outside_expected_range crop (days (cd - sd))); [|reflexivity].
    destruct (proj1 Hout eq_refl) as [[E _]|[[E _]|[[E _]|[E _]]]]; congruence.
  - intros Ho Hn. apply Hout in Ho. apply Hnear in Hn. rewrite Ho, Hn. reflexivity.
Qed.

(** Wheat claimed 181 days after sowing gets both penalties: 0.5. *)
Lemma window_and_harvest_penalties_witness :
  exists s, _analyze_temporal_patterns kumar (wheat_claim 181) [] = Ok s /\ s == 0.5.
Proof.
  destruct (window_and_harvest_penalties kumar (wheat_claim 181) [] []
              (181 * day_us)%Z (0 * day_us)%Z "wheat"
              eq_refl eq_refl eq_refl eq_refl)
    as (s & w & h & Hs & Heq & Hw & Hh & _ & Hsum).
  exists s. split; [exact Hs|].
  assert (Ho : outside_window "wheat" (days (181 * day_us - 0 * day_us))).
  { left. split; [reflexivity|]. right. vm_compute. reflexivity. }
  assert (Hn : near_harvest "wheat" (days (181 * day_us - 0 * day_us))).
  { split; [left; reflexivity|]. vm_compute. reflexivity. }
  change (s == Qmin (0 + w + h) 1) in Heq.
  rewrite Heq, <- Qplus_assoc, (Hsum Ho Hn). reflexivity.
Defined.

(** C8, as stated, fails for a history of three entries dated after the
    claim date: they are counted, and the score rises from 0 to 0.3. *)
Lemma later_records_counted :
  Forall (fun h => exists t, Hist.date h = Some (Iso t) /\ (100 * day_us < t)%Z)
    later_history /\
  (exists s, _analyze_temporal_patterns kumar (maize_claim 100) later_history = Ok s /\
             s == 0.3) /\
  (exists s, _analyze_temporal_patterns kumar (maize_claim 100) [] = Ok s /\ s == 0).
Proof.
  split; [|split].
  - repeat constructor; eexists; (split; [reflexivity | vm_compute; reflexivity]).
  - eexists. split; [vm_compute; reflexivity | reflexivity].
  - eexists. split; [vm_compute; reflexivity | reflexivity].
Qed.

(** C8 (amended). For a claim whose dates and crop are readable and a
    history whose entries are dated, the temporal score is the sum, capped
    at 1, of the window and near-harvest penalties and of 0.3 exactly when
    at least 3 entries of the history are dated later than 90 days before
    the claim date; entries dated 90 days or more before the claim date
    are not counted, entries dated after it are. *)
Theorem recent_records_penalty (farmer_data : Farmer.t) (claim_data : Claim.t)
  (historical_data : list Hist.t) (dates : list datetime) (cd sd : datetime)
  (crop : string) :
  Claim.claim_date claim_data = Some (Iso cd) ->
  Claim.sowing_date claim_data = Some (Iso sd) ->
  Claim.crop_type claim_data = Some crop ->
  map Hist.date historical_data = map (fun t => Some (Iso t)) dates ->
  exists s r,
    _analyze_temporal_patterns farmer_data claim_data historical_data = Ok s /\
    s == Qmin (r + (if outside_expected_range crop (days (cd - sd)) then 0.2 else 0)
               + (if just_before_harvest crop (days (cd - sd)) then 0.3 else 0)) 1 /\
    ((3 <= length (recent_dates cd dates))%nat /\ r = 0.3 \/
     (length (recent_dates cd dates) < 3)%nat /\ r = 0) /\
    (forall t, t ∈ recent_dates cd dates <-> t ∈ dates /\ (cd - 90 * day_us < t)%Z).
Proof.
  intros Hcd Hsd Hcrop Hd.
  destruct (recent_claims_length cd historical_data dates Hd) as (recent & Hrec & Hlen).
  exists (Qmin (add_if (just_before_harvest crop (days (cd - sd))) 0.3
                  (add_if (outside_expected_range crop (days (cd - sd))) 0.2
                     (add_if (2 <? length recent)%nat 0.3 0))) 1).
  exists (if (2 <? length recent)%nat then 0.3 else 0).
  split; [apply temporal_eq; assumption|].
  split; [apply three_penalties|].
  split.
  - rewrite <- Hlen. destruct (2 <? length recent)%nat eqn:E.
    + apply Nat.ltb_lt in E. left. split; [lia | reflexivity].
    + apply Nat.ltb_ge in E. right. split; [lia | reflexivity].
  - intros t. unfold recent_dates. rewrite list_elem_of_filter.
    split; intros [H1 H2]; split; try assumption; lia.
Qed.

(** Three entries dated 10, 20 and 89 days before the claim, and one dated
    90 days before it: the first three are counted. *)
Lemma recent_records_penalty_witness :
  exists s,
    _analyze_temporal_patterns kumar (maize_claim 100)
      [policy_on 90; policy_on 80; policy_on 11; policy_on 10] = Ok s /\
    s == 0.3.
Proof.
  destruct (recent_records_penalty kumar (maize_claim 100)
              [policy_on 90; policy_on 80; policy_on 11; policy_on 10]
              [90 * day_us; 80 * day_us; 11 * day_us; 10 * day_us]%Z
              (100 * day_us)%Z (0 * day_us)%Z "maize"
              eq_refl eq_refl eq_refl eq_refl)
    as (s & r & Hs & Heq & [[_ Hr]|[Hlt _]] & _).
  - exists s. split; [exact Hs|]. rewrite Heq, Hr. reflexivity.
  - exfalso. vm_compute in Hlt. lia.
Defined.

(** ** The geospatial verifier *)

Lemma truthy_false (x : option Q) :
  truthy x = false <-> x = None \/ exists v, x = Some v /\ v == 0.
Proof.
  destruct x as [v|]; simpl.
  - rewrite negb_false_iff, Qeq_bool_iff. split.
    + intros H. right. exists v. split; [reflexivity | exact H].
    + intros [H|(v' & Hv & H)]; [discriminate|]. injection Hv as ->. exact H.
  - split; [intros _; left; reflexivity | reflexivity].
Qed.

Lemma truthy_float_false (x : option float) :
  truthy_float x = false <-> x = None \/ exists v, x = Some v /\ (v =? 0)%float = true.
Proof.
  destruct x as [v|]; simpl.
  - rewrite negb_false_iff. split.
    + intros H. right. exists v. split; [reflexivity | exact H].
    + intros [H|(v' & Hv & H)]; [discriminate|]. injection Hv as ->. exact H.
  - split; [intros _; left; reflexivity | reflexivity].
Qed.

Lemma truthy_float_true (x : option float) :
  truthy_float x = true <-> exists v, x = Some v /\ (v =? 0)%float = false.
Proof.
  destruct x as [v|]; simpl.
  - rewrite negb_true_iff. split.
    + intros H. exists v. split; [reflexivity | exact H].
    + intros (v' & Hv & H). injection Hv as ->. exact H.
  - split; [discriminate | intros (v & H & _); discriminate].
Qed.

(** The coordinate check fires on a missing coordinate, on a coordinate
    equal to zero, and on a coordinate out of range. *)
Lemma invalid_coordinates_spec (lat lon : option Q) :
  invalid_coordinates lat lon = true <->
  lat = None \/ lon = None \/
  exists la lo, lat = Some la /\ lon = Some lo /\
                (la == 0 \/ lo == 0 \/ 90 < Qabs la \/ 180 < Qabs lo).
Proof.
  unfold invalid_coordinates.
  destruct lat as [la|], lon as [lo|]; simpl;
    try (split; [intros _; auto | intros _; rewrite ?orb_true_r; reflexivity]).
  rewrite !orb_true_iff, !negb_true_iff, !negb_false_iff, !Qeq_bool_iff, !Qltb_lt.
  split.
  - intros H. right. right. exists la, lo. repeat split. tauto.
  - intros [H|[H|(la' & lo' & Hla & Hlo & H)]]; try discriminate.
    injection Hla as <-. injection Hlo as <-. tauto.
Qed.

(** Without a usable estimate the area check is skipped. *)
Lemma area_mismatch_skipped (estimated_area reported_area : option float) :
  truthy_float estimated_area = false ->
  area_mismatch estimated_area reported_area = Ok false.
Proof.
  unfold area_mismatch, truthy_float. destruct estimated_area as [e|]; [|reflexivity].
  rewrite negb_false_iff. intros ->. reflexivity.
Qed.

(** With an estimate, an area of zero makes the division raise. *)
Lemma area_mismatch_zero_area (e r : float) :
  (e =? 0)%float = false -> (r =? 0)%float = true ->
  area_mismatch (Some e) (Some r) = Raise ZeroDivisionError.
Proof.
  intros He Hr. unfold area_mismatch. rewrite He, Hr. reflexivity.
Qed.

Lemma area_mismatch_Ok (e r : float) :
  (r =? 0)%float = false -> exists b, area_mismatch (Some e) (Some r) = Ok b.
Proof.
  intros Hr. unfold area_mismatch. rewrite Hr.
  destruct (e =? 0)%float; eauto.
Qed.

(** C5. The coordinate check treats a latitude of exactly 0 as missing: for
    the field on the equator at longitude 77.209, both coordinates present
    and in range, the verifier adds the 0.5 coordinate penalty. *)
Theorem equator_latitude_penalised :
  Claim.latitude equator_claim = Some 0 /\
  Claim.longitude equator_claim = Some 77.2090 /\
  Qabs 0 <= 90 /\ Qabs 77.2090 <= 180 /\
  invalid_coordinates (Claim.latitude equator_claim) (Claim.longitude equator_claim) = true /\
  exists s, _verify_geospatial_data quiet equator_claim = Ok s /\ s == 0.5.
Proof.
  repeat split; try discriminate.
  eexists. split; [vm_compute; reflexivity | reflexivity].
Qed.

(** C6. With an area estimate of 1.5 hectares available and a reported area
    of 0, the verifier divides by the reported area and raises
    [ZeroDivisionError] instead of returning a score. *)
Theorem zero_area_division_raises :
  _estimate_field_area_from_satellite surveyed (Claim.latitude zero_area_claim)
    (Claim.longitude zero_area_claim) = Some 1.5%float /\
  Claim.area_hectares zero_area_claim = Some 0%float /\
  _verify_geospatial_data surveyed zero_area_claim = Raise ZeroDivisionError /\
  forall now farmer_data historical_data,
    dated historical_data ->
    detect_claim_fraud surveyed now farmer_data zero_area_claim historical_data
    = Raise ZeroDivisionError.
Proof.
  split; [reflexivity|]. split; [reflexivity|]. split; [vm_compute; reflexivity|].
  intros now farmer_data historical_data Hd.
  destruct (dated_dates _ Hd) as (dates & Hdates).
  destruct (recent_claims_length (100 * day_us)%Z historical_data dates Hdates)
    as (recent & Hrec & _).
  unfold detect_claim_fraud, analyze.
  rewrite (temporal_eq farmer_data zero_area_claim historical_data recent
             (100 * day_us)%Z (0 * day_us)%Z "cotton" eq_refl eq_refl eq_refl Hrec).
  reflexivity.
Qed.

(** The part of C6 that holds: when no estimate is available the area
    check is skipped, whatever the reported area, and a score is returned. *)
Lemma geospatial_without_estimate (self : providers) (claim_data : Claim.t) :
  truthy_float (_estimate_field_area_from_satellite self (Claim.latitude claim_data)
                  (Claim.longitude claim_data)) = false ->
  exists s,
    _verify_geospatial_data self claim_data = Ok s /\ unit_interval s /\
    s == Qmin ((if invalid_coordinates (Claim.latitude claim_data)
                      (Claim.longitude claim_data) then 0.5 else 0)
               + (if _check_duplicate_coordinates self (Claim.latitude claim_data)
                       (Claim.longitude claim_data) then 0.6 else 0)) 1.
Proof.
  intros He. unfold _verify_geospatial_data.
  rewrite (area_mismatch_skipped _ _ He). simpl.
  eexists. split; [reflexivity|]. split.
  - apply Qmin_1_unit. repeat apply add_if_nonneg; lra.
  - apply Q.min_compat; [|reflexivity].
    rewrite !add_if_sum. unfold add_if. ring.
Qed.

(** ** The weather check *)

Lemma inconsistent_spec (damage_type : option string) (w : Weather.t) :
  inconsistent damage_type w = true <-> contradicts damage_type w.
Proof.
  unfold inconsistent, contradicts, inconsistencies.
  destruct damage_type as [d|].
  2:{ split; [discriminate|]. intros [[E _]|[[E _]|[[E _]|[E _]]]]; discriminate. }
  destruct (decide (d = "drought")) as [->|Hdrought].
  { rewrite lookup_insert_eq. simpl. rewrite Qltb_lt.
    split; [intros H; left; split; [reflexivity | exact H]|].
    intros [[_ H]|[[E _]|[[E _]|[E _]]]]; [exact H | discriminate..]. }
  rewrite lookup_insert_ne by congruence.
  destruct (decide (d = "flood")) as [->|Hflood].
  { rewrite lookup_insert_eq. simpl. rewrite Qltb_lt.
    split; [intros H; right; left; split; [reflexivity | exact H]|].
    intros [[E _]|[[_ H]|[[E _]|[E _]]]]; [discriminate | exact H | discriminate..]. }
  rewrite lookup_insert_ne by congruence.
  destruct (decide (d = "hail")) as [->|Hhail].
  { rewrite lookup_insert_eq. simpl. rewrite negb_true_iff.
    split; [intros H; right; right; left; split; [reflexivity | exact H]|].
    intros [[E _]|[[E _]|[[_ H]|[E _]]]]; [discriminate.. | exact H | discriminate]. }
  rewrite lookup_insert_ne by congruence.
  destruct (decide (d = "frost")) as [->|Hfrost].
  { rewrite lookup_insert_eq. simpl. rewrite Qltb_lt.
    split; [intros H; right; right; right; split; [reflexivity | exact H]|].
    intros [[E _]|[[E _]|[[E _]|[_ H]]]]; [discriminate.. | exact H]. }
  rewrite lookup_insert_ne by congruence.
  rewrite lookup_empty. simpl.
  split; [discriminate|].
  intros [[E _]|[[E _]|[[E _]|[E _]]]]; congruence.
Qed.

(** C9. The weather score is 0.2 when the provider has no data (nothing at
    all, or an empty answer); otherwise it is 0.7 when the damage type of
    the claim is drought, flood, hail or frost and the readings contradict
    it (rain over 20 mm for drought, under 50 mm for flood, no hail for
    hail, a minimum over 5 degrees for frost), and 0 when they do not.  The
    check is a total function: it never raises. *)
Theorem weather_score_values (self : providers) (claim_data : Claim.t) :
  (_get_weather_data self (Claim.latitude claim_data) (Claim.longitude claim_data)
     (Claim.claim_date claim_data) = None ->
   _verify_weather_consistency self claim_data = 0.2) /\
  (forall w,
      _get_weather_data self (Claim.latitude claim_data) (Claim.longitude claim_data)
        (Claim.claim_date claim_data) = Some w ->
      (Weather.is_empty w = true -> _verify_weather_consistency self claim_data = 0.2) /\
      (Weather.is_empty w = false ->
       contradicts (Claim.damage_type claim_data) w /\
       _verify_weather_consistency self claim_data == 0.7 \/
       ~ contradicts (Claim.damage_type claim_data) w /\
       _verify_weather_consistency self claim_data == 0)).
Proof.
  unfold _verify_weather_consistency. split.
  - intros ->. reflexivity.
  - intros w ->. split.
    + intros ->. reflexivity.
    + intros ->.
      pose proof (inconsistent_spec (Claim.damage_type claim_data) w) as Hspec.
      destruct (inconsistent (Claim.damage_type claim_data) w).
      * left. split; [apply Hspec; reflexivity | reflexivity].
      * right. split; [|reflexivity].
        intros H. apply Hspec in H. discriminate.
Qed.

(** A drought claim after a week with 45 mm of rain scores 0.7. *)
Lemma weather_score_values_witness :
  contradicts (Claim.damage_type drought_claim) rainy_week /\
  _verify_weather_consistency rainy drought_claim == 0.7.
Proof.
  destruct (weather_score_values rainy drought_claim) as [_ H].
  destruct (H rainy_week eq_refl) as [_ Hfull].
  destruct (Hfull eq_refl) as [Hyes|[Hno _]]; [exact Hyes|].
  exfalso. apply Hno. left. split; [reflexivity|]. vm_compute. reflexivity.
Defined.

(** ** The satellite analyzer *)

Lemma artificial_ndvi_drop_zero (ndvi_current ndvi_historical : option float)
  (damage_pattern : string) :
  (exists v, ndvi_current = Some v /\ (v =? 0)%float = true) \/
  (exists v, ndvi_historical = Some v /\ (v =? 0)%float = true) ->
  artificial_ndvi_drop ndvi_current ndvi_historical damage_pattern = false.
Proof.
  unfold artificial_ndvi_drop.
  intros [(v & -> & Hv)|(v & -> & Hv)].
  - assert (E : truthy_float (Some v) = false).
    { apply truthy_float_false. right. exists v. split; [reflexivity | exact Hv]. }
    rewrite E. reflexivity.
  - assert (E : truthy_float (Some v) = false).
    { apply truthy_float_false. right. exists v. split; [reflexivity | exact Hv]. }
    rewrite E, andb_false_r. reflexivity.
Qed.

(** C10. When the current or the 30-day-old NDVI reading is exactly 0, the
    drop comparison is skipped, whatever the drop and the damage pattern:
    the satellite score is 0.8 if signs of artificial damage are detected
    and 0 otherwise. *)
Theorem zero_ndvi_skips_drop_check (self : providers) (claim_data : Claim.t) :
  (exists v, _get_ndvi_data self (Claim.latitude claim_data) (Claim.longitude claim_data)
               (Claim.claim_date claim_data) 0 = Some v /\ (v =? 0)%float = true) \/
  (exists v, _get_ndvi_data self (Claim.latitude claim_data) (Claim.longitude claim_data)
               (Claim.claim_date claim_data) 30 = Some v /\ (v =? 0)%float = true) ->
  _analyze_satellite_images self claim_data ==
  (if _detect_artificial_damage_signs self (Claim.latitude claim_data)
        (Claim.longitude claim_data) (Claim.claim_date claim_data)
   then 0.8 else 0).
Proof.
  intros H. unfold _analyze_satellite_images.
  rewrite (artificial_ndvi_drop_zero _ _ _ H).
  destruct (_detect_artificial_damage_signs _ _ _ _); reflexivity.
Qed.

(** The index fell from 0.5 to 0 and the pattern is artificial, yet the
    score is 0. *)
Lemma zero_ndvi_skips_drop_check_witness :
  _get_ndvi_data bare_field (Claim.latitude drought_claim) (Claim.longitude drought_claim)
    (Claim.claim_date drought_claim) 30 = Some 0.5%float /\
  _get_ndvi_data bare_field (Claim.latitude drought_claim) (Claim.longitude drought_claim)
    (Claim.claim_date drought_claim) 0 = Some 0%float /\
  _analyze_damage_pattern bare_field (Claim.latitude drought_claim)
    (Claim.longitude drought_claim) (Claim.claim_date drought_claim) = "artificial" /\
  _analyze_satellite_images bare_field drought_claim == 0.
Proof.
  split; [reflexivity|]. split; [reflexivity|]. split; [reflexivity|].
  apply (zero_ndvi_skips_drop_check bare_field drought_claim).
  left. exists 0%float. split; reflexivity.
Defined.

(** For comparison: the same drop to a reading of 0.1 is penalised. *)
Example nonzero_ndvi_drop_penalised :
  _analyze_satellite_images
    (service None false None (Some 0.1%float) (Some 0.5%float) "artificial" false)
    drought_claim
  == 0.6.
Proof. reflexivity. Qed.

(** ** Failures and totality of the assessment *)

(** The comprehension keeps the entries that satisfy [is_recent], when the
    dates of the history are of the kind of the claim date. *)
Lemma recent_claims_filter (claim_date : pydatetime) (historical_data : list Hist.t) :
  Forall (fun h => kind_of (Hist.date h) = Some (kind_of_datetime claim_date))
    historical_data ->
  recent_claims claim_date historical_data
  = Ok (List.filter (is_recent claim_date) historical_data).
Proof.
  induction 1 as [|h rest Hk _ IH].
  - reflexivity.
  - simpl. unfold is_recent at 1.
    destruct claim_date as [c|c], (Hist.date h) as [[t|t|]|]; try discriminate Hk;
      step; rewrite IH; reflexivity.
Qed.

Lemma dated_naive (historical_data : list Hist.t) :
  dated historical_data <->
  Forall (fun h => kind_of (Hist.date h) = Some naive) historical_data.
Proof.
  unfold dated. apply Forall_iff. intros h. split.
  - intros (t & ->). reflexivity.
  - destruct (Hist.date h) as [[t|t|]|]; try discriminate. eauto.
Qed.

Lemma kind_of_Some (field : option isostr) (k : kind) :
  kind_of field = Some k ->
  exists s d, field = Some s /\ fromisoformat s = Ok d /\ kind_of_datetime d = k.
Proof.
  destruct field as [[t|t|]|]; simpl; intros H; try discriminate; injection H as <-.
  - exists (Iso t), (Naive t). repeat split.
  - exists (IsoOffset t), (Aware t). repeat split.
Qed.

Lemma sub_datetime_same_kind (a b : pydatetime) :
  kind_of_datetime a = kind_of_datetime b -> exists delta, sub_datetime a b = Ok delta.
Proof. destruct a, b; simpl; intros H; try discriminate; eauto. Qed.

Lemma sub_datetime_other_kind (a b : pydatetime) :
  kind_of_datetime a <> kind_of_datetime b -> sub_datetime a b = Raise TypeError.
Proof. destruct a, b; simpl; intros H; try reflexivity; contradiction. Qed.

Lemma temporal_total (farmer_data : Farmer.t) (claim_data : Claim.t)
  (historical_data : list Hist.t) (k : kind) :
  dates_of_kind k claim_data historical_data ->
  is_Some (Claim.crop_type claim_data) ->
  exists t, _analyze_temporal_patterns farmer_data claim_data historical_data = Ok t.
Proof.
  intros (Hcd & Hsd & Hd) [crop Hcrop].
  apply kind_of_Some in Hcd. destruct Hcd as (s1 & d1 & Hcd & Hp1 & Hk1).
  apply kind_of_Some in Hsd. destruct Hsd as (s2 & d2 & Hsd & Hp2 & Hk2).
  rewrite <- Hk1 in Hd.
  destruct (sub_datetime_same_kind d1 d2) as (delta & Hdelta); [congruence|].
  unfold _analyze_temporal_patterns.
  rewrite Hcd, Hsd, Hcrop. step. rewrite Hp1. step.
  rewrite (recent_claims_filter d1 historical_data Hd). step.
  rewrite Hp2. step. rewrite Hdelta. step. eauto.
Qed.

Lemma geospatial_total (self : providers) (claim_data : Claim.t) :
  (truthy_float (_estimate_field_area_from_satellite self (Claim.latitude claim_data)
                   (Claim.longitude claim_data)) = true ->
   exists a, Claim.area_hectares claim_data = Some a /\ (a =? 0)%float = false) ->
  exists g, _verify_geospatial_data self claim_data = Ok g.
Proof.
  intros Harea. unfold _verify_geospatial_data.
  destruct (truthy_float (_estimate_field_area_from_satellite self
                            (Claim.latitude claim_data)
                            (Claim.longitude claim_data))) eqn:E.
  - destruct (Harea eq_refl) as (a & Ha & Hnz).
    apply truthy_float_true in E. destruct E as (e & He & _).
    rewrite He, Ha. destruct (area_mismatch_Ok e a Hnz) as (b & ->).
    simpl. eauto.
  - rewrite (area_mismatch_skipped _ _ E). simpl. eauto.
Qed.

Lemma detect_scorable (self : providers) (now : Z) (farmer_data : Farmer.t)
  (claim_data : Claim.t) (historical_data : list Hist.t) :
  scorable self claim_data historical_data ->
  exists r, detect_claim_fraud self now farmer_data claim_data historical_data = Ok r.
Proof.
  intros ((k & Hk) & (crop & Hcrop) & Harea).
  destruct (temporal_total farmer_data claim_data historical_data k Hk) as (t & Ht);
    [eauto|].
  destruct (geospatial_total self claim_data Harea) as (g & Hg).
  unfold detect_claim_fraud, analyze. rewrite Ht, Hg. simpl. eauto.
Qed.

Lemma Feqb_zero_not_positive (a : float) : (0 < a)%float -> (a =? 0)%float = false.
Proof.
  intros H. destruct (a =? 0)%float eqn:E; [|reflexivity]. exfalso.
  assert (H0 : (a <? a)%float = (0 <? a)%float) by (apply Feqb_ltb; exact E).
  unfold Flt in H. rewrite H in H0.
  apply (Flt_not_Fle a a H0). apply Flt_Fle. exact H0.
Qed.

Lemma well_formed_scorable (self : providers) (farmer_data : Farmer.t)
  (claim_data : Claim.t) (historical_data : list Hist.t) :
  well_formed farmer_data claim_data historical_data ->
  (exists k, dates_of_kind k claim_data historical_data) ->
  scorable self claim_data historical_data.
Proof.
  intros (_ & _ & [crop Hcrop] & _ & (a & Ha & Hpos) & _) Hk.
  split; [exact Hk|]. split; [eauto|].
  intros _. exists a. split; [exact Ha|]. apply Feqb_zero_not_positive. exact Hpos.
Qed.

(** C4, as stated, fails twice over.  A claim with a negative area, dated
    before sowing, from a farmer without an identifier is malformed in each
    of these ways, and is scored all the same.  And a well-formed claim
    whose claim date carries a UTC offset while its sowing date carries
    none is not scored: the subtraction of the two dates raises
    [TypeError]. *)
Lemma malformed_input_scored :
  Farmer.farmer_id anonymous = None /\
  (exists a, Claim.area_hectares backdated_claim = Some a /\ (a < 0)%float) /\
  (exists cd sd, Claim.claim_date backdated_claim = Some (Iso cd) /\
                 Claim.sowing_date backdated_claim = Some (Iso sd) /\
                 (days (cd - sd) < 0)%Z) /\
  malformed anonymous backdated_claim /\
  (exists r, detect_claim_fraud surveyed 0 anonymous backdated_claim [] = Ok r /\
             Assessment.fraud_score r = 0.09%float /\ Assessment.risk r = LOW) /\
  well_formed kumar offset_claim [] /\
  detect_claim_fraud surveyed 0 kumar offset_claim [] = Raise TypeError.
Proof.
  split; [reflexivity|]. split; [|split; [|split; [|split; [|split]]]].
  - eexists. split; reflexivity.
  - do 2 eexists. repeat split.
  - left. reflexivity.
  - eexists. split; [vm_compute; reflexivity|]. split; reflexivity.
  - split; [eexists; reflexivity|].
    split; [do 2 eexists; repeat split; vm_compute; discriminate|].
    split; [eexists; reflexivity|].
    split; [do 2 eexists; repeat split; vm_compute; discriminate|].
    split; [eexists; split; reflexivity|].
    split; [eexists; reflexivity|].
    split; [eexists; split; [reflexivity | vm_compute; discriminate]|].
    constructor.
  - vm_compute. reflexivity.
Qed.

(** C4 (amended). The engine validates nothing: a missing [claim_date],
    [crop_type] or [sowing_date] surfaces as the [KeyError] of that key
    and no score is produced, while a missing farmer field, a negative
    area or a claim dated before sowing is not rejected.  Whenever the
    dates are readable and of one kind (all without or all with a UTC
    offset), the crop is present and the reported area is present and not
    zero when an estimate is available, an assessment is produced; in
    particular for every well-formed input with dates of one kind no
    exception is raised and an assessment is always produced.  A sowing
    date of the other kind than the claim date raises [TypeError]. *)
Theorem detect_claim_fraud_failures (self : providers) (now : Z) (farmer_data : Farmer.t)
  (claim_data : Claim.t) (historical_data : list Hist.t) :
  (Claim.claim_date claim_data = None ->
   detect_claim_fraud self now farmer_data claim_data historical_data
   = Raise (KeyError "claim_date")) /\
  (forall cd, Claim.claim_date claim_data = Some (Iso cd) -> dated historical_data ->
     Claim.crop_type claim_data = None ->
     detect_claim_fraud self now farmer_data claim_data historical_data
     = Raise (KeyError "crop_type")) /\
  (forall cd, Claim.claim_date claim_data = Some (Iso cd) -> dated historical_data ->
     is_Some (Claim.crop_type claim_data) -> Claim.sowing_date claim_data = None ->
     detect_claim_fraud self now farmer_data claim_data historical_data
     = Raise (KeyError "sowing_date")) /\
  (scorable self claim_data historical_data ->
   exists r, detect_claim_fraud self now farmer_data claim_data historical_data = Ok r) /\
  (well_formed farmer_data claim_data historical_data ->
   (exists k, dates_of_kind k claim_data historical_data) ->
   exists r, detect_claim_fraud self now farmer_data claim_data historical_data = Ok r) /\
  (forall k k',
     kind_of (Claim.claim_date claim_data) = Some k ->
     Forall (fun h => kind_of (Hist.date h) = Some k) historical_data ->
     is_Some (Claim.crop_type claim_data) ->
     kind_of (Claim.sowing_date claim_data) = Some k' -> k <> k' ->
     detect_claim_fraud self now farmer_data claim_data historical_data
     = Raise TypeError).
Proof.
  split; [|split; [|split; [|split; [|split]]]].
  - intros H. unfold detect_claim_fraud, analyze, _analyze_temporal_patterns.
    rewrite H. reflexivity.
  - intros cd Hcd Hd Hcrop.
    destruct (dated_dates _ Hd) as (dates & Hdates).
    destruct (recent_claims_length cd historical_data dates Hdates) as (recent & Hrec & _).
    unfold detect_claim_fraud, analyze, _analyze_temporal_patterns.
    rewrite Hcd, Hcrop. step. rewrite Hrec. reflexivity.
  - intros cd Hcd Hd [crop Hcrop] Hsd.
    destruct (dated_dates _ Hd) as (dates & Hdates).
    destruct (recent_claims_length cd historical_data dates Hdates) as (recent & Hrec & _).
    unfold detect_claim_fraud, analyze, _analyze_temporal_patterns.
    rewrite Hcd, Hcrop, Hsd. step. rewrite Hrec. reflexivity.
  - apply detect_scorable.
  - intros H Hk. apply detect_scorable. apply (well_formed_scorable _ _ _ _ H Hk).
  - intros k k' Hcd Hd [crop Hcrop] Hsd Hne.
    apply kind_of_Some in Hcd. destruct Hcd as (s1 & d1 & Hcd & Hp1 & Hk1).
    apply kind_of_Some in Hsd. destruct Hsd as (s2 & d2 & Hsd & Hp2 & Hk2).
    rewrite <- Hk1 in Hd.
    unfold detect_claim_fraud, analyze, _analyze_temporal_patterns.
    rewrite Hcd, Hsd, Hcrop. step. rewrite Hp1. step.
    rewrite (recent_claims_filter d1 historical_data Hd). step.
    rewrite Hp2. step.
    rewrite (sub_datetime_other_kind d1 d2) by congruence. reflexivity.
Qed.

Lemma wheat_claim_well_formed : well_formed kumar (wheat_claim 100) [policy_on 10].
Proof.
  split; [eexists; reflexivity|].
  split; [do 2 eexists; repeat split; vm_compute; discriminate|].
  split; [eexists; reflexivity|].
  split; [do 2 eexists; repeat split; vm_compute; discriminate|].
  split; [eexists; split; reflexivity|].
  split; [eexists; reflexivity|].
  split; [eexists; split; [reflexivity | vm_compute; discriminate]|].
  repeat constructor. eexists. reflexivity.
Defined.

(** A well-formed wheat claim with naive dates is assessed, and a claim
    without a claim date raises [KeyError]. *)
Lemma detect_claim_fraud_failures_witness :
  (exists r, detect_claim_fraud surveyed 0 kumar (wheat_claim 100) [policy_on 10] = Ok r) /\
  detect_claim_fraud surveyed 0 kumar
    {| Claim.claim_date := None; Claim.sowing_date := Some (on_day 0);
       Claim.crop_type := Some "wheat"; Claim.latitude := None; Claim.longitude := None;
       Claim.area_hectares := Some 5%float; Claim.damage_type := None;
       Claim.claim_amount := None |} []
  = Raise (KeyError "claim_date").
Proof.
  split.
  - apply (detect_claim_fraud_failures surveyed 0 kumar (wheat_claim 100) [policy_on 10]).
    + exact wheat_claim_well_formed.
    + exists naive. repeat split. repeat constructor.
  - apply (detect_claim_fraud_failures surveyed 0 kumar).
    reflexivity.
Defined.

(** The drought claim after a rainy week, with three entries dated after
    the claim: the sub-scores are 0.3, 0, 0.7, 0 and 0. *)
Lemma scores_in_unit_interval_witness :
  exists s, analyze rainy kumar drought_claim later_history = Ok s /\
            unit_interval_float (weighted_sum s).
Proof.
  eexists. split; [vm_compute; reflexivity|].
  apply (scores_in_unit_interval rainy kumar drought_claim later_history).
  vm_compute. reflexivity.
Defined.

(** ** Sample assessments *)

(** A scorable input for each scenario used below. *)
Lemma scorable_naive (self : providers) (claim_data : Claim.t)
  (historical_data : list Hist.t) (a : float) :
  dates_of_kind naive claim_data historical_data ->
  is_Some (Claim.crop_type claim_data) ->
  Claim.area_hectares claim_data = Some a -> (a =? 0)%float = false ->
  scorable self claim_data historical_data.
Proof.
  intros Hk [c Hc] Ha Hnz. split; [eauto|]. split; [eauto|]. eauto.
Qed.

(** Every analyzer fires: 0.8, 1, 0.7, 1 and 1 weigh 0.89. *)
Example staged_assessment :
  exists r, detect_claim_fraud staged 0 kumar staged_claim staged_history = Ok r /\
    Assessment.fraud_score r = 0.89%float /\ Assessment.risk r = CRITICAL /\
    Assessment.fraud_indicators r =
      ["Suspicious timing pattern detected"; "Geospatial data inconsistency";
       "Weather data mismatch with claimed damage";
       "Satellite imagery suggests artificial damage";
       "Unusual behavioral pattern in claim history"] /\
    Assessment.requires_field_verification r = true /\ Assessment.auto_reject r = true.
Proof.
  eexists. split; [vm_compute; reflexivity|]. repeat split.
Qed.

(** The first scenario of the demonstration scores 0.425 on paper and is
    reported as 0.42. *)
Example demo_assessment :
  exists r, Demo.detect_fraud kumar demo_claim [drought_claim_on 10; drought_claim_on 20] = Ok r /\
    Assessment.fraud_score r = 0.42%float /\ Assessment.risk r = MEDIUM /\
    Assessment.fraud_indicators r =
      ["Suspicious timing pattern detected";
       "Satellite imagery suggests artificial damage";
       "Unusual behavioral pattern in claim history"] /\
    Assessment.requires_field_verification r = false /\ Assessment.auto_reject r = false.
Proof.
  eexists. split; [vm_compute; reflexivity|]. repeat split.
Qed.

(** A score of 0.45 is MEDIUM. *)
Lemma risk_level_step_function_witness :
  ((0.3 <= 0.45)%float /\ (0.45 < 0.6)%float) /\ _calculate_risk_level 0.45 = MEDIUM.
Proof.
  assert (H : (0.3 <= 0.45)%float /\ (0.45 < 0.6)%float) by (split; reflexivity).
  split; [exact H|].
  apply (proj1 (proj2 (risk_level_step_function 0.45))). exact H.
Defined.

(** The staged claim is flagged for field verification and rejected. *)
Lemma flags_compare_unrounded_score_witness :
  exists r, detect_claim_fraud staged 0 kumar staged_claim staged_history = Ok r /\
    Assessment.requires_field_verification r = true /\ Assessment.auto_reject r = true.
Proof.
  destruct (detect_scorable staged 0 kumar staged_claim staged_history) as (r & Hr).
  { apply (scorable_naive _ _ _ 5%float); try reflexivity; [|eexists; reflexivity].
    repeat split. repeat constructor. }
  exists r. split; [exact Hr|].
  destruct (proj1 flags_compare_unrounded_score staged 0%Z kumar staged_claim staged_history
              r Hr) as (s & Hs & Hreq & Hauto & Himp & _).
  assert (Ha : Assessment.auto_reject r = true).
  { apply Hauto. assert (E : Ok s = Ok _) by (rewrite <- Hs; vm_compute; reflexivity).
    injection E as ->. reflexivity. }
  split; [apply Himp; exact Ha | exact Ha].
Defined.

(** * Further properties of the scorer *)

(** ** The tiers and the flags *)

Lemma risk_rank_cases (x : float) :
  ((x < 0.3)%float /\ risk_rank (_calculate_risk_level x) = 0%nat) \/
  ((x <? 0.3)%float = false /\ (x < 0.6)%float /\
   risk_rank (_calculate_risk_level x) = 1%nat) \/
  ((x <? 0.6)%float = false /\ (x < 0.8)%float /\
   risk_rank (_calculate_risk_level x) = 2%nat) \/
  ((x <? 0.8)%float = false /\ risk_rank (_calculate_risk_level x) = 3%nat).
Proof.
  destruct (risk_level_cases x) as [[H E]|[(H1 & H & E)|[(H1 & H & E)|[H1 E]]]];
    rewrite E; simpl; tauto.
Qed.

(** X1. The risk level never decreases when the fraud score increases. *)
Theorem risk_level_monotone (x y : float) :
  (x <= y)%float ->
  (risk_rank (_calculate_risk_level x) <= risk_rank (_calculate_risk_level y))%nat.
Proof.
  intros Hxy.
  assert (Hc : forall c, (y < c)%float -> (x <? c)%float = true).
  { intros c Hy. apply (Fle_Flt_trans x y c Hxy Hy). }
  assert (H3 : (y < 0.3)%float -> (y < 0.6)%float).
  { intros H. apply (Flt_trans y 0.3 0.6); [exact H | reflexivity]. }
  assert (H6 : (y < 0.6)%float -> (y < 0.8)%float).
  { intros H. apply (Flt_trans y 0.6 0.8); [exact H | reflexivity]. }
  destruct (risk_rank_cases x) as [[Hx Ex]|[(Hx1 & Hx & Ex)|[(Hx1 & Hx & Ex)|[Hx1 Ex]]]];
    destruct (risk_rank_cases y) as [[Hy Ey]|[(Hy1 & Hy & Ey)|[(Hy1 & Hy & Ey)|[Hy1 Ey]]]];
    rewrite Ex, Ey; try lia; exfalso;
    first [ rewrite (Hc _ Hy) in Hx1; discriminate Hx1
          | rewrite (Hc _ (H3 Hy)) in Hx1; discriminate Hx1
          | rewrite (Hc _ (H6 Hy)) in Hx1; discriminate Hx1
          | rewrite (Hc _ (H6 (H3 Hy))) in Hx1; discriminate Hx1 ].
Qed.

Lemma risk_level_monotone_witness :
  (0.25 <= 0.7)%float /\
  (risk_rank (_calculate_risk_level 0.25) <= risk_rank (_calculate_risk_level 0.7))%nat.
Proof.
  assert (H : (0.25 <= 0.7)%float) by reflexivity.
  split; [exact H | apply (risk_level_monotone 0.25 0.7 H)].
Defined.

Lemma flags_of_score (x : float) :
  ((x >? 0.85)%float = true -> _calculate_risk_level x = CRITICAL) /\
  ((x >? 0.6)%float = true ->
   _calculate_risk_level x = HIGH \/ _calculate_risk_level x = CRITICAL) /\
  (_calculate_risk_level x = LOW \/ _calculate_risk_level x = MEDIUM ->
   (x >? 0.6)%float = false /\ (x >? 0.85)%float = false).
Proof.
  assert (Hno : forall a b, (a < x)%float -> (x < b)%float -> (b <= a)%float -> False).
  { intros a b Ha Hb Hba. apply (Flt_not_Fle a b); [|exact Hba].
    apply (Flt_trans a x b); assumption. }
  destruct (risk_level_cases x) as [[H E]|[(H1 & H & E)|[(H1 & H & E)|[H1 E]]]];
    rewrite E; (split; [|split]).
  all: try (intros G; first [ reflexivity | left; reflexivity | right; reflexivity
                            | exfalso; apply (Hno _ _ G H); reflexivity ]).
  all: intros [G|G]; try discriminate.
  all: split; match goal with
              | |- ?b = false => destruct b eqn:Eb; [|reflexivity]
              end; exfalso; apply (Hno _ _ Eb H); reflexivity.
Qed.

(** X2. In an assessment of either detector the flags and the tier agree:
    automatic rejection comes only with CRITICAL, field verification only
    with HIGH or CRITICAL, and a LOW or MEDIUM assessment sets no flag. *)
Theorem flags_agree_with_tier :
  (forall self now farmer_data claim_data historical_data r,
      detect_claim_fraud self now farmer_data claim_data historical_data = Ok r ->
      (Assessment.auto_reject r = true -> Assessment.risk r = CRITICAL) /\
      (Assessment.requires_field_verification r = true ->
       Assessment.risk r = HIGH \/ Assessment.risk r = CRITICAL) /\
      (Assessment.risk r = LOW \/ Assessment.risk r = MEDIUM ->
       Assessment.requires_field_verification r = false /\
       Assessment.auto_reject r = false)) /\
  (forall farmer_data claim_data historical_data r,
      Demo.detect_fraud farmer_data claim_data historical_data = Ok r ->
      (Assessment.auto_reject r = true -> Assessment.risk r = CRITICAL) /\
      (Assessment.requires_field_verification r = true ->
       Assessment.risk r = HIGH \/ Assessment.risk r = CRITICAL) /\
      (Assessment.risk r = LOW \/ Assessment.risk r = MEDIUM ->
       Assessment.requires_field_verification r = false /\
       Assessment.auto_reject r = false)).
Proof.
  split.
  - intros self now farmer_data claim_data historical_data r Hr.
    apply detect_claim_fraud_Ok in Hr. destruct Hr as (s & _ & ->). simpl.
    apply flags_of_score.
  - intros farmer_data claim_data historical_data r Hr.
    apply demo_detect_fraud_Ok in Hr. destruct Hr as (s & _ & ->). simpl.
    apply flags_of_score.
Qed.

(** The scenarios below have naive dates, a crop and an area of 5. *)
Lemma staged_scorable : scorable staged staged_claim staged_history.
Proof.
  apply (scorable_naive _ _ _ 5%float); try reflexivity; [|eexists; reflexivity].
  repeat split. repeat constructor.
Qed.

Lemma flags_agree_with_tier_witness :
  exists r, detect_claim_fraud staged 0 kumar staged_claim staged_history = Ok r /\
            Assessment.risk r = CRITICAL.
Proof.
  destruct (detect_scorable staged 0 kumar staged_claim staged_history staged_scorable)
    as (r & Hr).
  exists r. split; [exact Hr|].
  apply (proj1 flags_agree_with_tier staged 0%Z kumar staged_claim staged_history r Hr).
  assert (E : Ok r = Ok _) by (rewrite <- Hr; vm_compute; reflexivity).
  injection E as ->. reflexivity.
Defined.

(** ** The values the analyzers can return *)

(** Proves [one_of] for a closed score by trying the values in turn. *)
Ltac qone_of :=
  unfold one_of;
  solve [ repeat (first [ apply Exists_cons_hd; qdecide | apply Exists_cons_tl ]) ].

(** Splits a hypothesis [one_of x values] into one case per value. *)
Ltac one_of_cases H :=
  unfold one_of in H;
  repeat match type of H with
         | Exists _ (_ :: _) => apply Exists_cons in H; destruct H as [H|H]
         | Exists _ [] => apply Exists_nil in H; destruct H
         end.

(** The values each analyzer can return. *)
Lemma analyzer_values (self : providers) (farmer_data : Farmer.t)
  (claim_data : Claim.t) (historical_data : list Hist.t) :
  (forall t, _analyze_temporal_patterns farmer_data claim_data historical_data = Ok t ->
             one_of t [0; 0.2; 0.3; 0.5; 0.6; 0.8]) /\
  (forall g, _verify_geospatial_data self claim_data = Ok g ->
             one_of g [0; 0.4; 0.5; 0.6; 0.9; 1]) /\
  one_of (_verify_weather_consistency self claim_data) [0; 0.2; 0.7] /\
  one_of (_analyze_satellite_images self claim_data) [0; 0.6; 0.8; 1] /\
  one_of (_analyze_farmer_behavior farmer_data historical_data)
    [0; 0.3; 0.4; 0.5; 0.7; 0.8; 0.9; 1].
Proof.
  split; [|split; [|split; [|split]]].
  - intros t Ht. apply temporal_shape in Ht. destruct Ht as ([] & [] & [] & ->); qone_of.
  - intros g Hg. apply geospatial_shape in Hg. destruct Hg as ([] & [] & [] & ->); qone_of.
  - destruct (weather_shape self claim_data) as [->|([] & ->)]; qone_of.
  - destruct (satellite_shape self claim_data) as ([] & [] & ->); qone_of.
  - destruct (behavior_shape farmer_data historical_data) as ([] & [] & [] & ->); qone_of.
Qed.

Lemma analyze_one_of (self : providers) (farmer_data : Farmer.t) (claim_data : Claim.t)
  (historical_data : list Hist.t) (s : sub_scores) :
  analyze self farmer_data claim_data historical_data = Ok s ->
  one_of (temporal_score s) [0; 0.2; 0.3; 0.5; 0.6; 0.8] /\
  one_of (geo_score s) [0; 0.4; 0.5; 0.6; 0.9; 1] /\
  one_of (weather_score s) [0; 0.2; 0.7] /\
  one_of (satellite_score s) [0; 0.6; 0.8; 1] /\
  one_of (behavioral_score s) [0; 0.3; 0.4; 0.5; 0.7; 0.8; 0.9; 1].
Proof.
  intros H. apply analyze_Ok in H. destruct H as (t & g & Ht & Hg & ->). simpl.
  destruct (analyzer_values self farmer_data claim_data historical_data)
    as (H1 & H2 & H3 & H4 & H5).
  auto.
Qed.

(** X3. The sub-scores of an assessment take only a few values: the
    temporal score is 0, 0.2, 0.3, 0.5, 0.6 or 0.8, the geospatial score 0,
    0.4, 0.5, 0.6, 0.9 or 1, the weather score 0, 0.2 or 0.7, the satellite
    score 0, 0.6, 0.8 or 1 and the behavioral score 0, 0.3, 0.4, 0.5, 0.7,
    0.8, 0.9 or 1; so the cap at 1 never binds for the temporal and the
    weather score. *)
Theorem sub_score_values (self : providers) (farmer_data : Farmer.t)
  (claim_data : Claim.t) (historical_data : list Hist.t) (s : sub_scores) :
  analyze self farmer_data claim_data historical_data = Ok s ->
  one_of (temporal_score s) [0; 0.2; 0.3; 0.5; 0.6; 0.8] /\
  one_of (geo_score s) [0; 0.4; 0.5; 0.6; 0.9; 1] /\
  one_of (weather_score s) [0; 0.2; 0.7] /\
  one_of (satellite_score s) [0; 0.6; 0.8; 1] /\
  one_of (behavioral_score s) [0; 0.3; 0.4; 0.5; 0.7; 0.8; 0.9; 1] /\
  temporal_score s <= 0.8 /\ weather_score s <= 0.7.
Proof.
  intros H. destruct (analyze_one_of _ _ _ _ _ H) as (Ht & Hg & Hw & Hs & Hb).
  repeat split; try assumption.
  - one_of_cases Ht; lra.
  - one_of_cases Hw; lra.
Qed.

Lemma sub_score_values_witness :
  exists s, analyze staged kumar staged_claim staged_history = Ok s /\
            one_of (temporal_score s) [0; 0.2; 0.3; 0.5; 0.6; 0.8] /\
            one_of (geo_score s) [0; 0.4; 0.5; 0.6; 0.9; 1].
Proof.
  eexists. split; [vm_compute; reflexivity|].
  split; apply (sub_score_values staged kumar staged_claim staged_history);
    vm_compute; reflexivity.
Defined.

(** ** How high the fraud score can get *)

(** X4. Whatever the input, the unrounded fraud score of the engine is at
    most 0.89, and the claim that triggers every rule reaches 0.89. *)
Theorem fraud_score_ceiling :
  (forall self farmer_data claim_data historical_data s,
      analyze self farmer_data claim_data historical_data = Ok s ->
      (weighted_sum s <= 0.89)%float) /\
  (exists s, analyze staged kumar staged_claim staged_history = Ok s /\
             weighted_sum s = 0.89%float).
Proof.
  split.
  - intros self farmer_data claim_data historical_data s H.
    apply (engine_forall (fun s => (weighted_sum s <=? 0.89)%float)
             ltac:(vm_compute; reflexivity) _ _ _ _ _ H).
  - eexists. split; [vm_compute; reflexivity | vm_compute; reflexivity].
Qed.

(** X5. The engine rejects a claim automatically only when all five
    analyzers report: the temporal score must be 0.8 (all three timing
    rules), the weather score 0.7, the satellite score 1 (both satellite
    rules), the geospatial score at least 0.9 and the behavioral score at
    least 0.7. *)
Theorem auto_reject_requirements (self : providers) (now : Z) (farmer_data : Farmer.t)
  (claim_data : Claim.t) (historical_data : list Hist.t) (r : Assessment.t) :
  detect_claim_fraud self now farmer_data claim_data historical_data = Ok r ->
  Assessment.auto_reject r = true ->
  exists s, analyze self farmer_data claim_data historical_data = Ok s /\
    temporal_score s == 0.8 /\ 0.9 <= geo_score s /\ weather_score s == 0.7 /\
    satellite_score s == 1 /\ 0.7 <= behavioral_score s.
Proof.
  intros Hr Hauto. apply detect_claim_fraud_Ok in Hr. destruct Hr as (s & Hs & ->).
  simpl in Hauto. exists s. split; [exact Hs|].
  pose proof (engine_forall
                (fun s => implb (weighted_sum s >? 0.85)%float
                            (Qeq_bool (temporal_score s) 0.8
                             && Qle_bool 0.9 (geo_score s)
                             && Qeq_bool (weather_score s) 0.7
                             && Qeq_bool (satellite_score s) 1
                             && Qle_bool 0.7 (behavioral_score s)))
                ltac:(vm_compute; reflexivity) _ _ _ _ _ Hs) as H.
  cbv beta in H. rewrite Hauto in H. simpl in H.
  rewrite !andb_true_iff, !Qeq_bool_iff, !Qle_bool_iff in H. tauto.
Qed.

Lemma auto_reject_requirements_witness :
  exists s, analyze staged kumar staged_claim staged_history = Ok s /\
    temporal_score s == 0.8 /\ 0.9 <= geo_score s /\ weather_score s == 0.7 /\
    satellite_score s == 1 /\ 0.7 <= behavioral_score s.
Proof.
  destruct (detect_scorable staged 0 kumar staged_claim staged_history staged_scorable)
    as (r & Hr).
  apply (auto_reject_requirements staged 0 kumar staged_claim staged_history r Hr).
  assert (E : Ok r = Ok _) by (rewrite <- Hr; vm_compute; reflexivity).
  injection E as ->. reflexivity.
Defined.

(** ** How many analyzers a tier needs *)

Lemma risk_rank_inj (r r' : risk_level) : risk_rank r = risk_rank r' -> r = r'.
Proof. destruct r, r'; simpl; intros H; try reflexivity; discriminate H. Qed.

(** X6. The tier of an engine assessment bounds the number of analyzers
    with a score above zero from below: with at most one such analyzer the
    claim is LOW, with at most two it is LOW or MEDIUM and no field
    verification is required, and short of all five it is never CRITICAL
    and never rejected automatically. *)
Theorem tier_needs_analyzers (self : providers) (now : Z) (farmer_data : Farmer.t)
  (claim_data : Claim.t) (historical_data : list Hist.t) (r : Assessment.t) :
  detect_claim_fraud self now farmer_data claim_data historical_data = Ok r ->
  exists s, analyze self farmer_data claim_data historical_data = Ok s /\
    ((fired s <= 1)%nat -> Assessment.risk r = LOW) /\
    ((fired s <= 2)%nat ->
     (Assessment.risk r = LOW \/ Assessment.risk r = MEDIUM) /\
     Assessment.requires_field_verification r = false) /\
    ((fired s <= 4)%nat ->
     Assessment.risk r <> CRITICAL /\ Assessment.auto_reject r = false).
Proof.
  intros Hr. apply detect_claim_fraud_Ok in Hr. destruct Hr as (s & Hs & ->).
  exists s. split; [exact Hs|]. simpl.
  pose proof (engine_forall
                (fun s =>
                   implb (fired s <=? 1)%nat
                     (risk_rank (_calculate_risk_level (weighted_sum s)) =? 0)%nat
                   && implb (fired s <=? 2)%nat
                        ((risk_rank (_calculate_risk_level (weighted_sum s)) <=? 1)%nat
                         && negb (weighted_sum s >? 0.6)%float)
                   && implb (fired s <=? 4)%nat
                        ((risk_rank (_calculate_risk_level (weighted_sum s)) <=? 2)%nat
                         && negb (weighted_sum s >? 0.85)%float))
                ltac:(vm_compute; reflexivity) _ _ _ _ _ Hs) as H.
  cbv beta in H. rewrite !andb_true_iff in H. destruct H as ((H1 & H2) & H4).
  split; [|split].
  - intros Hn. apply Nat.leb_le in Hn. rewrite Hn in H1. simpl in H1.
    apply Nat.eqb_eq in H1. apply risk_rank_inj. exact H1.
  - intros Hn. apply Nat.leb_le in Hn. rewrite Hn in H2. simpl in H2.
    apply andb_true_iff in H2. destruct H2 as [H2 H2']. apply Nat.leb_le in H2.
    apply negb_true_iff in H2'. split; [|exact H2'].
    destruct (_calculate_risk_level (weighted_sum s)); simpl in H2; auto; lia.
  - intros Hn. apply Nat.leb_le in Hn. rewrite Hn in H4. simpl in H4.
    apply andb_true_iff in H4. destruct H4 as [H4 H4']. apply Nat.leb_le in H4.
    apply negb_true_iff in H4'. split; [|exact H4'].
    intros E. rewrite E in H4. simpl in H4. lia.
Qed.

(** With duplicate coordinates and nothing else, two analyzers score (the
    weather check answers 0.2 without data) and the claim is LOW. *)
Lemma tier_needs_analyzers_witness :
  exists r,
    detect_claim_fraud (service None true None None None "natural" false) 0 kumar
      (maize_claim 100) [] = Ok r /\
    (Assessment.risk r = LOW \/ Assessment.risk r = MEDIUM) /\
    Assessment.requires_field_verification r = false.
Proof.
  destruct (detect_scorable (service None true None None None "natural" false) 0 kumar
              (maize_claim 100) []) as (r & Hr).
  { apply (scorable_naive _ _ _ 5%float); try reflexivity; [|eexists; reflexivity].
    repeat split. constructor. }
  exists r. split; [exact Hr|].
  destruct (tier_needs_analyzers _ _ _ _ _ _ Hr) as (s & Hs & _ & H2 & _).
  apply H2.
  assert (E : Ok s = Ok _) by (rewrite <- Hs; vm_compute; reflexivity).
  injection E as ->. vm_compute. lia.
Defined.

(** ** The indicator list *)

Lemma elem_of_append_if (x : string) (c : bool) (msg : string) (l : list string) :
  x ∈ append_if c msg l <-> x ∈ l \/ (c = true /\ x = msg).
Proof.
  unfold append_if. destruct c.
  - rewrite elem_of_app, list_elem_of_singleton. intuition.
  - intuition discriminate.
Qed.

Lemma indicators_sublist (t g w s b : Q) :
  _generate_fraud_indicators t g w s b `sublist_of` all_indicators.
Proof.
  unfold _generate_fraud_indicators, all_indicators, append_if.
  destruct (t >? 0.5), (g >? 0.5), (w >? 0.5), (s >? 0.5), (b >? 0.5); simpl;
    repeat (first [ apply sublist_nil | apply sublist_skip | apply sublist_cons ]).
Qed.

Lemma indicators_elem_of (t g w s b : Q) :
  (timing_indicator ∈ _generate_fraud_indicators t g w s b <-> 0.5 < t) /\
  (geo_indicator ∈ _generate_fraud_indicators t g w s b <-> 0.5 < g) /\
  (weather_indicator ∈ _generate_fraud_indicators t g w s b <-> 0.5 < w) /\
  (satellite_indicator ∈ _generate_fraud_indicators t g w s b <-> 0.5 < s) /\
  (behavior_indicator ∈ _generate_fraud_indicators t g w s b <-> 0.5 < b).
Proof.
  unfold _generate_fraud_indicators.
  rewrite <- !Qltb_lt.
  repeat split; rewrite !elem_of_append_if, elem_of_nil;
    unfold timing_indicator, geo_indicator, weather_indicator, satellite_indicator,
      behavior_indicator; intuition (try discriminate).
Qed.

(** X7. The indicator list of the engine holds each of the five messages
    at most once and in the order timing, geospatial, weather, satellite,
    behavioral; a message is present exactly when the score of its
    analyzer exceeds 0.5, so a score of exactly 0.5 does not emit it. *)
Theorem indicator_list (t g w s b : Q) :
  _generate_fraud_indicators t g w s b `sublist_of` all_indicators /\
  NoDup (_generate_fraud_indicators t g w s b) /\
  (timing_indicator ∈ _generate_fraud_indicators t g w s b <-> 0.5 < t) /\
  (geo_indicator ∈ _generate_fraud_indicators t g w s b <-> 0.5 < g) /\
  (weather_indicator ∈ _generate_fraud_indicators t g w s b <-> 0.5 < w) /\
  (satellite_indicator ∈ _generate_fraud_indicators t g w s b <-> 0.5 < s) /\
  (behavior_indicator ∈ _generate_fraud_indicators t g w s b <-> 0.5 < b).
Proof.
  split; [apply indicators_sublist|]. split; [|apply indicators_elem_of].
  apply (sublist_NoDup _ all_indicators); [|apply indicators_sublist].
  apply (bool_decide_unpack _). vm_compute. exact I.
Qed.

(** ** The geospatial verifier, rule by rule *)

(** The rounding of a quotient keeps its sign. *)
Lemma binary_round_aux_sign (s : bool) (m e : Z) (l : location) :
  match binary_round_aux prec emax s m e l with
  | S754_zero s' | S754_infinity s' | S754_finite s' _ _ => s' = s
  | S754_nan => True
  end.
Proof.
  unfold binary_round_aux.
  destruct (shr_fexp prec emax m e l) as [mrs' e'].
  destruct (shr_fexp prec emax _ e' loc_Exact) as [mrs'' e''].
  destruct (shr_m mrs''); [reflexivity | | exact I].
  destruct (Z.leb e'' (emax - prec)); reflexivity.
Qed.

(** The quotient of an absolute value by a negative float is not positive. *)
Lemma SFdiv_abs_negative (x y : spec_float) :
  lt3 (SFkey y) (0, 0, 0)%Z ->
  SF64div (SFabs x) y = S754_nan \/ ~ lt3 (0, 0, 0)%Z (SFkey (SF64div (SFabs x) y)).
Proof.
  intros Hy. unfold SF64div.
  destruct y as [sy|sy| |sy my ey]; try destruct sy; unfold lt3 in Hy; simpl in Hy;
    try (exfalso; lia).
  - destruct x as [sx|sx| |sx mx ex]; simpl; auto; right; unfold lt3; simpl; lia.
  - destruct x as [sx|sx| |sx mx ex]; simpl; auto; try (right; unfold lt3; simpl; lia).
    destruct (SFdiv_core_binary prec emax (Z.pos mx) ex (Z.pos my) ey) as [[mz ez] lz].
    pose proof (binary_round_aux_sign true mz ez lz) as Hs.
    destruct (binary_round_aux prec emax true mz ez lz) as [s'|s'| |s' m' e'];
      auto; subst s'; right; unfold lt3; simpl; lia.
Qed.

Lemma Fdiv_abs_negative (d r c : float) :
  (r < 0)%float -> (0 <= c)%float -> (c <? abs d / r)%float = false.
Proof.
  intros Hr Hc. destruct (c <? abs d / r)%float eqn:E; [|reflexivity]. exfalso.
  apply Flt_key in Hr. destruct Hr as (_ & _ & Hr).
  apply Fle_key in Hc. destruct Hc as (_ & _ & Hc).
  apply Flt_key in E. destruct E as (_ & Hn & E).
  rewrite div_spec, abs_spec in Hn, E.
  change (SFkey (Prim2SF 0)) with (0, 0, 0)%Z in Hr, Hc.
  destruct (SFdiv_abs_negative (Prim2SF d) (Prim2SF r) Hr) as [H|H]; [contradiction|].
  apply H. unfold lt3 in *.
  destruct (SFkey (Prim2SF c)) as [[c1 c2] c3],
    (SFkey (SF64div (SFabs (Prim2SF d)) (Prim2SF r))) as [[q1 q2] q3].
  simpl in *. destruct Hc as [Hc|Hc]; [lia|]. injection Hc as <- <- <-. lia.
Qed.

Lemma area_mismatch_true (estimated_area reported_area : option float) :
  area_mismatch estimated_area reported_area = Ok true <->
  areas_differ estimated_area reported_area.
Proof.
  unfold area_mismatch, areas_differ, Flt.
  destruct estimated_area as [e|].
  2:{ split; [discriminate | intros (e & r & H & _); discriminate]. }
  destruct (e =? 0)%float eqn:Ee.
  { split; [discriminate|].
    intros (e' & r & H & _ & Hne & _). injection H as <-. congruence. }
  destruct reported_area as [r|].
  2:{ split; [discriminate | intros (e' & r & _ & H & _); discriminate]. }
  destruct (r =? 0)%float eqn:Er.
  { split; [discriminate|].
    intros (e' & r' & _ & H & _ & Hnz & _). injection H as <-. congruence. }
  split.
  - intros H. injection H as H. exists e, r. repeat split; assumption.
  - intros (e' & r' & He & Hr & _ & _ & H).
    injection He as <-. injection Hr as <-. rewrite H. reflexivity.
Qed.

Lemma area_mismatch_cases (estimated_area reported_area : option float) (b : bool) :
  area_mismatch estimated_area reported_area = Ok b ->
  areas_differ estimated_area reported_area /\ b = true \/
  ~ areas_differ estimated_area reported_area /\ b = false.
Proof.
  intros H. destruct b.
  - left. split; [apply area_mismatch_true; exact H | reflexivity].
  - right. split; [|reflexivity].
    intros Hd. apply area_mismatch_true in Hd. congruence.
Qed.

(** No area differs from an estimate in this sense when it is negative. *)
Lemma areas_differ_negative (estimated_area : option float) (r : float) :
  (r < 0)%float -> ~ areas_differ estimated_area (Some r).
Proof.
  intros Hneg (e' & r' & _ & Hr & _ & _ & H). injection Hr as <-.
  unfold Flt in H. rewrite (Fdiv_abs_negative (e' - r) r 0.3 Hneg) in H by reflexivity.
  discriminate H.
Qed.

Lemma coordinates_rejected_cases (lat lon : option Q) :
  coordinates_rejected lat lon /\ invalid_coordinates lat lon = true \/
  ~ coordinates_rejected lat lon /\ invalid_coordinates lat lon = false.
Proof.
  pose proof (invalid_coordinates_spec lat lon) as H.
  fold (coordinates_rejected lat lon) in H.
  destruct (invalid_coordinates lat lon).
  - left. split; [apply H|]; reflexivity.
  - right. split; [|reflexivity]. intros Hc. apply H in Hc. discriminate.
Qed.

(** X8. The geospatial verifier raises exactly when a non-zero area
    estimate is available and the reported area cannot be divided by:
    [TypeError] when [area_hectares] is missing, [ZeroDivisionError] when
    it is zero.  In every other case it returns a score. *)
Theorem geospatial_errors (self : providers) (claim_data : Claim.t) (e : exn) :
  _verify_geospatial_data self claim_data = Raise e <->
  truthy_float (_estimate_field_area_from_satellite self (Claim.latitude claim_data)
                  (Claim.longitude claim_data)) = true /\
  (Claim.area_hectares claim_data = None /\ e = TypeError \/
   exists r, Claim.area_hectares claim_data = Some r /\ (r =? 0)%float = true /\
             e = ZeroDivisionError).
Proof.
  unfold _verify_geospatial_data, area_mismatch, truthy_float.
  destruct (_estimate_field_area_from_satellite self _ _) as [est|]; simpl.
  2:{ split; [discriminate | intros [H _]; discriminate]. }
  destruct (est =? 0)%float; simpl.
  { split; [discriminate | intros [H _]; discriminate]. }
  destruct (Claim.area_hectares claim_data) as [r|]; simpl.
  2:{ split.
      - intros H. injection H as <-. split; [reflexivity|]. left. tauto.
      - intros [_ [[_ ->]|(r & H & _)]]; [reflexivity | discriminate]. }
  destruct (r =? 0)%float eqn:Er; simpl.
  - split.
    + intros H. injection H as <-. split; [reflexivity|]. right. exists r. tauto.
    + intros [_ [[H _]|(r' & H & _ & ->)]]; [discriminate | reflexivity].
  - split; [discriminate|].
    intros [_ [[H _]|(r' & H & Hz & _)]]; [discriminate|].
    injection H as <-. congruence.
Qed.

Lemma geospatial_errors_witness :
  _verify_geospatial_data surveyed
    (claim_of "cotton" 100 (Some 28.6139) (Some 77.2090) None "pest") = Raise TypeError.
Proof.
  apply (geospatial_errors surveyed).
  split; [reflexivity|]. left. split; reflexivity.
Defined.

Lemma geospatial_eq (self : providers) (claim_data : Claim.t) (g : Q) :
  _verify_geospatial_data self claim_data = Ok g ->
  exists b,
    area_mismatch
      (_estimate_field_area_from_satellite self (Claim.latitude claim_data)
         (Claim.longitude claim_data))
      (Claim.area_hectares claim_data) = Ok b /\
    g = Qmin (add_if (_check_duplicate_coordinates self (Claim.latitude claim_data)
                        (Claim.longitude claim_data)) 0.6
                (add_if b 0.4
                   (add_if (invalid_coordinates (Claim.latitude claim_data)
                              (Claim.longitude claim_data)) 0.5 0))) 1.
Proof.
  unfold _verify_geospatial_data. intros H. bind_inv H. inversion H. eauto.
Qed.

(** X9. When the geospatial verifier returns, its score is the sum, capped
    at 1, of 0.5 exactly when a coordinate is missing, zero or out of
    range, of 0.4 exactly when the estimate and the reported area are not
    zero and the float quotient |estimate - area| / area exceeds 0.3, and
    of 0.6 exactly when the coordinates are reported as duplicates.  A
    negative reported area never gets the 0.4.  An estimate of 1.3 for a
    reported area of 1, a difference of 30% on paper, does get it: the
    float quotient is 0.30000000000000004. *)
Theorem geospatial_penalties (self : providers) (claim_data : Claim.t) (g : Q) :
  _verify_geospatial_data self claim_data = Ok g ->
  (exists c m d,
    g == Qmin (c + m + d) 1 /\
    (coordinates_rejected (Claim.latitude claim_data) (Claim.longitude claim_data)
     /\ c = 0.5 \/
     ~ coordinates_rejected (Claim.latitude claim_data) (Claim.longitude claim_data)
     /\ c = 0) /\
    (areas_differ
       (_estimate_field_area_from_satellite self (Claim.latitude claim_data)
          (Claim.longitude claim_data)) (Claim.area_hectares claim_data)
     /\ m = 0.4 \/
     ~ areas_differ
         (_estimate_field_area_from_satellite self (Claim.latitude claim_data)
            (Claim.longitude claim_data)) (Claim.area_hectares claim_data)
     /\ m = 0) /\
    (_check_duplicate_coordinates self (Claim.latitude claim_data)
       (Claim.longitude claim_data) = true /\ d = 0.6 \/
     _check_duplicate_coordinates self (Claim.latitude claim_data)
       (Claim.longitude claim_data) = false /\ d = 0) /\
    (forall r, Claim.area_hectares claim_data = Some r -> (r < 0)%float -> m = 0)) /\
  (abs (1.3 - 1) / 1 = 0.30000000000000004)%float /\
  areas_differ (Some 1.3%float) (Some 1%float).
Proof.
  intros H. split.
  2:{ split; [reflexivity|]. exists 1.3%float, 1%float. repeat split. }
  apply geospatial_eq in H. destruct H as (b & Hb & ->).
  exists (if invalid_coordinates (Claim.latitude claim_data) (Claim.longitude claim_data)
          then 0.5 else 0).
  exists (if b then 0.4 else 0).
  exists (if _check_duplicate_coordinates self (Claim.latitude claim_data)
               (Claim.longitude claim_data) then 0.6 else 0).
  split; [apply three_penalties|].
  split; [|split; [|split]].
  - destruct (coordinates_rejected_cases (Claim.latitude claim_data)
                (Claim.longitude claim_data)) as [[Hc ->]|[Hc ->]]; tauto.
  - destruct (area_mismatch_cases _ _ _ Hb) as [[Hd ->]|[Hd ->]]; tauto.
  - destruct (_check_duplicate_coordinates self _ _); tauto.
  - intros r Hr Hneg.
    destruct (area_mismatch_cases _ _ _ Hb) as [[Hd ->]|[Hd ->]]; [|reflexivity].
    exfalso. rewrite Hr in Hd. apply (areas_differ_negative _ r Hneg Hd).
Qed.

(** The backdated claim reports -5 hectares against an estimate of 1.5:
    no penalty. *)
Lemma geospatial_penalties_witness :
  exists g, _verify_geospatial_data surveyed backdated_claim = Ok g /\ g == 0.
Proof.
  assert (H : _verify_geospatial_data surveyed backdated_claim = Ok (Qmin 0 1))
    by (vm_compute; reflexivity).
  eexists. split; [exact H|].
  destruct (geospatial_penalties surveyed backdated_claim _ H)
    as ((c & m & d & Heq & Hc & _ & Hd & Hm) & _).
  destruct Hc as [[Hc _]|[_ ->]].
  { exfalso. destruct Hc as [Hc|[Hc|(la & lo & Hla & Hlo & Hc)]]; try discriminate.
    injection Hla as <-. injection Hlo as <-.
    vm_compute in Hc. intuition discriminate. }
  destruct Hd as [[Hd _]|[_ ->]]; [discriminate Hd|].
  rewrite (Hm (-5)%float eq_refl) in Heq by reflexivity. rewrite Heq. qdecide.
Defined.

(** X10. The engine emits "Geospatial data inconsistency" exactly when the
    coordinates are reported as duplicates, or when the coordinate check
    and the area check both fire; rejected coordinates alone (0.5) or an
    area mismatch alone (0.4) do not emit it. *)
Theorem geo_indicator_iff (self : providers) (now : Z) (farmer_data : Farmer.t)
  (claim_data : Claim.t) (historical_data : list Hist.t) (r : Assessment.t) :
  detect_claim_fraud self now farmer_data claim_data historical_data = Ok r ->
  (geo_indicator ∈ Assessment.fraud_indicators r <->
   _check_duplicate_coordinates self (Claim.latitude claim_data)
     (Claim.longitude claim_data) = true \/
   coordinates_rejected (Claim.latitude claim_data) (Claim.longitude claim_data) /\
   areas_differ
     (_estimate_field_area_from_satellite self (Claim.latitude claim_data)
        (Claim.longitude claim_data)) (Claim.area_hectares claim_data)).
Proof.
  intros Hr. apply detect_claim_fraud_Ok in Hr. destruct Hr as (s & Hs & ->).
  apply analyze_Ok in Hs. destruct Hs as (t & g & _ & Hg & ->). simpl.
  destruct (indicators_elem_of t g (_verify_weather_consistency self claim_data)
              (_analyze_satellite_images self claim_data)
              (_analyze_farmer_behavior farmer_data historical_data))
    as (_ & -> & _).
  apply geospatial_eq in Hg. destruct Hg as (b & Hb & ->).
  destruct (coordinates_rejected_cases (Claim.latitude claim_data)
              (Claim.longitude claim_data)) as [[Hc ->]|[Hc ->]];
    destruct (area_mismatch_cases _ _ _ Hb) as [[Hd ->]|[Hd ->]];
    destruct (_check_duplicate_coordinates self _ _);
    (split; [intros H; try tauto; vm_compute in H; discriminate H
            | intros [H|[H1 H2]]; try discriminate H; try contradiction; qdecide]).
Qed.

Lemma geo_indicator_iff_witness :
  exists r,
    detect_claim_fraud (service None true None None None "natural" false) 0 kumar
      (maize_claim 100) [] = Ok r /\
    geo_indicator ∈ Assessment.fraud_indicators r.
Proof.
  destruct (detect_scorable (service None true None None None "natural" false) 0 kumar
              (maize_claim 100) []) as (r & Hr).
  { apply (scorable_naive _ _ _ 5%float); try reflexivity; [|eexists; reflexivity].
    repeat split. constructor. }
  exists r. split; [exact Hr|].
  apply (geo_indicator_iff _ _ _ _ _ _ Hr). left. reflexivity.
Defined.

(** A field on the equator with an estimate of 1.3 against a reported
    area of 1: both checks fire and the indicator is emitted. *)
Example equator_area_indicator :
  exists r,
    detect_claim_fraud (service (Some 1.3%float) false None None None "natural" false) 0
      kumar (claim_of "cotton" 100 (Some 0) (Some 77.2090) (Some 1%float) "pest") []
    = Ok r /\
    geo_indicator ∈ Assessment.fraud_indicators r.
Proof.
  eexists. split; [vm_compute; reflexivity|]. simpl. set_solver.
Qed.

(** ** The temporal analyzer, further *)

(** X11. For a claim with readable dates and crop and a dated history, the
    engine emits "Suspicious timing pattern detected" exactly when at least
    three entries are dated later than 90 days before the claim date and
    the crop is wheat or rice claimed more than 120 days after sowing; no
    other crop can ever get this indicator. *)
Theorem timing_indicator_iff (self : providers) (now : Z) (farmer_data : Farmer.t)
  (claim_data : Claim.t) (historical_data : list Hist.t) (dates : list datetime)
  (cd sd : datetime) (crop : string) (r : Assessment.t) :
  Claim.claim_date claim_data = Some (Iso cd) ->
  Claim.sowing_date claim_data = Some (Iso sd) ->
  Claim.crop_type claim_data = Some crop ->
  map Hist.date historical_data = map (fun t => Some (Iso t)) dates ->
  detect_claim_fraud self now farmer_data claim_data historical_data = Ok r ->
  (timing_indicator ∈ Assessment.fraud_indicators r <->
   (3 <= length (recent_dates cd dates))%nat /\ near_harvest crop (days (cd - sd))).
Proof.
  intros Hcd Hsd Hcrop Hd Hr.
  apply detect_claim_fraud_Ok in Hr. destruct Hr as (s & Hs & ->).
  apply analyze_Ok in Hs. destruct Hs as (t & g & Ht & _ & ->). simpl.
  destruct (indicators_elem_of t g (_verify_weather_consistency self claim_data)
              (_analyze_satellite_images self claim_data)
              (_analyze_farmer_behavior farmer_data historical_data))
    as (-> & _).
  destruct (recent_claims_length cd historical_data dates Hd) as (recent & Hrec & Hlen).
  rewrite (temporal_eq _ _ _ _ _ _ _ Hcd Hsd Hcrop Hrec) in Ht.
  injection Ht as <-. rewrite <- Hlen.
  pose proof (just_before_harvest_spec crop (days (cd - sd))) as Hnear.
  destruct (2 <? length recent)%nat eqn:E;
    [apply Nat.ltb_lt in E | apply Nat.ltb_ge in E];
    destruct (just_before_harvest crop (days (cd - sd)));
    destruct (outside_expected_range crop (days (cd - sd)));
    (split;
     [ intros H; first [ split; [lia | apply Hnear; reflexivity]
                       | vm_compute in H; discriminate H ]
     | intros [H1 H2]; first [ qdecide | lia | apply Hnear in H2; discriminate H2 ] ]).
Qed.

(** The test scenario of the suite: wheat claimed 140 days after sowing
    with claims 30, 60 and 85 days before. *)
Lemma timing_indicator_iff_witness :
  exists r,
    detect_claim_fraud quiet 0 kumar (wheat_claim 140)
      [drought_claim_on 110; drought_claim_on 80; drought_claim_on 55] = Ok r /\
    timing_indicator ∈ Assessment.fraud_indicators r.
Proof.
  destruct (detect_scorable quiet 0 kumar (wheat_claim 140)
              [drought_claim_on 110; drought_claim_on 80; drought_claim_on 55])
    as (r & Hr).
  { apply (scorable_naive _ _ _ 5%float); try reflexivity; [|eexists; reflexivity].
    repeat split. repeat constructor. }
  exists r. split; [exact Hr|].
  apply (timing_indicator_iff quiet 0 kumar (wheat_claim 140)
           [drought_claim_on 110; drought_claim_on 80; drought_claim_on 55]
           [110 * day_us; 80 * day_us; 55 * day_us]%Z
           (140 * day_us)%Z (0 * day_us)%Z "wheat" r
           eq_refl eq_refl eq_refl eq_refl Hr).
  split.
  - vm_compute. lia.
  - split; [left; reflexivity | vm_compute; reflexivity].
Defined.

Lemma days_negative (delta : Z) : (delta < 0)%Z -> (days delta < 0)%Z.
Proof.
  intros H. unfold days. apply Z.div_lt_upper_bound; [reflexivity | lia].
Qed.

(** X12. A claim dated before its sowing date is not refused: the days
    since sowing are negative, which counts as too early for wheat, rice,
    cotton and sugarcane (0.2) and as nothing for any other crop, and never
    as close to harvest; the score is that penalty plus the recent-claims
    penalty. *)
Theorem claim_before_sowing (farmer_data : Farmer.t) (claim_data : Claim.t)
  (historical_data recent : list Hist.t) (cd sd : datetime) (crop : string) :
  Claim.claim_date claim_data = Some (Iso cd) ->
  Claim.sowing_date claim_data = Some (Iso sd) ->
  Claim.crop_type claim_data = Some crop ->
  recent_claims (Naive cd) historical_data = Ok recent ->
  (cd < sd)%Z ->
  exists s,
    _analyze_temporal_patterns farmer_data claim_data historical_data = Ok s /\
    ((crop = "wheat" \/ crop = "rice" \/ crop = "cotton" \/ crop = "sugarcane") /\
     s == (if (2 <? length recent)%nat then 0.3 else 0) + 0.2 \/
     ~ (crop = "wheat" \/ crop = "rice" \/ crop = "cotton" \/ crop = "sugarcane") /\
     s == (if (2 <? length recent)%nat then 0.3 else 0)).
Proof.
  intros Hcd Hsd Hcrop Hrec Hlt.
  assert (Hneg : (days (cd - sd) < 0)%Z) by (apply days_negative; lia).
  eexists. split; [apply (temporal_eq _ _ _ _ _ _ _ Hcd Hsd Hcrop Hrec)|].
  pose proof (outside_expected_range_spec crop (days (cd - sd))) as Hout.
  pose proof (just_before_harvest_spec crop (days (cd - sd))) as Hnear.
  destruct (just_before_harvest crop (days (cd - sd))).
  { destruct (proj1 Hnear eq_refl) as [_ H]. exfalso. lia. }
  destruct (outside_expected_range crop (days (cd - sd))).
  - left. split.
    + destruct (proj1 Hout eq_refl) as [[E _]|[[E _]|[[E _]|[E _]]]]; tauto.
    + destruct (2 <? length recent)%nat; qdecide.
  - right. split.
    + intros Hc. assert (Ho : outside_window crop (days (cd - sd))).
      { unfold outside_window.
        destruct Hc as [E|[E|[E|E]]]; [left | right; left | right; right; left
                                      | right; right; right]; (split; [exact E | lia]). }
      apply Hout in Ho. discriminate Ho.
    + destruct (2 <? length recent)%nat; qdecide.
Qed.

Lemma claim_before_sowing_witness :
  exists s, _analyze_temporal_patterns anonymous backdated_claim [] = Ok s /\ s == 0.2.
Proof.
  destruct (claim_before_sowing anonymous backdated_claim [] []
              (-10 * day_us)%Z (0 * day_us)%Z "cotton"
              eq_refl eq_refl eq_refl eq_refl eq_refl)
    as (s & Hs & [[_ H]|[Hn _]]).
  - exists s. split; [exact Hs|]. rewrite H. qdecide.
  - exfalso. apply Hn. right. right. left. reflexivity.
Defined.

(** ** The weather and satellite indicators *)

(** X13. The engine emits "Weather data mismatch with claimed damage"
    exactly when the provider answered with data and the readings
    contradict the damage type; without data the fallback score of 0.2
    never emits it. *)
Theorem weather_indicator_iff (self : providers) (now : Z) (farmer_data : Farmer.t)
  (claim_data : Claim.t) (historical_data : list Hist.t) (r : Assessment.t) :
  detect_claim_fraud self now farmer_data claim_data historical_data = Ok r ->
  (weather_indicator ∈ Assessment.fraud_indicators r <->
   exists w,
     _get_weather_data self (Claim.latitude claim_data) (Claim.longitude claim_data)
       (Claim.claim_date claim_data) = Some w /\
     Weather.is_empty w = false /\
     contradicts (Claim.damage_type claim_data) w).
Proof.
  intros Hr. apply detect_claim_fraud_Ok in Hr. destruct Hr as (s & Hs & ->).
  apply analyze_Ok in Hs. destruct Hs as (t & g & _ & _ & ->). simpl.
  destruct (indicators_elem_of t g (_verify_weather_consistency self claim_data)
              (_analyze_satellite_images self claim_data)
              (_analyze_farmer_behavior farmer_data historical_data))
    as (_ & _ & -> & _).
  unfold _verify_weather_consistency.
  destruct (_get_weather_data self _ _ _) as [w|].
  2:{ split; [intros H; vm_compute in H; discriminate H|].
      intros (w & H & _). discriminate H. }
  destruct (Weather.is_empty w) eqn:Eempty.
  { split; [intros H; vm_compute in H; discriminate H|].
    intros (w' & H & He & _). injection H as <-. congruence. }
  pose proof (inconsistent_spec (Claim.damage_type claim_data) w) as Hspec.
  destruct (inconsistent (Claim.damage_type claim_data) w).
  - split; [|intros _; qdecide].
    intros _. exists w. repeat split; [exact Eempty | apply Hspec; reflexivity].
  - split; [intros H; vm_compute in H; discriminate H|].
    intros (w' & H & _ & Hc). injection H as <-. apply Hspec in Hc. discriminate Hc.
Qed.

Lemma weather_indicator_iff_witness :
  exists r, detect_claim_fraud rainy 0 kumar drought_claim [] = Ok r /\
            weather_indicator ∈ Assessment.fraud_indicators r.
Proof.
  destruct (detect_scorable rainy 0 kumar drought_claim []) as (r & Hr).
  { apply (scorable_naive _ _ _ 3%float); try reflexivity; [|eexists; reflexivity].
    repeat split. constructor. }
  exists r. split; [exact Hr|].
  apply (weather_indicator_iff _ _ _ _ _ _ Hr).
  exists rainy_week. repeat split. left. split; [reflexivity | qdecide].
Defined.

Lemma artificial_ndvi_drop_spec (ndvi_current ndvi_historical : option float)
  (damage_pattern : string) :
  artificial_ndvi_drop ndvi_current ndvi_historical damage_pattern = true <->
  ndvi_dropped ndvi_current ndvi_historical damage_pattern.
Proof.
  unfold artificial_ndvi_drop, ndvi_dropped, truthy_float, Flt.
  destruct ndvi_current as [cur|].
  2:{ split; [discriminate | intros (c & o & H & _); discriminate]. }
  destruct ndvi_historical as [old|].
  2:{ rewrite andb_false_r. split; [discriminate | intros (c & o & _ & H & _); discriminate]. }
  rewrite !andb_true_iff, !negb_true_iff, String.eqb_eq.
  split.
  - intros [[Hc Ho] [Hd Hp]]. exists cur, old. repeat split; assumption.
  - intros (c & o & Hc & Ho & Hcz & Hoz & Hd & Hp).
    injection Hc as <-. injection Ho as <-. repeat split; assumption.
Qed.

(** X14. The satellite score is the sum, capped at 1, of 0.6 exactly when
    both NDVI readings are present and not zero, the float difference of
    the older and the current reading exceeds 0.3 and the damage pattern
    is "artificial", and of 0.8 exactly when signs of artificial damage
    are detected; either rule alone exceeds 0.5, so the score exceeds 0.5
    exactly when one of them fires.  A fall from 0.8 to 0.5, 0.3 on paper,
    counts as a drop: the float difference is 0.30000000000000004. *)
Theorem satellite_rules (self : providers) (claim_data : Claim.t) :
  (exists a b,
    _analyze_satellite_images self claim_data == Qmin (a + b) 1 /\
    (ndvi_dropped
       (_get_ndvi_data self (Claim.latitude claim_data) (Claim.longitude claim_data)
          (Claim.claim_date claim_data) 0)
       (_get_ndvi_data self (Claim.latitude claim_data) (Claim.longitude claim_data)
          (Claim.claim_date claim_data) 30)
       (_analyze_damage_pattern self (Claim.latitude claim_data)
          (Claim.longitude claim_data) (Claim.claim_date claim_data))
     /\ a = 0.6 \/
     ~ ndvi_dropped
         (_get_ndvi_data self (Claim.latitude claim_data) (Claim.longitude claim_data)
            (Claim.claim_date claim_data) 0)
         (_get_ndvi_data self (Claim.latitude claim_data) (Claim.longitude claim_data)
            (Claim.claim_date claim_data) 30)
         (_analyze_damage_pattern self (Claim.latitude claim_data)
            (Claim.longitude claim_data) (Claim.claim_date claim_data))
     /\ a = 0) /\
    (_detect_artificial_damage_signs self (Claim.latitude claim_data)
       (Claim.longitude claim_data) (Claim.claim_date claim_data) = true /\ b = 0.8 \/
     _detect_artificial_damage_signs self (Claim.latitude claim_data)
       (Claim.longitude claim_data) (Claim.claim_date claim_data) = false /\ b = 0) /\
    (0.5 < _analyze_satellite_images self claim_data <-> a = 0.6 \/ b = 0.8)) /\
  (0.8 - 0.5 = 0.30000000000000004)%float /\
  ndvi_dropped (Some 0.5%float) (Some 0.8%float) "artificial".
Proof.
  split.
  2:{ split; [reflexivity|]. exists 0.5%float, 0.8%float. repeat split. }
  unfold _analyze_satellite_images.
  pose proof (artificial_ndvi_drop_spec
                (_get_ndvi_data self (Claim.latitude claim_data)
                   (Claim.longitude claim_data) (Claim.claim_date claim_data) 0)
                (_get_ndvi_data self (Claim.latitude claim_data)
                   (Claim.longitude claim_data) (Claim.claim_date claim_data) 30)
                (_analyze_damage_pattern self (Claim.latitude claim_data)
                   (Claim.longitude claim_data) (Claim.claim_date claim_data))) as Hspec.
  destruct (artificial_ndvi_drop _ _ _);
    destruct (_detect_artificial_damage_signs self _ _ _).
  - exists 0.6, 0.8. split; [qdecide|]. split; [left; split; [apply Hspec|]; reflexivity|].
    split; [left; tauto|]. split; [auto | intros _; qdecide].
  - exists 0.6, 0. split; [qdecide|]. split; [left; split; [apply Hspec|]; reflexivity|].
    split; [right; tauto|]. split; [auto | intros _; qdecide].
  - exists 0, 0.8. split; [qdecide|].
    split; [right; split; [intros H; apply Hspec in H; discriminate H | reflexivity]|].
    split; [left; tauto|]. split; [auto | intros _; qdecide].
  - exists 0, 0. split; [qdecide|].
    split; [right; split; [intros H; apply Hspec in H; discriminate H | reflexivity]|].
    split; [right; tauto|].
    split; [intros H; vm_compute in H; discriminate H | intros [H|H]; discriminate H].
Qed.

(** ** The behavioral analyzer, rule by rule *)

Lemma large_share_exceeds (m k : nat) :
  (inject_Z (Z.of_nat m) >? inject_Z (Z.of_nat k) * 0.5) = true <-> (k < 2 * m)%nat.
Proof.
  rewrite Qltb_lt. unfold Qlt, Qmult, inject_Z. simpl. lia.
Qed.

Lemma one_damage_type_spec (types : list (option string)) :
  one_damage_type types = true <->
  types <> [] /\ exists d, Forall (fun x => x = d) types.
Proof.
  unfold one_damage_type. rewrite Nat.eqb_eq. split.
  - intros Hsize. split.
    + intros ->. vm_compute in Hsize. discriminate Hsize.
    + destruct (size_1_elem_of _ Hsize) as (d & Hd). exists d.
      apply Forall_forall. intros x Hx.
      assert (Hin : x ∈ (list_to_set types : gset (option string)))
        by (apply elem_of_list_to_set; exact Hx).
      rewrite Hd in Hin. apply elem_of_singleton in Hin. exact Hin.
  - intros (Hne & d & Hall).
    assert (Heq : (list_to_set types : gset (option string)) = {[d]}).
    { apply set_eq. intros x. rewrite elem_of_list_to_set, elem_of_singleton. split.
      - intros Hx. rewrite Forall_forall in Hall. apply Hall. exact Hx.
      - intros ->. destruct types as [|y rest]; [contradiction|].
        apply Forall_cons in Hall. destruct Hall as [-> _]. apply elem_of_cons. auto. }
    rewrite Heq. apply size_singleton.
Qed.

Lemma behavior_eq (farmer_data : Farmer.t) (historical_data : list Hist.t) :
  exists a : bool,
    (a = true <-> (7 * total_policies historical_data
                   < 10 * total_claims historical_data)%nat) /\
    _analyze_farmer_behavior farmer_data historical_data =
    Qmin (add_if (inject_Z (Z.of_nat (large_claims historical_data))
                  >? inject_Z (Z.of_nat (total_claims historical_data)) * 0.5) 0.4
            (add_if (one_damage_type (damage_types historical_data)
                     && (2 <? length (damage_types historical_data))%nat) 0.3
               (add_if a 0.5 0))) 1.
Proof.
  unfold _analyze_farmer_behavior, total_policies, total_claims, large_claims, damage_types.
  destruct (0 <? length historical_data)%nat eqn:En.
  - apply Nat.ltb_lt in En. eexists. split; [|reflexivity].
    apply claim_ratio_exceeds. exact En.
  - apply Nat.ltb_ge in En. exists false. split; [|reflexivity].
    split; [discriminate|]. intros H. exfalso.
    assert (Hk : (length (List.filter Hist.is_claimed historical_data)
                  <= length historical_data)%nat) by apply List.filter_length_le.
    lia.
Qed.

Lemma always_same_damage_cases (historical_data : list Hist.t) :
  always_same_damage historical_data /\
  one_damage_type (damage_types historical_data)
  && (2 <? length (damage_types historical_data))%nat = true \/
  ~ always_same_damage historical_data /\
  one_damage_type (damage_types historical_data)
  && (2 <? length (damage_types historical_data))%nat = false.
Proof.
  unfold always_same_damage.
  assert (Hlen : length (damage_types historical_data) = total_claims historical_data).
  { unfold damage_types, total_claims. apply length_map. }
  pose proof (one_damage_type_spec (damage_types historical_data)) as Hspec.
  destruct (one_damage_type (damage_types historical_data)) eqn:E1;
    destruct (2 <? length (damage_types historical_data))%nat eqn:E2; simpl.
  - apply Nat.ltb_lt in E2. left. split; [|reflexivity].
    split; [lia | apply Hspec; reflexivity].
  - apply Nat.ltb_ge in E2. right. split; [|reflexivity]. intros [H _]. lia.
  - apply Nat.ltb_lt in E2. right. split; [|reflexivity].
    intros [_ Hd]. assert (Ht : false = true); [|discriminate Ht].
    apply Hspec. split; [|exact Hd].
    intros Hnil. rewrite Hnil in E2. simpl in E2. lia.
  - apply Nat.ltb_ge in E2. right. split; [|reflexivity]. intros [H _]. lia.
Qed.

(** X15. The behavioral score is the sum, capped at 1, of 0.5 exactly when
    more than 70% of the entries are claimed, of 0.3 exactly when at least
    three entries are claimed and all claimed entries carry the same damage
    type, and of 0.4 exactly when the large entries, claimed or not, number
    more than half of the claimed entries.  An entry is large when its
    claim amount exceeds the float product of its policy amount and 0.8
    (a missing amount counting as 0): a claim of 3960.32 on a policy of
    4950.4, 80% on paper, is large, the product being 3960.3199999999997. *)
Theorem behavior_rules (farmer_data : Farmer.t) (historical_data : list Hist.t) :
  (exists a b c,
    _analyze_farmer_behavior farmer_data historical_data == Qmin (a + b + c) 1 /\
    ((7 * total_policies historical_data < 10 * total_claims historical_data)%nat
     /\ a = 0.5 \/
     (10 * total_claims historical_data <= 7 * total_policies historical_data)%nat
     /\ a = 0) /\
    (always_same_damage historical_data /\ b = 0.3 \/
     ~ always_same_damage historical_data /\ b = 0) /\
    ((total_claims historical_data < 2 * large_claims historical_data)%nat /\ c = 0.4 \/
     (2 * large_claims historical_data <= total_claims historical_data)%nat /\ c = 0)) /\
  (forall d,
      is_large_claim d = true <->
      (default 0 (Hist.policy_amount d) * 0.8 < default 0 (Hist.claim_amount d))%float) /\
  (4950.4 * 0.8 = 3960.3199999999997)%float /\
  is_large_claim (eighty_percent_claim_on 10) = true.
Proof.
  split; [|split; [intros d; reflexivity | split; reflexivity]].
  destruct (behavior_eq farmer_data historical_data) as (a & Ha & ->).
  pose proof (large_share_exceeds (large_claims historical_data)
                (total_claims historical_data)) as Hc.
  exists (if a then 0.5 else 0).
  exists (if one_damage_type (damage_types historical_data)
             && (2 <? length (damage_types historical_data))%nat then 0.3 else 0).
  exists (if inject_Z (Z.of_nat (large_claims historical_data))
             >? inject_Z (Z.of_nat (total_claims historical_data)) * 0.5
          then 0.4 else 0).
  split; [apply three_penalties|].
  split; [|split].
  - destruct a.
    + left. split; [apply Ha|]; reflexivity.
    + right. split; [|reflexivity].
      destruct (Nat.le_gt_cases (10 * total_claims historical_data)
                  (7 * total_policies historical_data)) as [H|H]; [exact H|].
      apply Ha in H. discriminate H.
  - destruct (always_same_damage_cases historical_data) as [[H ->]|[H ->]]; tauto.
  - destruct (inject_Z (Z.of_nat (large_claims historical_data))
              >? inject_Z (Z.of_nat (total_claims historical_data)) * 0.5).
    + left. split; [apply Hc|]; reflexivity.
    + right. split; [|reflexivity].
      destruct (Nat.le_gt_cases (2 * large_claims historical_data)
                  (total_claims historical_data)) as [H|H]; [exact H|].
      apply Hc in H. discriminate H.
Qed.

(** X16. The engine emits "Unusual behavioral pattern in claim history"
    exactly when at least two of the three behavioral rules fire: no
    single rule (0.5, 0.3 or 0.4) exceeds the threshold on its own. *)
Theorem behavior_indicator_iff (self : providers) (now : Z) (farmer_data : Farmer.t)
  (claim_data : Claim.t) (historical_data : list Hist.t) (r : Assessment.t) :
  detect_claim_fraud self now farmer_data claim_data historical_data = Ok r ->
  (behavior_indicator ∈ Assessment.fraud_indicators r <->
   (7 * total_policies historical_data < 10 * total_claims historical_data)%nat /\
   always_same_damage historical_data \/
   (7 * total_policies historical_data < 10 * total_claims historical_data)%nat /\
   (total_claims historical_data < 2 * large_claims historical_data)%nat \/
   always_same_damage historical_data /\
   (total_claims historical_data < 2 * large_claims historical_data)%nat).
Proof.
  intros Hr. apply detect_claim_fraud_Ok in Hr. destruct Hr as (s & Hs & ->).
  apply analyze_Ok in Hs. destruct Hs as (t & g & _ & _ & ->). simpl.
  destruct (indicators_elem_of t g (_verify_weather_consistency self claim_data)
              (_analyze_satellite_images self claim_data)
              (_analyze_farmer_behavior farmer_data historical_data))
    as (_ & _ & _ & _ & ->).
  destruct (behavior_eq farmer_data historical_data) as (a & Ha & ->).
  pose proof (large_share_exceeds (large_claims historical_data)
                (total_claims historical_data)) as Hc.
  destruct (always_same_damage_cases historical_data) as [[Hb ->]|[Hb ->]];
    destruct a;
    destruct (inject_Z (Z.of_nat (large_claims historical_data))
              >? inject_Z (Z.of_nat (total_claims historical_data)) * 0.5);
    (split;
     [ intros H;
       first [ vm_compute in H; discriminate H
             | left; split; [apply Ha; reflexivity | exact Hb]
             | right; left; split; [apply Ha | apply Hc]; reflexivity
             | right; right; split; [exact Hb | apply Hc; reflexivity] ]
     | intros [[H1 H2]|[[H1 H2]|[H1 H2]]];
       first [ qdecide
             | contradiction
             | apply Ha in H1; discriminate H1
             | apply Hc in H2; discriminate H2 ] ]).
Qed.

(** The behavioral scenario of the test suite, reduced to three claims for
    the same damage out of three policies. *)
Lemma behavior_indicator_iff_witness :
  exists r, detect_claim_fraud quiet 0 kumar (maize_claim 300)
              [drought_claim_on 10; drought_claim_on 20; drought_claim_on 30] = Ok r /\
            behavior_indicator ∈ Assessment.fraud_indicators r.
Proof.
  destruct (detect_scorable quiet 0 kumar (maize_claim 300)
              [drought_claim_on 10; drought_claim_on 20; drought_claim_on 30])
    as (r & Hr).
  { apply (scorable_naive _ _ _ 5%float); try reflexivity; [|eexists; reflexivity].
    repeat split. repeat constructor. }
  exists r. split; [exact Hr|].
  apply (behavior_indicator_iff _ _ _ _ _ _ Hr).
  right. left. split; vm_compute; lia.
Defined.

(** X17. The large-claims rule counts entries that were never claimed: for
    a history without any claimed entry the behavioral score is 0.4 as
    soon as one entry has a claim amount above 80% of its policy amount,
    and 0 otherwise. *)
Theorem unclaimed_history_score (farmer_data : Farmer.t) (historical_data : list Hist.t) :
  total_claims historical_data = 0%nat ->
  (0 < large_claims historical_data)%nat /\
  _analyze_farmer_behavior farmer_data historical_data == 0.4 \/
  large_claims historical_data = 0%nat /\
  _analyze_farmer_behavior farmer_data historical_data == 0.
Proof.
  intros Hk.
  destruct (behavior_eq farmer_data historical_data) as (a & Ha & ->).
  pose proof (large_share_exceeds (large_claims historical_data)
                (total_claims historical_data)) as Hc.
  assert (Hlen : length (damage_types historical_data) = 0%nat).
  { unfold damage_types. rewrite length_map. exact Hk. }
  rewrite Hlen. simpl (2 <? 0)%nat. rewrite andb_false_r.
  assert (Ea : a = false).
  { destruct a; [|reflexivity]. assert (H : (7 * total_policies historical_data
                                             < 10 * total_claims historical_data)%nat)
      by (apply Ha; reflexivity). lia. }
  rewrite Ea.
  destruct (inject_Z (Z.of_nat (large_claims historical_data))
            >? inject_Z (Z.of_nat (total_claims historical_data)) * 0.5).
  - left. split; [|qdecide].
    assert (H : (total_claims historical_data < 2 * large_claims historical_data)%nat)
      by (apply Hc; reflexivity). lia.
  - right. split; [|qdecide].
    destruct (large_claims historical_data) as [|m]; [reflexivity|].
    assert (H : false = true) by (apply Hc; lia). discriminate H.
Qed.

Lemma unclaimed_history_score_witness :
  _analyze_farmer_behavior kumar [unclaimed_full_amount] == 0.4.
Proof.
  destruct (unclaimed_history_score kumar [unclaimed_full_amount] eq_refl)
    as [[_ H]|[H _]]; [exact H | discriminate H].
Defined.

(** ** The order of the history *)

Lemma filter_Permutation {A : Type} (f : A -> bool) (l l' : list A) :
  Permutation l l' -> Permutation (List.filter f l) (List.filter f l').
Proof.
  induction 1 as [|x l l' _ IH|x y l|l l' l'' _ IH1 _ IH2]; simpl.
  - constructor.
  - destruct (f x); [constructor|]; exact IH.
  - destruct (f x), (f y); try reflexivity. constructor.
  - etransitivity; eassumption.
Qed.

Lemma filter_length_Permutation {A : Type} (f : A -> bool) (l l' : list A) :
  Permutation l l' -> length (List.filter f l) = length (List.filter f l').
Proof. intros H. apply Permutation_length. apply filter_Permutation. exact H. Qed.

Lemma behavior_Permutation (farmer_data : Farmer.t) (h h' : list Hist.t) :
  Permutation h h' ->
  _analyze_farmer_behavior farmer_data h = _analyze_farmer_behavior farmer_data h'.
Proof.
  intros H. unfold _analyze_farmer_behavior.
  assert (E1 : length h = length h') by (apply Permutation_length; exact H).
  assert (E2 : length (List.filter Hist.is_claimed h)
               = length (List.filter Hist.is_claimed h'))
    by (apply filter_length_Permutation; exact H).
  assert (E3 : length (List.filter is_large_claim h)
               = length (List.filter is_large_claim h'))
    by (apply filter_length_Permutation; exact H).
  assert (E4 : one_damage_type (map Hist.damage_type (List.filter Hist.is_claimed h))
               = one_damage_type (map Hist.damage_type (List.filter Hist.is_claimed h'))).
  { unfold one_damage_type. f_equal. f_equal.
    apply list_to_set_perm_L. apply Permutation_map. apply filter_Permutation. exact H. }
  rewrite !length_map, E4, E3, E2, E1. reflexivity.
Qed.

(** Against an aware claim date, the first entry of a history with naive
    dates already fails. *)
Lemma recent_claims_aware_dated (c : datetime) (historical_data : list Hist.t) :
  dated historical_data ->
  recent_claims (Aware c) historical_data
  = match historical_data with
    | [] => Ok []
    | _ :: _ => Raise TypeError
    end.
Proof.
  intros Hd. destruct Hd as [|h rest (t & Ht) _]; [reflexivity|].
  simpl. rewrite Ht. reflexivity.
Qed.

Lemma temporal_Permutation (farmer_data : Farmer.t) (claim_data : Claim.t)
  (h h' : list Hist.t) :
  dated h -> Permutation h h' ->
  _analyze_temporal_patterns farmer_data claim_data h
  = _analyze_temporal_patterns farmer_data claim_data h'.
Proof.
  intros Hd Hp.
  assert (Hd' : dated h') by (unfold dated; rewrite <- Hp; exact Hd).
  unfold _analyze_temporal_patterns.
  destruct (Claim.claim_date claim_data) as [[cd|cd|]|]; step; try reflexivity.
  - rewrite (recent_claims_filter (Naive cd) h) by (apply dated_naive; exact Hd).
    rewrite (recent_claims_filter (Naive cd) h') by (apply dated_naive; exact Hd').
    step. rewrite (filter_length_Permutation (is_recent (Naive cd)) h h' Hp). reflexivity.
  - rewrite (recent_claims_aware_dated cd h Hd), (recent_claims_aware_dated cd h' Hd').
    destruct h as [|x l], h' as [|x' l']; try reflexivity.
    + apply Permutation_nil_l in Hp. discriminate Hp.
    + apply Permutation_nil_r in Hp. discriminate Hp.
Qed.

(** X18. The order of the history does not matter: the behavioral score of
    a reordered history is the same, and for a history whose entries are
    all dated the whole assessment (or the exception raised) is the same. *)
Theorem history_order_irrelevant (self : providers) (now : Z) (farmer_data : Farmer.t)
  (claim_data : Claim.t) (h h' : list Hist.t) :
  Permutation h h' ->
  _analyze_farmer_behavior farmer_data h = _analyze_farmer_behavior farmer_data h' /\
  (dated h ->
   detect_claim_fraud self now farmer_data claim_data h
   = detect_claim_fraud self now farmer_data claim_data h').
Proof.
  intros Hp. split; [apply behavior_Permutation; exact Hp|].
  intros Hd. unfold detect_claim_fraud, analyze.
  rewrite (temporal_Permutation farmer_data claim_data h h' Hd Hp).
  rewrite (behavior_Permutation farmer_data h h' Hp). reflexivity.
Qed.

Lemma history_order_irrelevant_witness :
  detect_claim_fraud quiet 0 kumar (maize_claim 100)
    [policy_on 90; drought_claim_on 20; policy_on 10]
  = detect_claim_fraud quiet 0 kumar (maize_claim 100)
      [drought_claim_on 20; policy_on 90; policy_on 10].
Proof.
  apply (history_order_irrelevant quiet 0 kumar (maize_claim 100)
           [policy_on 90; drought_claim_on 20; policy_on 10]
           [drought_claim_on 20; policy_on 90; policy_on 10]).
  - apply perm_swap.
  - repeat constructor; eexists; reflexivity.
Defined.

(** ** When the engine returns *)

Lemma getitem_Ok {A : Type} (key : string) (field : option A) (v : A) :
  getitem key field = Ok v -> field = Some v.
Proof. destruct field; simpl; intros H; inversion H; reflexivity. Qed.

Lemma fromisoformat_kind (s : isostr) (d : pydatetime) :
  fromisoformat s = Ok d -> kind_of (Some s) = Some (kind_of_datetime d).
Proof. destruct s; simpl; intros H; inversion H; reflexivity. Qed.

Lemma sub_datetime_Ok (a b : pydatetime) (delta : Z) :
  sub_datetime a b = Ok delta -> kind_of_datetime b = kind_of_datetime a.
Proof. destruct a, b; simpl; intros H; try discriminate H; reflexivity. Qed.

Lemma recent_claims_Ok_kind (claim_date : pydatetime) (historical_data recent : list Hist.t) :
  recent_claims claim_date historical_data = Ok recent ->
  Forall (fun h => kind_of (Hist.date h) = Some (kind_of_datetime claim_date))
    historical_data.
Proof.
  revert recent. induction historical_data as [|h rest IH]; intros recent H.
  - constructor.
  - simpl in H. bind_inv H.
    match goal with
    | G1 : getitem _ _ = Ok _, G2 : fromisoformat _ = Ok _, G3 : sub_datetime _ _ = Ok _,
      G4 : recent_claims _ _ = Ok _ |- _ =>
        apply getitem_Ok in G1; apply fromisoformat_kind in G2;
        apply sub_datetime_Ok in G3; apply IH in G4;
        constructor; [rewrite G1, G2, G3; reflexivity | exact G4]
    end.
Qed.

Lemma temporal_Ok_fields (farmer_data : Farmer.t) (claim_data : Claim.t)
  (historical_data : list Hist.t) (t : Q) :
  _analyze_temporal_patterns farmer_data claim_data historical_data = Ok t ->
  (exists k, dates_of_kind k claim_data historical_data) /\
  (exists c, Claim.crop_type claim_data = Some c).
Proof.
  unfold _analyze_temporal_patterns. intros H. bind_inv H.
  match goal with
  | G1 : getitem "claim_date" _ = Ok ?s1, G2 : fromisoformat ?s1 = Ok ?d1,
    G3 : recent_claims ?d1 _ = Ok _, G4 : getitem "crop_type" _ = Ok _,
    G5 : getitem "sowing_date" _ = Ok ?s2, G6 : fromisoformat ?s2 = Ok ?d2,
    G7 : sub_datetime ?d1 ?d2 = Ok _ |- _ =>
      apply getitem_Ok in G1; apply fromisoformat_kind in G2;
      apply recent_claims_Ok_kind in G3; apply getitem_Ok in G4;
      apply getitem_Ok in G5; apply fromisoformat_kind in G6;
      apply sub_datetime_Ok in G7;
      split; [exists (kind_of_datetime d1) | eauto];
      split; [rewrite G1; exact G2|]; split; [rewrite G5, G6, G7; reflexivity | exact G3]
  end.
Qed.

Lemma geospatial_Ok_area (self : providers) (claim_data : Claim.t) (g : Q) :
  _verify_geospatial_data self claim_data = Ok g ->
  truthy_float (_estimate_field_area_from_satellite self (Claim.latitude claim_data)
                  (Claim.longitude claim_data)) = true ->
  exists a, Claim.area_hectares claim_data = Some a /\ (a =? 0)%float = false.
Proof.
  intros Hg Ht. apply geospatial_eq in Hg. destruct Hg as (b & Hb & _).
  apply truthy_float_true in Ht. destruct Ht as (e & He & Hne).
  rewrite He in Hb. unfold area_mismatch in Hb. rewrite Hne in Hb.
  destruct (Claim.area_hectares claim_data) as [a|]; [|discriminate Hb].
  destruct (a =? 0)%float eqn:Ea; [discriminate Hb|].
  exists a. split; [reflexivity | exact Ea].
Qed.

(** X19. The engine returns an assessment exactly when the claim date, the
    sowing date and the date of every entry of the history are present, in
    ISO format and of one kind (all without or all with a UTC offset), the
    crop type is present, and the reported area is present and not zero
    whenever the area estimate is not zero; in every other case it raises,
    and no other field of the claim or of the farmer is needed. *)
Theorem detect_claim_fraud_returns_iff (self : providers) (now : Z)
  (farmer_data : Farmer.t) (claim_data : Claim.t) (historical_data : list Hist.t) :
  (exists r, detect_claim_fraud self now farmer_data claim_data historical_data = Ok r) <->
  scorable self claim_data historical_data.
Proof.
  split.
  - intros (r & Hr). apply detect_claim_fraud_Ok in Hr. destruct Hr as (s & Hs & _).
    apply analyze_Ok in Hs. destruct Hs as (t & g & Ht & Hg & _).
    destruct (temporal_Ok_fields _ _ _ _ Ht) as (Hk & Hcrop).
    split; [exact Hk|]. split; [exact Hcrop|].
    apply (geospatial_Ok_area _ _ _ Hg).
  - apply detect_scorable.
Qed.

Lemma detect_claim_fraud_returns_iff_witness :
  scorable quiet (claim_of "maize" 100 None None None "pest") [].
Proof.
  apply (detect_claim_fraud_returns_iff quiet 0 anonymous).
  eexists. vm_compute. reflexivity.
Defined.

(** ** SimpleFraudDetector *)

(** X20. The demonstration detector returns an assessment exactly when the
    crop type is present, the days since sowing are present if the crop is
    wheat or rice, and the damage type is present; otherwise it raises the
    [KeyError] of the first of these keys that is missing.  The days since
    sowing are not read for other crops, and no pattern lookup fails. *)
Theorem demo_detect_fraud_outcomes (farmer_data : Farmer.t) (claim_data : Demo.Claim.t)
  (historical_data : list Hist.t) :
  (Demo.Claim.crop_type claim_data = None ->
   Demo.detect_fraud farmer_data claim_data historical_data
   = Raise (KeyError "crop_type")) /\
  (forall crop,
      Demo.Claim.crop_type claim_data = Some crop -> crop ∈ ["wheat"; "rice"] ->
      Demo.Claim.days_since_sowing claim_data = None ->
      Demo.detect_fraud farmer_data claim_data historical_data
      = Raise (KeyError "days_since_sowing")) /\
  (forall crop,
      Demo.Claim.crop_type claim_data = Some crop ->
      (crop ∈ ["wheat"; "rice"] -> is_Some (Demo.Claim.days_since_sowing claim_data)) ->
      Demo.Claim.damage_type claim_data = None ->
      Demo.detect_fraud farmer_data claim_data historical_data
      = Raise (KeyError "damage_type")) /\
  (forall crop,
      Demo.Claim.crop_type claim_data = Some crop ->
      (crop ∈ ["wheat"; "rice"] -> is_Some (Demo.Claim.days_since_sowing claim_data)) ->
      is_Some (Demo.Claim.damage_type claim_data) ->
      exists r, Demo.detect_fraud farmer_data claim_data historical_data = Ok r).
Proof.
  split; [|split; [|split]].
  - intros Hcrop. unfold Demo.detect_fraud, Demo.analyze.
    rewrite demo_timing_eq, Hcrop. reflexivity.
  - intros crop Hcrop Hin Hdays. unfold Demo.detect_fraud, Demo.analyze.
    rewrite demo_timing_eq, Hcrop. step.
    rewrite (bool_decide_eq_true_2 _ Hin), Hdays. reflexivity.
  - intros crop Hcrop Hdays Hdamage. unfold Demo.detect_fraud, Demo.analyze.
    destruct (demo_timing_total claim_data historical_data crop Hcrop Hdays) as (near & ->).
    rewrite demo_geospatial_eq. step.
    unfold Demo.analyze_weather. rewrite Hdamage. reflexivity.
  - intros crop Hcrop Hdays [damage Hdamage]. unfold Demo.detect_fraud, Demo.analyze.
    destruct (demo_timing_total claim_data historical_data crop Hcrop Hdays) as (near & ->).
    rewrite demo_geospatial_eq. step.
    destruct (demo_weather_eq claim_data damage Hdamage) as (p & -> & _). step.
    rewrite demo_satellite_eq. step.
    destruct (demo_behavior_eq farmer_data historical_data) as (a & _ & ->). step.
    eauto.
Qed.

(** A cotton claim is assessed without its days since sowing. *)
Lemma demo_detect_fraud_outcomes_witness :
  exists r,
    Demo.detect_fraud kumar
      {| Demo.Claim.crop_type := Some "cotton"; Demo.Claim.days_since_sowing := None;
         Demo.Claim.damage_type := Some "flood"; Demo.Claim.claim_amount := None;
         Demo.Claim.has_duplicate_coords := None; Demo.Claim.area_mismatch := None;
         Demo.Claim.rainfall := Some 120; Demo.Claim.temperature := None;
         Demo.Claim.artificial_patterns := None; Demo.Claim.sudden_ndvi_drop := None |}
      [] = Ok r.
Proof.
  apply (demo_detect_fraud_outcomes kumar _ [] ) with (crop := "cotton").
  - reflexivity.
  - intros H. exfalso. rewrite !elem_of_cons, elem_of_nil in H. intuition discriminate.
  - eexists. reflexivity.
Defined.

(** X21. The demonstration detector never rejects a claim automatically:
    its unrounded fraud score is at most 0.815, below the 0.85 of the
    flag.  A claim on which every rule fires weighs 0.815 on paper; its
    float score is 0.8149999999999999, it is CRITICAL and it is reported
    as 0.81. *)
Theorem demo_never_auto_rejects :
  (forall farmer_data claim_data historical_data r,
      Demo.detect_fraud farmer_data claim_data historical_data = Ok r ->
      Assessment.auto_reject r = false /\
      exists s, Demo.analyze farmer_data claim_data historical_data = Ok s /\
                (weighted_sum s <= 0.815)%float) /\
  (exists r,
      Demo.detect_fraud kumar demo_worst_claim [drought_claim_on 10; drought_claim_on 20]
      = Ok r /\
      Assessment.risk r = CRITICAL /\ Assessment.auto_reject r = false /\
      Assessment.fraud_score r = 0.81%float /\
      exists s,
        Demo.analyze kumar demo_worst_claim [drought_claim_on 10; drought_claim_on 20]
        = Ok s /\
        0.25 * temporal_score s + 0.25 * geo_score s + 0.20 * weather_score s
        + 0.20 * satellite_score s + 0.10 * behavioral_score s == 0.815 /\
        weighted_sum s = 0.8149999999999999%float).
Proof.
  split.
  - intros farmer_data claim_data historical_data r Hr.
    apply demo_detect_fraud_Ok in Hr. destruct Hr as (s & Hs & ->). simpl.
    pose proof (demo_forall
                  (fun s => negb (weighted_sum s >? 0.85)%float
                            && (weighted_sum s <=? 0.815)%float)
                  ltac:(vm_compute; reflexivity) _ _ _ _ Hs) as H.
    cbv beta in H. apply andb_true_iff in H. destruct H as [H1 H2].
    apply negb_true_iff in H1. split; [exact H1 | eauto].
  - eexists. split; [vm_compute; reflexivity|].
    split; [reflexivity|]. split; [reflexivity|]. split; [reflexivity|].
    eexists. split; [vm_compute; reflexivity|]. split; reflexivity.
Qed.

Lemma demo_indicators_elem_of (s : sub_scores) :
  (timing_indicator ∈ Demo.indicators s <-> 0.3 < temporal_score s) /\
  (geo_indicator ∈ Demo.indicators s <-> 0.4 < geo_score s) /\
  (weather_indicator ∈ Demo.indicators s <-> 0.5 < weather_score s) /\
  (satellite_indicator ∈ Demo.indicators s <-> 0.5 < satellite_score s) /\
  (behavior_indicator ∈ Demo.indicators s <-> 0.4 < behavioral_score s).
Proof.
  unfold Demo.indicators.
  rewrite <- !Qltb_lt.
  repeat split; rewrite !elem_of_append_if, elem_of_nil;
    unfold timing_indicator, geo_indicator, weather_indicator, satellite_indicator,
      behavior_indicator; intuition (try discriminate).
Qed.

(** X22. In an assessment of the demonstration detector the timing
    indicator is present exactly when the history has at least two entries,
    whatever they are (the near-harvest rule alone stays at the threshold
    of 0.3); the geospatial indicator exactly when the coordinates are
    flagged as duplicates (an area mismatch alone stays at the threshold of
    0.4); the satellite indicator exactly when artificial patterns or a
    sudden NDVI drop are flagged; the behavioral indicator exactly when
    more than 70% of the entries are claimed. *)
Theorem demo_indicators_iff (farmer_data : Farmer.t) (claim_data : Demo.Claim.t)
  (historical_data : list Hist.t) (r : Assessment.t) :
  Demo.detect_fraud farmer_data claim_data historical_data = Ok r ->
  (timing_indicator ∈ Assessment.fraud_indicators r <->
   (2 <= length historical_data)%nat) /\
  (geo_indicator ∈ Assessment.fraud_indicators r <->
   default false (Demo.Claim.has_duplicate_coords claim_data) = true) /\
  (satellite_indicator ∈ Assessment.fraud_indicators r <->
   default false (Demo.Claim.artificial_patterns claim_data) = true \/
   default false (Demo.Claim.sudden_ndvi_drop claim_data) = true) /\
  (behavior_indicator ∈ Assessment.fraud_indicators r <->
   (7 * total_policies historical_data < 10 * total_claims historical_data)%nat).
Proof.
  intros Hr. apply demo_detect_fraud_Ok in Hr. destruct Hr as (s & Hs & ->). simpl.
  destruct (demo_indicators_elem_of s) as (-> & -> & _ & -> & ->).
  destruct (demo_analyze_Ok _ _ _ _ Hs) as (near & a & p & damage & _ & Ha & _ & ->).
  simpl. split; [|split; [|split]].
  - destruct (1 <? length historical_data)%nat eqn:E;
      [apply Nat.ltb_lt in E | apply Nat.ltb_ge in E]; destruct near;
      (split; [intros H; first [lia | vm_compute in H; discriminate H]
              | intros H; first [qdecide | lia]]).
  - destruct (default 0 (Demo.Claim.area_mismatch claim_data) >? 0.3);
      destruct (default false (Demo.Claim.has_duplicate_coords claim_data));
      (split; [intros H; first [reflexivity | vm_compute in H; discriminate H]
              | intros H; first [qdecide | discriminate H]]).
  - destruct (default false (Demo.Claim.artificial_patterns claim_data));
      destruct (default false (Demo.Claim.sudden_ndvi_drop claim_data));
      (split; [intros H; first [left; reflexivity | right; reflexivity
                               | vm_compute in H; discriminate H]
              | intros [H|H]; first [qdecide | discriminate H]]).
  - destruct a.
    + split; [intros _; apply Ha; reflexivity | intros _; qdecide].
    + split; [intros H; vm_compute in H; discriminate H
             | intros H; apply Ha in H; discriminate H].
Qed.

(** The first scenario of the demonstration: two entries in the history. *)
Lemma demo_indicators_iff_witness :
  exists r,
    Demo.detect_fraud kumar demo_claim [drought_claim_on 10; drought_claim_on 20] = Ok r /\
    timing_indicator ∈ Assessment.fraud_indicators r.
Proof.
  eexists. split; [vm_compute; reflexivity|].
  apply (demo_indicators_iff kumar demo_claim [drought_claim_on 10; drought_claim_on 20]).
  - vm_compute. reflexivity.
  - simpl. lia.
Defined.

(** X23. The weather score of the demonstration detector, for a claim with
    a damage type: 0.7 for drought with more than 20 mm of rain and for
    flood with less than 50 mm, 0.6 for frost with a temperature above 5
    degrees (20 when no temperature is given), and 0 in every other case;
    hail is not checked at all. *)
Theorem demo_weather_rules (claim_data : Demo.Claim.t) (damage : string) :
  Demo.Claim.damage_type claim_data = Some damage ->
  exists w,
    Demo.analyze_weather claim_data = Ok w /\
    (damage = "drought" /\ 20 < default 0 (Demo.Claim.rainfall claim_data) /\ w == 0.7 \/
     damage = "flood" /\ default 0 (Demo.Claim.rainfall claim_data) < 50 /\ w == 0.7 \/
     damage = "frost" /\ 5 < default 20 (Demo.Claim.temperature claim_data) /\ w == 0.6 \/
     ~ (damage = "drought" /\ 20 < default 0 (Demo.Claim.rainfall claim_data)) /\
     ~ (damage = "flood" /\ default 0 (Demo.Claim.rainfall claim_data) < 50) /\
     ~ (damage = "frost" /\ 5 < default 20 (Demo.Claim.temperature claim_data)) /\
     w == 0) /\
    (damage = "hail" -> w == 0).
Proof.
  intros Hd. destruct (demo_weather_eq claim_data damage Hd) as (p & Hw & Hp).
  exists (Qmin (0 + p) 1). split; [exact Hw|]. split.
  - destruct Hp as [(H1 & H2 & ->)|[(H1 & H2 & ->)|[(H1 & H2 & ->)|(H1 & H2 & H3 & ->)]]].
    + left. split; [exact H1|]. split; [exact H2 | qdecide].
    + right. left. split; [exact H1|]. split; [exact H2 | qdecide].
    + right. right. left. split; [exact H1|]. split; [exact H2 | qdecide].
    + right. right. right. split; [exact H1|]. split; [exact H2|].
      split; [exact H3 | qdecide].
  - intros ->.
    destruct Hp as [(H & _)|[(H & _)|[(H & _)|(_ & _ & _ & ->)]]];
      try discriminate H. qdecide.
Qed.

Lemma demo_weather_rules_witness :
  exists w, Demo.analyze_weather demo_worst_claim = Ok w /\ w == 0.7.
Proof.
  destruct (demo_weather_rules demo_worst_claim "drought" eq_refl)
    as (w & Hw & [(_ & _ & H)|[(H & _)|[(H & _)|(H & _)]]] & _).
  - exists w. split; assumption.
  - discriminate H.
  - discriminate H.
  - exfalso. apply H. split; [reflexivity | qdecide].
Defined.

(** ** The reported score *)

(** X24. The score an engine assessment reports is the float nearest to a
    whole number of hundredths between 0.00 and 0.89, and that number of
    hundredths is within 0.005 of the unrounded score that decides the
    tier and the flags. *)
Theorem reported_score (self : providers) (now : Z) (farmer_data : Farmer.t)
  (claim_data : Claim.t) (historical_data : list Hist.t) (r : Assessment.t) :
  detect_claim_fraud self now farmer_data claim_data historical_data = Ok r ->
  exists s (n : Z),
    analyze self farmer_data claim_data historical_data = Ok s /\
    (0 <= n <= 89)%Z /\
    Assessment.fraud_score r = (float_of_Z n / 100)%float /\
    - 0.005 <= inject_Z n / 100 - value (weighted_sum s) <= 0.005.
Proof.
  intros Hr. apply detect_claim_fraud_Ok in Hr. destruct Hr as (s & Hs & ->). simpl.
  pose proof (engine_forall rounds_to_hundredths ltac:(vm_compute; reflexivity)
                _ _ _ _ _ Hs) as H.
  apply rounds_to_hundredths_spec in H. destruct H as (n & Hn & H1 & H2).
  exists s, n. split; [exact Hs|]. split; [exact Hn|]. split; [exact H1|].
  apply Qabs_Qle_condition in H2. destruct H2 as [H2 H3]. split; lra.
Qed.

Lemma reported_score_witness :
  exists r s (n : Z),
    detect_claim_fraud staged 0 kumar staged_claim staged_history = Ok r /\
    analyze staged kumar staged_claim staged_history = Ok s /\
    Assessment.fraud_score r = (float_of_Z n / 100)%float /\
    - 0.005 <= inject_Z n / 100 - value (weighted_sum s) <= 0.005.
Proof.
  destruct (detect_scorable staged 0 kumar staged_claim staged_history staged_scorable)
    as (r & Hr).
  destruct (reported_score _ _ _ _ _ _ Hr) as (s & n & Hs & _ & Hn & Hclose).
  exists r, s, n. split; [exact Hr|]. split; [exact Hs|]. split; [exact Hn | exact Hclose].
Defined.

(** ** The exceptions of the engine *)

Lemma recent_claims_Raise (claim_date : pydatetime) (historical_data : list Hist.t)
  (e : exn) :
  recent_claims claim_date historical_data = Raise e ->
  ~ Forall (fun h => kind_of (Hist.date h) = Some (kind_of_datetime claim_date))
      historical_data /\
  (e = KeyError "date" \/ e = ValueError \/ e = TypeError).
Proof.
  intros H. split.
  - intros Hk. rewrite (recent_claims_filter _ _ Hk) in H. discriminate H.
  - revert H. induction historical_data as [|h rest IH]; simpl; [discriminate|].
    destruct (Hist.date h) as [[t|t|]|]; step;
      try (intros H; injection H as <-; tauto).
    + destruct claim_date as [c|c]; step; try (intros H; injection H as <-; tauto).
      destruct (recent_claims (Naive c) rest) as [l|e'] eqn:Hrest; step; [discriminate|].
      intros H. injection H as <-. apply IH. reflexivity.
    + destruct claim_date as [c|c]; step; try (intros H; injection H as <-; tauto).
      destruct (recent_claims (Aware c) rest) as [l|e'] eqn:Hrest; step; [discriminate|].
      intros H. injection H as <-. apply IH. reflexivity.
Qed.

Lemma is_recent_spec (c t : datetime) (entry : Hist.t) :
  (Hist.date entry = Some (Iso t) ->
   (is_recent (Naive c) entry = true <-> (c - 90 * day_us < t)%Z)) /\
  (Hist.date entry = Some (IsoOffset t) ->
   (is_recent (Aware c) entry = true <-> (c - 90 * day_us < t)%Z)).
Proof.
  split; intros H; unfold is_recent; rewrite H, days_lt_90; lia.
Qed.

(** X25. The list comprehension of the temporal analyzer returns exactly
    when every entry of the history carries a date in ISO format of the
    kind of the claim date (without or with a UTC offset), and then
    returns, in their order, the entries dated later than 90 days before
    the claim date; otherwise it raises [KeyError] on the key [date],
    [ValueError] or [TypeError], whichever the first unusable entry
    causes. *)
Theorem recent_claims_spec (claim_date : pydatetime) (historical_data : list Hist.t) :
  (forall recent,
      recent_claims claim_date historical_data = Ok recent <->
      Forall (fun h => kind_of (Hist.date h) = Some (kind_of_datetime claim_date))
        historical_data /\
      recent = List.filter (is_recent claim_date) historical_data) /\
  (forall e,
      recent_claims claim_date historical_data = Raise e ->
      ~ Forall (fun h => kind_of (Hist.date h) = Some (kind_of_datetime claim_date))
          historical_data /\
      (e = KeyError "date" \/ e = ValueError \/ e = TypeError)) /\
  (forall entry c t,
      (Hist.date entry = Some (Iso t) ->
       (is_recent (Naive c) entry = true <-> (c - 90 * day_us < t)%Z)) /\
      (Hist.date entry = Some (IsoOffset t) ->
       (is_recent (Aware c) entry = true <-> (c - 90 * day_us < t)%Z))) /\
  (forall c t rest,
      recent_claims (Aware c)
        ({| Hist.date := Some (Iso t); Hist.claimed := None; Hist.damage_type := None;
            Hist.claim_amount := None; Hist.policy_amount := None |} :: rest)
      = Raise TypeError).
Proof.
  split; [|split; [|split]].
  - intros recent. split.
    + intros H. pose proof (recent_claims_Ok_kind _ _ _ H) as Hd.
      split; [exact Hd|].
      rewrite (recent_claims_filter claim_date historical_data Hd) in H.
      injection H as <-. reflexivity.
    + intros [Hd ->]. apply recent_claims_filter. exact Hd.
  - apply recent_claims_Raise.
  - intros entry c t. apply is_recent_spec.
  - reflexivity.
Qed.

Lemma recent_claims_spec_witness :
  recent_claims (Naive (100 * day_us)%Z)
    [policy_on 5; drought_claim_on 20; policy_on 130; policy_on 10]
  = Ok [drought_claim_on 20; policy_on 130].
Proof.
  apply (recent_claims_spec (Naive (100 * day_us)%Z)
           [policy_on 5; drought_claim_on 20; policy_on 130; policy_on 10]).
  split.
  - repeat constructor.
  - vm_compute. reflexivity.
Defined.

Lemma temporal_Raise (farmer_data : Farmer.t) (claim_data : Claim.t)
  (historical_data : list Hist.t) (e : exn) :
  _analyze_temporal_patterns farmer_data claim_data historical_data = Raise e ->
  e = KeyError "claim_date" \/ e = KeyError "date" \/ e = KeyError "crop_type" \/
  e = KeyError "sowing_date" \/ e = ValueError \/ e = TypeError.
Proof.
  unfold _analyze_temporal_patterns.
  destruct (Claim.claim_date claim_data) as [s1|]; step;
    try (intros H; injection H as <-; tauto).
  destruct (fromisoformat s1) as [d1|e1] eqn:Hp1; step.
  2:{ destruct s1; try discriminate Hp1. injection Hp1 as <-.
      intros H. injection H as <-. tauto. }
  destruct (recent_claims d1 historical_data) as [recent|e'] eqn:Hrec; step.
  2:{ intros H. injection H as <-.
      destruct (recent_claims_Raise _ _ _ Hrec) as [_ [->|[->| ->]]]; tauto. }
  destruct (Claim.crop_type claim_data) as [crop|]; step;
    try (intros H; injection H as <-; tauto).
  destruct (Claim.sowing_date claim_data) as [s2|]; step;
    try (intros H; injection H as <-; tauto).
  destruct (fromisoformat s2) as [d2|e2] eqn:Hp2; step.
  2:{ destruct s2; try discriminate Hp2. injection Hp2 as <-.
      intros H. injection H as <-. tauto. }
  destruct d1, d2; step; try discriminate; intros H; injection H as <-; tauto.
Qed.

Lemma geospatial_Raise (self : providers) (claim_data : Claim.t) (e : exn) :
  _verify_geospatial_data self claim_data = Raise e ->
  e = TypeError \/ e = ZeroDivisionError.
Proof.
  unfold _verify_geospatial_data, area_mismatch.
  destruct (_estimate_field_area_from_satellite self _ _) as [est|]; step;
    [|discriminate].
  destruct (est =? 0)%float; step; [discriminate|].
  destruct (Claim.area_hectares claim_data) as [r|]; step.
  - destruct (r =? 0)%float; step; [|discriminate].
    intros H. injection H as <-. tauto.
  - intros H. injection H as <-. tauto.
Qed.

(** X26. The engine raises nothing but [KeyError] on [claim_date], [date],
    [crop_type] or [sowing_date], [ValueError] (a date not in ISO format),
    [TypeError] (dates of different kinds, or no reported area to compare
    with the estimate) and [ZeroDivisionError] (a reported area of zero);
    a failure of the temporal analyzer comes first, and the farmer data
    never cause one. *)
Theorem detect_claim_fraud_exceptions (self : providers) (now : Z)
  (farmer_data : Farmer.t) (claim_data : Claim.t) (historical_data : list Hist.t)
  (e : exn) :
  detect_claim_fraud self now farmer_data claim_data historical_data = Raise e ->
  (_analyze_temporal_patterns farmer_data claim_data historical_data = Raise e /\
   (e = KeyError "claim_date" \/ e = KeyError "date" \/ e = KeyError "crop_type" \/
    e = KeyError "sowing_date" \/ e = ValueError \/ e = TypeError)) \/
  ((exists t, _analyze_temporal_patterns farmer_data claim_data historical_data = Ok t) /\
   _verify_geospatial_data self claim_data = Raise e /\
   (e = TypeError \/ e = ZeroDivisionError)).
Proof.
  unfold detect_claim_fraud, analyze.
  destruct (_analyze_temporal_patterns farmer_data claim_data historical_data)
    as [t|e'] eqn:Ht; step.
  - destruct (_verify_geospatial_data self claim_data) as [g|e''] eqn:Hg; step;
      [discriminate|].
    intros H. injection H as <-. right.
    split; [eauto|]. split; [reflexivity|]. apply (geospatial_Raise _ _ _ Hg).
  - intros H. injection H as <-. left.
    split; [reflexivity|]. apply (temporal_Raise _ _ _ _ Ht).
Qed.

Lemma detect_claim_fraud_exceptions_witness :
  _analyze_temporal_patterns kumar
    (claim_of "wheat" 100 None None None "pest") [unclaimed_full_amount;
      {| Hist.date := Some NotIso; Hist.claimed := None; Hist.damage_type := None;
         Hist.claim_amount := None; Hist.policy_amount := None |}]
  = Raise ValueError.
Proof.
  destruct (detect_claim_fraud_exceptions surveyed 0 kumar
              (claim_of "wheat" 100 None None None "pest")
              [unclaimed_full_amount;
               {| Hist.date := Some NotIso; Hist.claimed := None;
                  Hist.damage_type := None; Hist.claim_amount := None;
                  Hist.policy_amount := None |}] ValueError eq_refl)
    as [[H _]|[[t H] _]].
  - exact H.
  - discriminate H.
Defined.

(** ** The saved report *)

(** X27. In the report saved for an engine assessment the investigation
    flag is the field-verification flag, and the automatic rejection is
    not recorded: a report that requires investigation has tier HIGH or
    CRITICAL and a reported score of at least 0.60, and a report of tier
    LOW or MEDIUM requires none and reports at most 0.60. *)
Theorem saved_report (self : providers) (now later : Z) (farmer_data : Farmer.t)
  (claim_data : Claim.t) (historical_data : list Hist.t) (r : Assessment.t)
  (blockchain_hash : string) :
  detect_claim_fraud self now farmer_data claim_data historical_data = Ok r ->
  (Report.requires_investigation
     (save_fraud_report later (Farmer.farmer_id farmer_data) r blockchain_hash) = true ->
   (Report.risk
      (save_fraud_report later (Farmer.farmer_id farmer_data) r blockchain_hash) = HIGH \/
    Report.risk
      (save_fraud_report later (Farmer.farmer_id farmer_data) r blockchain_hash) = CRITICAL)
   /\ (0.6 <= Report.fraud_score
                (save_fraud_report later (Farmer.farmer_id farmer_data) r
                   blockchain_hash))%float) /\
  (Report.risk
     (save_fraud_report later (Farmer.farmer_id farmer_data) r blockchain_hash) = LOW \/
   Report.risk
     (save_fraud_report later (Farmer.farmer_id farmer_data) r blockchain_hash) = MEDIUM ->
   Report.requires_investigation
     (save_fraud_report later (Farmer.farmer_id farmer_data) r blockchain_hash) = false /\
   (Report.fraud_score
      (save_fraud_report later (Farmer.farmer_id farmer_data) r blockchain_hash)
    <= 0.6)%float).
Proof.
  intros Hr. apply detect_claim_fraud_Ok in Hr. destruct Hr as (s & Hs & ->). simpl.
  pose proof (engine_forall
                (fun s => if (weighted_sum s >? 0.6)%float
                          then (0.6 <=? round2 (weighted_sum s))%float
                          else (round2 (weighted_sum s) <=? 0.6)%float)
                ltac:(vm_compute; reflexivity) _ _ _ _ _ Hs) as H.
  cbv beta in H.
  destruct (flags_of_score (weighted_sum s)) as (_ & Hreq & Hlow).
  split.
  - intros G. split; [apply Hreq; exact G|]. rewrite G in H. exact H.
  - intros G. destruct (Hlow G) as [Hf _]. split; [exact Hf|]. rewrite Hf in H. exact H.
Qed.

Lemma saved_report_witness :
  exists r,
    detect_claim_fraud staged 0 kumar staged_claim staged_history = Ok r /\
    (0.6 <= Report.fraud_score
              (save_fraud_report 1 (Farmer.farmer_id kumar) r "0xabc"))%float.
Proof.
  destruct (detect_scorable staged 0 kumar staged_claim staged_history staged_scorable)
    as (r & Hr).
  exists r. split; [exact Hr|].
  apply (saved_report staged 0 1 kumar staged_claim staged_history r "0xabc" Hr).
  assert (E : Ok r = Ok _) by (rewrite <- Hr; vm_compute; reflexivity).
  injection E as ->. reflexivity.
Defined.
